(** * Multi-Lens RAG: retrieval-decision engine of the enterprise pipeline

  A shallow embedding of the query-time decision logic of
  [backend/services/enterprise_rag_pipeline.py] (breadth selection, context
  optimization, response orchestration with its cache and its missing-data
  retry, source formatting, document-type detection, document deletion), of
  the configuration validation in [backend/config/enterprise_config.py], of
  the admin routes that view, update and reset the configuration in
  [backend/routes/enterprise.py], of the route that deletes a document in
  [backend/routes/upload.py] and of the document operations of
  [backend/db/mongodb_client.py].

  Conventions of the embedding:
  - Python [str] values are Rocq [string]s (sequences of 8-bit characters);
    [str.lower] is the ASCII lowering, [str.split] and [str.strip] cut on
    the ASCII blanks, [\W] is the complement of the ASCII word characters.
    The keyword tables of the source are all ASCII.
  - Python [float] scores and token estimates are exact rationals [Q]; the
    constants 1.3, 0.4, 0.5 ... are the rationals 13/10, 4/10, 5/10 ...
    Rounding of floating-point arithmetic is not modelled.
  - Python [dict]s that are iterated (the query cache, the document groups)
    are association lists in insertion order.  [list(set(xs))] is the list
    of the distinct elements of [xs]; the source only tests membership in it.
  - An exception is a value of [Py.exn]; a function that can raise returns
    [Py.result].
  - The external collaborators (embedding service, vector store, language
    model, entity extraction, rich-content generation) are variables of a
    section: a call takes the state of the outside world and returns either
    an exception or a value, together with the next state of the world.
    The orchestrator threads a state made of the query cache, the outside
    world and the list of the calls made so far.

  The first part of the file is the model, module by module in the order of
  the source; the second part states and proves its properties. *)

From Stdlib Require Import List String Ascii Bool Arith ZArith QArith Qminmax.
From Stdlib Require Import Lia Lqa Permutation Sorted.
Import ListNotations.

Local Open Scope string_scope.

(* ================================================================== *)
(** ** Strings as Python uses them *)

Module Str.

(** [c.lower()] on one ASCII character. *)
Definition lower_ascii (c : ascii) : ascii :=
  let n := nat_of_ascii c in
  if (65 <=? n)%nat && (n <=? 90)%nat then ascii_of_nat (n + 32) else c.

(** [s.lower()] *)
Fixpoint lower (s : string) : string :=
  match s with
  | EmptyString => EmptyString
  | String c s' => String (lower_ascii c) (lower s')
  end.

(** [needle in hay] *)
Fixpoint contains (needle hay : string) : bool :=
  match hay with
  | EmptyString => prefix needle EmptyString
  | String _ hay' => prefix needle hay || contains needle hay'
  end.

(** [any(w in s for w in words)] *)
Definition contains_any (words : list string) (s : string) : bool :=
  existsb (fun w => contains w s) words.

(** Characters on which [str.split()] and [str.strip()] cut. *)
Definition is_space (c : ascii) : bool :=
  let n := nat_of_ascii c in
  ((9 <=? n)%nat && (n <=? 13)%nat) || ((28 <=? n)%nat && (n <=? 32)%nat).

(** [len(s.split())]: the number of maximal runs of non-blank characters.
    [inword] tells whether the previous character was part of a word. *)
Fixpoint count_words_from (inword : bool) (s : string) : nat :=
  match s with
  | EmptyString => 0
  | String c s' =>
      if is_space c then count_words_from false s'
      else if inword then count_words_from true s'
           else S (count_words_from true s')
  end.

Definition split_len (s : string) : nat := count_words_from false s.

(** [s.lstrip()], [s.rstrip()], [s.strip()] *)
Fixpoint lstrip (s : string) : string :=
  match s with
  | EmptyString => EmptyString
  | String c s' => if is_space c then lstrip s' else s
  end.

Fixpoint rstrip (s : string) : string :=
  match s with
  | EmptyString => EmptyString
  | String c s' =>
      match rstrip s' with
      | EmptyString => if is_space c then EmptyString else String c EmptyString
      | r => String c r
      end
  end.

Definition strip (s : string) : string := rstrip (lstrip s).

(** [s.replace(old, new)] for a non-empty [old]: occurrences are replaced
    from left to right and do not overlap.  [skip] counts the characters of
    an occurrence that are still to be dropped. *)
Fixpoint replace_from (old new : string) (skip : nat) (s : string) : string :=
  match s with
  | EmptyString => EmptyString
  | String c s' =>
      match skip with
      | S k => replace_from old new k s'
      | O =>
          if prefix old s
          then new ++ replace_from old new (String.length old - 1) s'
          else String c (replace_from old new 0 s')
      end
  end.

Definition replace (old new s : string) : string := replace_from old new 0 s.

(** The class [\w] of [re] restricted to ASCII: letters, digits, underscore. *)
Definition is_word_char (c : ascii) : bool :=
  let n := nat_of_ascii c in
  ((48 <=? n)%nat && (n <=? 57)%nat) || ((65 <=? n)%nat && (n <=? 90)%nat)
  || ((97 <=? n)%nat && (n <=? 122)%nat) || (n =? 95)%nat.

(** [re.sub(r'\W+', ' ', s)]: every maximal run of non-word characters
    becomes one blank.  [inrun] tells whether the previous character was
    already part of the current run. *)
Fixpoint sub_nonword_from (inrun : bool) (s : string) : string :=
  match s with
  | EmptyString => EmptyString
  | String c s' =>
      if is_word_char c then String c (sub_nonword_from false s')
      else if inrun then sub_nonword_from true s'
           else String " "%char (sub_nonword_from true s')
  end.

Definition sub_nonword (s : string) : string := sub_nonword_from false s.

End Str.

(* ================================================================== *)
(** ** Dynamic retrieval-breadth selector *)

Module Breadth.

Definition analytical_keywords : list string :=
  [ "average"; "avg"; "mean"; "sum"; "total"; "count"; "percentage"; "%";
    "best"; "worst"; "top"; "bottom"; "highest"; "lowest"; "maximum"; "minimum";
    "compare"; "comparison"; "versus"; "vs"; "against"; "between";
    "performance"; "efficiency"; "rate"; "ratio"; "metric"; "kpi";
    "wise"; "by carrier"; "by region"; "by type"; "group by"; "breakdown";
    "trend"; "analysis"; "analytics"; "statistics"; "stats";
    "distribution"; "correlation"; "variance"; "deviation" ].

Definition _is_analytical_query (query : string) : bool :=
  let query_lower := Str.lower query in
  existsb (fun keyword => Str.contains keyword query_lower) analytical_keywords.

Definition _get_dynamic_top_k (query : string) (base_top_k : Z) : Z :=
  if _is_analytical_query query then
    if existsb (fun word => Str.contains word (Str.lower query))
               ["all"; "every"; "total"; "complete"] then 50
    else if existsb (fun word => Str.contains word (Str.lower query))
                    ["compare"; "versus"; "vs"; "between"] then 40
    else if existsb (fun word => Str.contains word (Str.lower query))
                    ["average"; "mean"; "performance"; "wise"] then 30
    else 20
  else base_top_k.

End Breadth.

(* ================================================================== *)
(** ** Python dicts with string keys, kept in insertion order *)

Module Dict.

Section Dict.

Variable V : Type.

Definition dict := list (string * V).

(** [d.get(k)] / [d[k]] *)
Fixpoint lookup (k : string) (d : dict) : option V :=
  match d with
  | [] => None
  | (k', v) :: d' => if String.eqb k' k then Some v else lookup k d'
  end.

(** [k in d] *)
Definition mem (k : string) (d : dict) : bool :=
  match lookup k d with Some _ => true | None => false end.

(** [d[k] = v]: a key already present keeps its place, a new key goes last. *)
Fixpoint set (k : string) (v : V) (d : dict) : dict :=
  match d with
  | [] => [(k, v)]
  | (k', v') :: d' =>
      if String.eqb k' k then (k', v) :: d' else (k', v') :: set k v d'
  end.

(** [del d[k]] *)
Fixpoint del (k : string) (d : dict) : dict :=
  match d with
  | [] => []
  | (k', v') :: d' => if String.eqb k' k then d' else (k', v') :: del k d'
  end.

(** [list(d.keys())] *)
Definition keys (d : dict) : list string := map fst d.

End Dict.

Arguments lookup {V} k d.
Arguments mem {V} k d.
Arguments set {V} k v d.
Arguments del {V} k d.
Arguments keys {V} d.

End Dict.

(* ================================================================== *)
(** ** The query cache *)

Module Cache.

Import Dict.

Section Cache.

Variable V : Type.

(** [_cache_result]: when the cache holds [cache_max_size] entries or more,
    the 50 oldest keys are deleted one by one; then the result is stored. *)
Definition _cache_result (cache_max_size : Z) (cache_key : string) (result : V)
    (query_cache : dict V) : dict V :=
  let query_cache1 :=
    if (cache_max_size <=? Z.of_nat (List.length query_cache))%Z then
      let oldest_keys := firstn 50 (keys query_cache) in
      fold_left (fun d key => del key d) oldest_keys query_cache
    else query_cache in
  set cache_key result query_cache1.

(** Successive calls of [_cache_result], one per entry, oldest first. *)
Definition cache_all (cache_max_size : Z) (entries : list (string * V))
    (query_cache : dict V) : dict V :=
  fold_left (fun d e => _cache_result cache_max_size (fst e) (snd e) d)
            entries query_cache.

End Cache.

Arguments _cache_result {V} cache_max_size cache_key result query_cache.
Arguments cache_all {V} cache_max_size entries query_cache.

End Cache.

(* ================================================================== *)
(** ** Enterprise configuration and its admin update route *)

Module Config.

Record ChunkingConfig := {
  chunk_size : Z;
  chunk_overlap : Z;
  max_chunks_per_document : Z;
  min_chunk_words : Z }.

Record RetrievalConfig := {
  similarity_threshold : Q;
  min_context_relevance : Q;
  max_context_tokens : Z;
  top_k_retrieval : Z;
  top_k_final : Z }.

Record ResponseConfig := {
  temperature : Q;
  max_output_tokens : Z;
  enable_citations : bool;
  enable_confidence_scores : bool }.

Record CacheConfig := {
  enable_cache : bool;
  cache_size : Z;
  cache_ttl_hours : Z;
  semantic_similarity_threshold : Q }.

Record QualityConfig := {
  min_response_length : Z;
  max_response_length : Z;
  enable_fact_checking : bool;
  enable_hallucination_detection : bool }.

Record EnterpriseConfig := {
  chunking : ChunkingConfig;
  retrieval : RetrievalConfig;
  response : ResponseConfig;
  cache : CacheConfig;
  quality : QualityConfig }.

(** The dataclass defaults. *)
Definition default_config : EnterpriseConfig :=
  {| chunking := {| chunk_size := 1200; chunk_overlap := 200;
                    max_chunks_per_document := 100; min_chunk_words := 20 |};
     retrieval := {| similarity_threshold := 5 # 10; min_context_relevance := 4 # 10;
                     max_context_tokens := 6000; top_k_retrieval := 16;
                     top_k_final := 8 |};
     response := {| temperature := 0; max_output_tokens := 4000;
                    enable_citations := true; enable_confidence_scores := true |};
     cache := {| enable_cache := true; cache_size := 500; cache_ttl_hours := 24;
                 semantic_similarity_threshold := 9 # 10 |};
     quality := {| min_response_length := 50; max_response_length := 3000;
                   enable_fact_checking := true;
                   enable_hallucination_detection := true |} |}.

(** [validate_config]: the six assertions, in the order of the source; an
    [AssertionError] makes the method return [False]. *)
Definition validate_config (self : EnterpriseConfig) : bool :=
  ((100 <=? chunk_size (chunking self))%Z && (chunk_size (chunking self) <=? 5000)%Z)
  && ((0 <=? chunk_overlap (chunking self))%Z
      && (chunk_overlap (chunking self) <? chunk_size (chunking self))%Z)
  && (Qle_bool 0 (similarity_threshold (retrieval self))
      && Qle_bool (similarity_threshold (retrieval self)) 1)
  && ((1000 <=? max_context_tokens (retrieval self))%Z
      && (max_context_tokens (retrieval self) <=? 20000)%Z)
  && (Qle_bool 0 (temperature (response self))
      && Qle_bool (temperature (response self)) 2)
  && ((100 <=? max_output_tokens (response self))%Z
      && (max_output_tokens (response self) <=? 8000)%Z).

(** Field assignments of the route, one setter per assigned attribute. *)
Definition set_chunk_size (v : Z) (c : EnterpriseConfig) : EnterpriseConfig :=
  {| chunking := {| chunk_size := v;
                    chunk_overlap := chunk_overlap (chunking c);
                    max_chunks_per_document := max_chunks_per_document (chunking c);
                    min_chunk_words := min_chunk_words (chunking c) |};
     retrieval := retrieval c; response := response c;
     cache := cache c; quality := quality c |}.

Definition set_chunk_overlap (v : Z) (c : EnterpriseConfig) : EnterpriseConfig :=
  {| chunking := {| chunk_size := chunk_size (chunking c);
                    chunk_overlap := v;
                    max_chunks_per_document := max_chunks_per_document (chunking c);
                    min_chunk_words := min_chunk_words (chunking c) |};
     retrieval := retrieval c; response := response c;
     cache := cache c; quality := quality c |}.

Definition set_similarity_threshold (v : Q) (c : EnterpriseConfig) : EnterpriseConfig :=
  {| chunking := chunking c;
     retrieval := {| similarity_threshold := v;
                     min_context_relevance := min_context_relevance (retrieval c);
                     max_context_tokens := max_context_tokens (retrieval c);
                     top_k_retrieval := top_k_retrieval (retrieval c);
                     top_k_final := top_k_final (retrieval c) |};
     response := response c; cache := cache c; quality := quality c |}.

Definition set_max_context_tokens (v : Z) (c : EnterpriseConfig) : EnterpriseConfig :=
  {| chunking := chunking c;
     retrieval := {| similarity_threshold := similarity_threshold (retrieval c);
                     min_context_relevance := min_context_relevance (retrieval c);
                     max_context_tokens := v;
                     top_k_retrieval := top_k_retrieval (retrieval c);
                     top_k_final := top_k_final (retrieval c) |};
     response := response c; cache := cache c; quality := quality c |}.

Definition set_temperature (v : Q) (c : EnterpriseConfig) : EnterpriseConfig :=
  {| chunking := chunking c; retrieval := retrieval c;
     response := {| temperature := v;
                    max_output_tokens := max_output_tokens (response c);
                    enable_citations := enable_citations (response c);
                    enable_confidence_scores := enable_confidence_scores (response c) |};
     cache := cache c; quality := quality c |}.

Definition set_max_output_tokens (v : Z) (c : EnterpriseConfig) : EnterpriseConfig :=
  {| chunking := chunking c; retrieval := retrieval c;
     response := {| temperature := temperature (response c);
                    max_output_tokens := v;
                    enable_citations := enable_citations (response c);
                    enable_confidence_scores := enable_confidence_scores (response c) |};
     cache := cache c; quality := quality c |}.

Definition set_enable_cache (v : bool) (c : EnterpriseConfig) : EnterpriseConfig :=
  {| chunking := chunking c; retrieval := retrieval c; response := response c;
     cache := {| enable_cache := v;
                 cache_size := cache_size (cache c);
                 cache_ttl_hours := cache_ttl_hours (cache c);
                 semantic_similarity_threshold :=
                   semantic_similarity_threshold (cache c) |};
     quality := quality c |}.

(** The request body of [POST /config/update]: every field is optional. *)
Record ConfigUpdateRequest := {
  req_chunk_size : option Z;
  req_chunk_overlap : option Z;
  req_similarity_threshold : option Q;
  req_max_context_tokens : option Z;
  req_temperature : option Q;
  req_max_output_tokens : option Z;
  req_enable_cache : option bool }.

(** The authenticated user, as far as the route reads it. *)
Record User := {
  role : option string;
  email : option string }.

(** What the route answers: the success body or an [HTTPException]. *)
Inductive Response :=
| Updated (config : EnterpriseConfig) (updated_by : string)
| HTTPException (status_code : Z) (detail : string).

(** [if v is not None: target = v] *)
Definition assign {A} (v : option A) (setter : A -> EnterpriseConfig -> EnterpriseConfig)
    (c : EnterpriseConfig) : EnterpriseConfig :=
  match v with Some x => setter x c | None => c end.

(** The seven guarded assignments, in the order of the source. *)
Definition apply_update (u : ConfigUpdateRequest) (c : EnterpriseConfig)
    : EnterpriseConfig :=
  let c := assign (req_chunk_size u) set_chunk_size c in
  let c := assign (req_chunk_overlap u) set_chunk_overlap c in
  let c := assign (req_similarity_threshold u) set_similarity_threshold c in
  let c := assign (req_max_context_tokens u) set_max_context_tokens c in
  let c := assign (req_temperature u) set_temperature c in
  let c := assign (req_max_output_tokens u) set_max_output_tokens c in
  assign (req_enable_cache u) set_enable_cache c.

(** [update_enterprise_config]: the global configuration object is threaded
    through explicitly; the result is the route's answer and the
    configuration left in the process afterwards. *)
Definition update_enterprise_config (config_update : ConfigUpdateRequest)
    (current_user : User) (enterprise_config : EnterpriseConfig)
    : Response * EnterpriseConfig :=
  if match role current_user with
     | Some r => String.eqb r "admin"
     | None => false
     end
  then
      let enterprise_config := apply_update config_update enterprise_config in
      if negb (validate_config enterprise_config) then
        (HTTPException 400 "Invalid configuration values provided", enterprise_config)
      else
        match email current_user with
        | Some e => (Updated enterprise_config e, enterprise_config)
        | None =>
            (HTTPException 500 "Failed to update enterprise configuration",
             enterprise_config)
        end
  else
      (HTTPException 403 "Admin access required to update enterprise configuration",
       enterprise_config).

End Config.

(* ================================================================== *)
(** ** Exceptions *)

Module Py.

(** The exceptions the modelled code can meet. *)
Inductive exn :=
| KeyError (key : string)
| ValueError (message : string)
| CollaboratorError (message : string).

(** Either an exception was raised or a value was returned. *)
Definition result (A : Type) : Type := (exn + A)%type.

End Py.

(* ================================================================== *)
(** ** Context optimizer *)

Module Optimizer.

Import Py.

(** The metadata dict of a vector-store match; [None] is an absent key. *)
Record Metadata := {
  file_name : option string;
  file_path : option string;
  text : option string;
  chunk_type : option string;
  section_title : option string;
  page_number : option Z;
  word_count : option Z;
  upload_date : option string;
  document_type : option string;
  doc_id : option string;
  (** the ['name'] of each entry of [metadata.get('entities', [])] *)
  entities : list string;
  (** [metadata.get('enterprise_entities', {})] *)
  enterprise_entities : list (string * list string) }.

Record Match := {
  id : string;
  score : Q;
  metadata : Metadata }.

(** A match after [match.enhanced_score = ...] was assigned. *)
Record Enhanced := {
  base : Match;
  enhanced_score : Q }.

(** What [entity_extraction_service.extract_entities] returns, as far as the
    optimizer reads it: the entity names and the enterprise-term lists. *)
Record QueryEntities := {
  qe_entities : list string;
  qe_enterprise_entities : list (string * list string) }.

(** The attributes of the pipeline object fixed by [__init__]. *)
Record Settings := {
  similarity_threshold : Q;
  min_context_relevance : Q;
  max_context_tokens : Z;
  cache_max_size : Z }.

Record OptimizedContext := {
  chunks : list Enhanced;
  sources : list Enhanced;
  confidence : Q;
  quality_score : Q;
  avg_relevance : Q;
  document_types : list string }.

Definition Qlt_bool (a b : Q) : bool := negb (Qle_bool b a).

(** [metadata.get(key, default)] *)
Definition get_default {A} (v : option A) (default : A) : A :=
  match v with Some x => x | None => default end.

(** [x in l] for a list of strings *)
Definition mem_string (x : string) (l : list string) : bool :=
  existsb (String.eqb x) l.

(** The elements of a list without repetition (first occurrences). *)
Fixpoint dedup {A} (eqb : A -> A -> bool) (l : list A) : list A :=
  match l with
  | [] => []
  | x :: l' => x :: filter (fun y => negb (eqb x y)) (dedup eqb l')
  end.

(** [len(set(a) & set(b))] *)
Definition common_count (a b : list string) : nat :=
  List.length (dedup String.eqb (filter (fun x => mem_string x b) a)).

Definition Qnat (n : nat) : Q := inject_Z (Z.of_nat n).

(** [self.enterprise_patterns] of the entity-extraction service. *)
Definition enterprise_patterns : Dict.dict (list string) :=
  [ ("financial_metrics",
     [ "revenue"; "profit"; "loss"; "margin"; "roi"; "ebitda"; "cash flow";
       "quarterly"; "annual"; "budget"; "forecast"; "earnings" ]);
    ("business_terms",
     [ "strategy"; "initiative"; "project"; "milestone"; "deadline";
       "stakeholder"; "customer"; "client"; "vendor"; "supplier" ]);
    ("technical_terms",
     [ "api"; "database"; "server"; "application"; "system"; "platform";
       "integration"; "deployment"; "configuration"; "architecture" ]);
    ("legal_terms",
     [ "contract"; "agreement"; "clause"; "compliance"; "regulation";
       "policy"; "procedure"; "requirement"; "obligation"; "liability" ]) ].

Definition _calculate_entity_relevance_boost (m : Match)
    (query_entity_names query_enterprise_terms : list string) : Q :=
  let chunk_entity_names := map Str.lower (entities (metadata m)) in
  let entity_matches := common_count query_entity_names chunk_entity_names in
  let boost := 0 + Qnat entity_matches * (1 # 10) in
  let chunk_enterprise_terms :=
    flat_map (fun kv => map Str.lower (snd kv)) (enterprise_entities (metadata m)) in
  let enterprise_matches := common_count query_enterprise_terms chunk_enterprise_terms in
  let boost := boost + Qnat enterprise_matches * (5 # 100) in
  let chunk_doc_type := get_default (document_type (metadata m)) "general" in
  let patterns :=
    get_default (Dict.lookup (chunk_doc_type ++ "_terms") enterprise_patterns) [] in
  let boost :=
    if existsb (fun term => mem_string term query_enterprise_terms) patterns
    then boost + (1 # 10) else boost in
  Qmin boost (3 # 10).

(** The record pattern of a data chunk. *)
Definition is_record_text (chunk_text : string) : bool :=
  Str.contains "Record" chunk_text && Str.contains "=" chunk_text
  && Str.contains "|" chunk_text.

Definition _calculate_data_chunk_boost (m : Match) (query : string) : Q :=
  let boost := 0 in
  if negb (Breadth._is_analytical_query query) then boost
  else
    let chunk_text := get_default (text (metadata m)) "" in
    let chunk_type := get_default (chunk_type (metadata m)) "unknown" in
    let boost := if is_record_text chunk_text then boost + (4 # 10) else boost in
    let boost :=
      if mem_string chunk_type ["structured_row"; "structured_data"]
      then boost + (3 # 10) else boost in
    let boost :=
      if mem_string chunk_type ["structured_header"]
         && Str.contains "Columns:" chunk_text
         && negb (Str.contains "Record" chunk_text)
      then boost - (2 # 10) else boost in
    let boost :=
      if Str.contains "carrier" (Str.lower query) && Str.contains "Carrier=" chunk_text
      then boost + (2 # 10) else boost in
    let boost :=
      if existsb (fun term => Str.contains term (Str.lower query))
                 ["delivery"; "on-time"; "performance"]
         && Str.contains "On_Time=" chunk_text
      then boost + (2 # 10) else boost in
    Qmin boost (5 # 10).

(** [l.sort(key=key, reverse=True)] and [sorted(l, key=key, reverse=True)]:
    a stable sort, largest key first; elements with equal keys keep their
    relative order. *)
Fixpoint insert_desc {A} (key : A -> Q) (x : A) (l : list A) : list A :=
  match l with
  | [] => [x]
  | y :: l' => if Qlt_bool (key x) (key y) then y :: insert_desc key x l' else x :: l
  end.

Definition sort_desc {A} (key : A -> Q) (l : list A) : list A :=
  fold_right (insert_desc key) [] l.

(** [match.metadata.get('file_name', 'unknown')] *)
Definition doc_name (m : Enhanced) : string :=
  get_default (file_name (metadata (base m))) "unknown".

(** [doc_groups[doc_name].append(match)] on a [defaultdict(list)] *)
Fixpoint group_append (name : string) (m : Enhanced)
    (doc_groups : Dict.dict (list Enhanced)) : Dict.dict (list Enhanced) :=
  match doc_groups with
  | [] => [(name, [m])]
  | (n, ms) :: rest =>
      if String.eqb n name then (n, (ms ++ [m])%list) :: rest
      else (n, ms) :: group_append name m rest
  end.

Definition group_by_document (enhanced_matches : list Enhanced)
    : Dict.dict (list Enhanced) :=
  fold_left (fun groups m => group_append (doc_name m) m groups) enhanced_matches [].

(** [max(xs)] of a non-empty sequence of numbers (Python raises on an empty
    one; the two uses below never pass one). *)
Definition py_max (xs : list Q) : Q :=
  match xs with
  | [] => 0
  | x :: rest => fold_left Qmax rest x
  end.

(** [max(m.score for m in doc_matches)] *)
Definition best_score (doc_matches : list Enhanced) : Q :=
  py_max (map (fun m => score (base m)) doc_matches).

(** The order in which the chunks of one document are offered. *)
Definition prioritize (query : string) (doc_matches : list Enhanced) : list Enhanced :=
  if Breadth._is_analytical_query query then
    let is_data m := is_record_text (get_default (text (metadata (base m))) "") in
    let data_chunks := filter is_data doc_matches in
    let metadata_chunks := filter (fun m => negb (is_data m)) doc_matches in
    (sort_desc enhanced_score data_chunks ++ sort_desc enhanced_score metadata_chunks)%list
  else sort_desc enhanced_score doc_matches.

(** The two accumulators of the selection loops. *)
Record Selection := {
  selected_chunks : list Enhanced;
  total_tokens : Q }.

(** [len(match.metadata['text'].split()) * 1.3] *)
Definition chunk_tokens_of (chunk_text : string) : Q :=
  Qnat (Str.split_len chunk_text) * (13 # 10).

(** The inner [for match in prioritized_matches] loop.  It ends on the first
    chunk that does not fit the token budget, or as soon as [top_k] chunks
    are selected; a chunk without ['text'] raises [KeyError]. *)
Fixpoint select_in_document (self : Settings) (top_k : Z)
    (prioritized_matches : list Enhanced) (acc : Selection) : result Selection :=
  match prioritized_matches with
  | [] => inr acc
  | m :: rest =>
      match text (metadata (base m)) with
      | None => inl (KeyError "text")
      | Some chunk_text =>
          let chunk_tokens := chunk_tokens_of chunk_text in
          if Qlt_bool (inject_Z (max_context_tokens self))
                      (total_tokens acc + chunk_tokens)
          then inr acc
          else
            let acc' := {| selected_chunks := (selected_chunks acc ++ [m])%list;
                           total_tokens := total_tokens acc + chunk_tokens |} in
            if (top_k <=? Z.of_nat (List.length (selected_chunks acc')))%Z
            then inr acc'
            else select_in_document self top_k rest acc'
      end
  end.

(** The outer [for doc_name, doc_matches in sorted_docs] loop. *)
Fixpoint select_from_documents (self : Settings) (query : string) (top_k : Z)
    (sorted_docs : list (string * list Enhanced)) (acc : Selection)
    : result Selection :=
  match sorted_docs with
  | [] => inr acc
  | (_, doc_matches) :: rest =>
      match select_in_document self top_k (prioritize query doc_matches) acc with
      | inl e => inl e
      | inr acc' =>
          if (top_k <=? Z.of_nat (List.length (selected_chunks acc')))%Z
          then inr acc'
          else select_from_documents self query top_k rest acc'
      end
  end.

Definition Qsum (l : list Q) : Q := fold_left Qplus l 0.

Definition option_string_eqb (a b : option string) : bool :=
  match a, b with
  | Some x, Some y => String.eqb x y
  | None, None => true
  | _, _ => false
  end.

Definition count_string (t : string) (l : list string) : nat :=
  List.length (filter (String.eqb t) l).

Definition _calculate_context_quality (chunks : list Enhanced) (query : string) : Q :=
  match chunks with
  | [] => 0
  | _ =>
      let n := Qnat (List.length chunks) in
      let relevance_score := Qsum (map (fun c => score (base c)) chunks) / n in
      let diversity_score :=
        Qnat (List.length
                (dedup option_string_eqb
                       (map (fun c => file_name (metadata (base c))) chunks))) / n in
      let completeness_score := Qmin (n / 5) 1 in
      let doc_types :=
        map (fun c => get_default (document_type (metadata (base c))) "general") chunks in
      let type_consistency :=
        Qnat (fold_left Nat.max
                (map (fun t => count_string t doc_types) (dedup String.eqb doc_types)) 0%nat)
        / Qnat (List.length doc_types) in
      let quality_score :=
        relevance_score * (4 # 10) + diversity_score * (2 # 10)
        + completeness_score * (2 # 10) + type_consistency * (2 # 10) in
      Qmin quality_score 1
  end.

Section Optimize.

(** [entity_extraction_service.extract_entities(text, document_type)] *)
Variable extract_entities : string -> string -> QueryEntities.

(** The matches that pass the relevance filter, each with its enhanced
    score, sorted by enhanced score. *)
Definition enhance_matches (self : Settings) (matches : list Match) (query : string)
    : list Enhanced :=
  let relevant_matches :=
    filter (fun m => Qle_bool (min_context_relevance self) (score m)) matches in
  let query_entities := extract_entities query "general" in
  let query_entity_names := map Str.lower (qe_entities query_entities) in
  let query_enterprise_terms :=
    flat_map (fun kv => map Str.lower (snd kv)) (qe_enterprise_entities query_entities) in
  let enhanced_matches :=
    map (fun m =>
           let entity_boost :=
             _calculate_entity_relevance_boost m query_entity_names
                                               query_enterprise_terms in
           let data_boost := _calculate_data_chunk_boost m query in
           {| base := m; enhanced_score := score m + entity_boost + data_boost |})
        relevant_matches in
  sort_desc enhanced_score enhanced_matches.

(** The documents with their matches, best raw score first. *)
Definition sorted_documents (self : Settings) (matches : list Match) (query : string)
    : list (string * list Enhanced) :=
  let doc_groups := group_by_document (enhance_matches self matches query) in
  sort_desc (fun x => best_score (snd x)) doc_groups.

Definition empty_context : OptimizedContext :=
  {| chunks := []; sources := []; confidence := 0; quality_score := 0;
     avg_relevance := 0; document_types := [] |}.

(** [avg_relevance] is the exact mean of the raw scores; the float mean of
    the source may differ from it in the last place, so that nothing below
    is stated of its exact value, only of its sign and of the range of the
    confidence. *)
Definition _optimize_context_selection (self : Settings) (matches : list Match)
    (query : string) (top_k : Z) : result OptimizedContext :=
  let sorted_docs := sorted_documents self matches query in
  match select_from_documents self query top_k sorted_docs
          {| selected_chunks := []; total_tokens := 0 |} with
  | inl e => inl e
  | inr acc =>
      let selected_chunks := selected_chunks acc in
      match selected_chunks with
      | [] => inr empty_context
      | _ =>
          let avg_relevance :=
            Qsum (map (fun c => score (base c)) selected_chunks)
            / Qnat (List.length selected_chunks) in
          let confidence := Qmin (Qmax avg_relevance 0) 1 in
          let quality_score := _calculate_context_quality selected_chunks query in
          let document_types :=
            dedup String.eqb
              (map (fun c => get_default (document_type (metadata (base c))) "general")
                   selected_chunks) in
          inr {| chunks := selected_chunks; sources := selected_chunks;
                 confidence := confidence; quality_score := quality_score;
                 avg_relevance := avg_relevance; document_types := document_types |}
      end
  end.

End Optimize.

(** *** Notions used to state the properties of the optimizer *)

(** The estimated token cost of a selected chunk: word count times 1.3. *)
Definition estimated_tokens (c : Enhanced) : Q :=
  chunk_tokens_of (get_default (text (metadata (base c))) "").

Fixpoint total_estimated_tokens (cs : list Enhanced) : Q :=
  match cs with
  | [] => 0
  | c :: rest => estimated_tokens c + total_estimated_tokens rest
  end.

(** A chunk whose metadata has a ['text']. *)
Definition carries_text (c : Enhanced) : bool :=
  match text (metadata (base c)) with Some _ => true | None => false end.

(** A chunk whose text matches the data-record pattern. *)
Definition is_data_chunk (c : Enhanced) : bool :=
  is_record_text (get_default (text (metadata (base c))) "").

(** The document a raw match belongs to. *)
Definition match_doc_name (m : Match) : string :=
  get_default (file_name (metadata m)) "unknown".

(** The single best raw score among the matches of one document. *)
Definition best_raw_score (matches : list Match) (name : string) : Q :=
  py_max (map score (filter (fun m => String.eqb (match_doc_name m) name) matches)).

(** [l1] is [l2] with some elements left out, the order kept. *)
Inductive subseq {A : Type} : list A -> list A -> Prop :=
| subseq_nil : subseq [] []
| subseq_skip x l1 l2 : subseq l1 l2 -> subseq l1 (x :: l2)
| subseq_keep x l1 l2 : subseq l1 l2 -> subseq (x :: l1) (x :: l2).

(** Every element of a list stands in relation [R] to every later one. *)
Definition ordered {A : Type} (R : A -> A -> Prop) (l : list A) : Prop :=
  StronglySorted R l.

(** What one run of a selection loop adds to the accumulators: the chunks
    [taken], in the order they were offered ([offered]); the running total
    grows by their cost and stays within the budget; the count stays within
    [top_k] when it was below [top_k] before. *)
Definition extends (self : Settings) (top_k : Z) (offered : list Enhanced)
    (acc acc' : Selection) : Prop :=
  exists taken,
    selected_chunks acc' = (selected_chunks acc ++ taken)%list
    /\ subseq taken offered
    /\ total_tokens acc' == total_tokens acc + total_estimated_tokens taken
    /\ (taken = [] \/ total_tokens acc' <= inject_Z (max_context_tokens self))
    /\ ((Z.of_nat (List.length (selected_chunks acc)) < top_k)%Z ->
        (Z.of_nat (List.length (selected_chunks acc')) <= top_k)%Z).

(** [groups] are the groups of the matches [E]: one group per document
    name, every match in the group of its document, and each group holds the
    matches of its document in the order of [E]. *)
Definition grouped (E : list Enhanced) (groups : Dict.dict (list Enhanced)) : Prop :=
  NoDup (Dict.keys groups)
  /\ (forall c, In c E -> In (doc_name c) (Dict.keys groups))
  /\ (forall n ms, In (n, ms) groups ->
        ms <> [] /\ ms = filter (fun c => String.eqb (doc_name c) n) E).

(** Documents come by best raw score, largest first. *)
Definition document_order (matches : list Match) (a b : Enhanced) : Prop :=
  best_raw_score matches (doc_name b) <= best_raw_score matches (doc_name a).

(** Within one document: no data chunk after a chunk that is none, and
    inside each of the two groups the larger enhanced score first. *)
Definition within_document_order (a b : Enhanced) : Prop :=
  doc_name a = doc_name b ->
  (is_data_chunk b = true -> is_data_chunk a = true)
  /\ (is_data_chunk a = is_data_chunk b -> enhanced_score b <= enhanced_score a).

(** Within one document, non-analytical query: larger enhanced score first. *)
Definition enhanced_order (a b : Enhanced) : Prop :=
  doc_name a = doc_name b -> enhanced_score b <= enhanced_score a.

End Optimizer.

(* ================================================================== *)
(** ** Response orchestrator *)

Module Pipeline.

Import Py.
Import Optimizer.

(** One formatted source of a result. *)
Record Source := {
  src_file_name : string;
  src_file_id : option string;
  src_file_path : option string;
  src_document_type : string;
  src_section_title : string;
  src_page_number : Z;
  src_chunk_text : string;
  src_relevance_score : Q;
  src_word_count : Z;
  src_upload_date : string }.

Inductive ProcessingMetadata :=
| DocumentMetadata (total_chunks_analyzed chunks_used : nat)
    (avg_relevance_score : Q) (document_types : list string)
    (rich_content_time_ms : Q)
| GeneralMetadata (rich_content_time_ms : Q) (response_enhanced : bool).

(** What is sent to the language model: the system template chosen and the
    data the user prompt is formatted from. *)
Inductive Prompt :=
| EnterprisePrompt (system_template : string) (query : string)
    (chunks : list Enhanced)
| GeneralPrompt (is_visualization_request : bool) (query : string).

(** The calls a query makes, in the order they are made. *)
Inductive Event :=
| Embedded (text : string)
| Searched (namespace : string) (top_k : Z)
| Optimized (top_k : Z)
| Generated (prompt : Prompt).

Definition _preprocess_query (query : string) : string :=
  let abbreviations :=
    [ ("ai", "artificial intelligence"); ("ml", "machine learning");
      ("api", "application programming interface");
      ("roi", "return on investment"); ("kpi", "key performance indicator") ] in
  let query_lower :=
    fold_left
      (fun q (ae : string * string) =>
         let (abbr, expansion) := ae in
         let q := Str.replace (" " ++ abbr ++ " ") (" " ++ expansion ++ " ") q in
         Str.replace (" " ++ abbr ++ ".") (" " ++ expansion) q)
      abbreviations (Str.lower query) in
  Str.strip query_lower.

Definition _generate_semantic_cache_key (query tenant_id : string) : string :=
  let normalized_query := Str.strip (Str.sub_nonword (Str.lower query)) in
  tenant_id ++ ":" ++ normalized_query.

Definition missing_data_indicators : list string :=
  [ "data is missing"; "information is missing"; "not possible to determine";
    "cannot be performed"; "data linking"; "additional data"; "no field";
    "no information"; "cannot find"; "not available in"; "missing information" ].

(** [any(indicator in answer.lower() for indicator in missing_data_indicators)] *)
Definition has_missing_data (answer : string) : bool :=
  Str.contains_any missing_data_indicators (Str.lower answer).

Definition enterprise_apology : string :=
  "I apologize, but I encountered an error while generating the comprehensive response. Please try again, and I'll provide you with a detailed analysis based on the available documents.".

Definition general_apology : string :=
  "I apologize, but I encountered an error while processing your question. Please try again, and I'll provide you with a comprehensive response.".

(** The test at the head of [_generate_general_knowledge_response]. *)
Definition is_visualization_request (query : string) : bool :=
  let query_lower := Str.lower query in
  existsb (fun keyword => Str.contains keyword query_lower)
    [ "chart"; "graph"; "visualize"; "plot"; "pie chart"; "bar chart";
      "create"; "show"; "display" ].

(** The key of [self.prompt_templates] picked from the document types. *)
Definition system_template_for (document_types : list string) : string :=
  if mem_string "logistics" document_types then "logistics_analyst"
  else if mem_string "financial" document_types then "financial_analyst"
  else if mem_string "legal" document_types then "legal_expert"
  else if mem_string "technical" document_types then "technical_expert"
  else if mem_string "policy" document_types then "policy_expert"
  else "general_expert".

Definition format_source (source : Enhanced) : Source :=
  let metadata := metadata (base source) in
  {| src_file_name := get_default (file_name metadata) "Unknown";
     src_file_id := doc_id metadata;
     src_file_path := file_path metadata;
     src_document_type := get_default (document_type metadata) "general";
     src_section_title := get_default (section_title metadata) "";
     src_page_number := get_default (page_number metadata) 0%Z;
     src_chunk_text := get_default (text metadata) "";
     src_relevance_score := score (base source);
     src_word_count := get_default (word_count metadata) 0%Z;
     src_upload_date := get_default (upload_date metadata) "" |}.

(** The loop of [_format_enterprise_sources]: one source per file name. *)
Fixpoint format_unseen (sources : list Enhanced) (seen_files : list string)
    : list Source :=
  match sources with
  | [] => []
  | source :: rest =>
      let file_name := get_default (file_name (metadata (base source))) "Unknown" in
      if mem_string file_name seen_files then format_unseen rest seen_files
      else format_source source :: format_unseen rest (file_name :: seen_files)
  end.

Definition _format_enterprise_sources (sources : list Enhanced) : list Source :=
  sort_desc src_relevance_score (format_unseen sources []).

Section Orchestrator.

(** The state of the outside world, the type of embedding vectors and the
    type of rich content (tables, charts) are left open. *)
Variables (W Vec RichContent : Type).

Record QueryResult := {
  answer : string;
  result_sources : list Source;
  result_confidence : Q;
  context_quality : Q;
  response_type : string;
  rich_content : option RichContent;
  processing_metadata : option ProcessingMetadata }.

(** The collaborators.  A call may raise. *)
Variable embed_text : string -> W -> result Vec * W.
Variable query_vectors : Vec -> string -> Z -> W -> result (list Match) * W.
Variable llm_invoke : Prompt -> W -> result string * W.
Variable extract_entities : string -> string -> QueryEntities.

(** [_generate_rich_content] and [_generate_rich_content_for_general_query]
    catch every exception themselves; each comes with the time the caller
    measures around it. *)
Variable generate_rich_content :
  string -> list Enhanced -> string -> W -> (RichContent * Q) * W.
Variable generate_rich_content_for_general_query :
  string -> W -> (RichContent * Q) * W.

(** The mutable state a query works on: the cache of the pipeline object,
    the outside world, and the calls made so far. *)
Record State := {
  query_cache : Dict.dict QueryResult;
  world : W;
  trace : list Event }.

(** Computations that read and write the state and may raise. *)
Definition M (A : Type) : Type := State -> result A * State.

Definition ret {A} (a : A) : M A := fun st => (inr a, st).

Definition raise {A} (e : exn) : M A := fun st => (inl e, st).

Definition bind {A B} (m : M A) (k : A -> M B) : M B :=
  fun st =>
    match m st with
    | (inl e, st') => (inl e, st')
    | (inr a, st') => k a st'
    end.

(** [try: m except Exception as e: ...] hands the outcome to the handler. *)
Definition attempt {A} (m : M A) : M (result A) :=
  fun st => let (r, st') := m st in (inr r, st').

Definition record (ev : Event) : M unit :=
  fun st => (inr tt, {| query_cache := query_cache st; world := world st;
                        trace := (trace st ++ [ev])%list |}).

(** A collaborator call on the world. *)
Definition call {A} (f : W -> result A * W) : M A :=
  fun st =>
    let (r, w) := f (world st) in
    (r, {| query_cache := query_cache st; world := w; trace := trace st |}).

Definition cache_store (cache_max_size : Z) (cache_key : string)
    (result : QueryResult) : M unit :=
  fun st =>
    (inr tt,
     {| query_cache := Cache._cache_result cache_max_size cache_key result (query_cache st);
        world := world st; trace := trace st |}).

Local Notation "x <- m ;; k" := (bind m (fun x => k))
  (at level 61, m at next level, right associativity).

Definition llm (prompt : Prompt) : M string :=
  _ <- record (Generated prompt) ;; call (llm_invoke prompt).

Definition _generate_general_knowledge_response (query tenant_id user_id : string)
    : M QueryResult :=
  r <- attempt (llm (GeneralPrompt (is_visualization_request query) query)) ;;
  match r with
  | inr content =>
      ret {| answer := Str.strip content; result_sources := [];
             result_confidence := 8 # 10; context_quality := 8 # 10;
             response_type := "general_knowledge";
             rich_content := None; processing_metadata := None |}
  | inl _ =>
      ret {| answer := general_apology; result_sources := [];
             result_confidence := 0; context_quality := 0;
             response_type := "error";
             rich_content := None; processing_metadata := None |}
  end.

(** The second definition of the method in the class, the one in effect. *)
Definition _generate_enterprise_answer (query : string) (context : OptimizedContext)
    : M string :=
  match chunks context with
  | [] =>
      r <- _generate_general_knowledge_response query "" "" ;;
      ret (answer r)
  | chunks =>
      (* the context text reads chunk.metadata['text'] of every chunk *)
      if negb (forallb carries_text chunks)
      then raise (KeyError "text")
      else
        let system_prompt := system_template_for (document_types context) in
        r <- attempt (llm (EnterprisePrompt system_prompt query chunks)) ;;
        match r with
        | inr content => ret (Str.strip content)
        | inl _ => ret enterprise_apology
        end
  end.

Definition optimize (self : Settings) (matches : list Match) (query : string)
    (top_k : Z) : M OptimizedContext :=
  _ <- record (Optimized top_k) ;;
  match _optimize_context_selection extract_entities self matches query top_k with
  | inl e => raise e
  | inr context => ret context
  end.

Definition search (query_vector : Vec) (namespace : string) (top_k : Z)
    : M (list Match) :=
  _ <- record (Searched namespace top_k) ;;
  call (query_vectors query_vector namespace top_k).

Definition embed (text : string) : M Vec :=
  _ <- record (Embedded text) ;; call (embed_text text).

Definition _generate_enterprise_answer_with_fallback (self : Settings)
    (query : string) (context : OptimizedContext) (current_top_k : Z)
    (tenant_id : string) : M string :=
  answer <- _generate_enterprise_answer query context ;;
  let has_missing_data_response := has_missing_data answer in
  if has_missing_data_response && Breadth._is_analytical_query query
     && (current_top_k <? 40)%Z
  then
    r <- attempt
           (query_embedding <- embed query ;;
            matches <- search query_embedding tenant_id 50 ;;
            match matches with
            | [] => ret None
            | _ =>
                optimized_context <- optimize self matches query 50 ;;
                fallback_answer <- _generate_enterprise_answer query optimized_context ;;
                let fallback_has_missing := has_missing_data fallback_answer in
                if negb fallback_has_missing
                   || (String.length answer <? String.length fallback_answer)%nat
                then ret (Some fallback_answer)
                else ret None
            end) ;;
    match r with
    | inr (Some fallback_answer) => ret fallback_answer
    | _ => ret answer
    end
  else ret answer.

(** [max([match.score for match in matches])] of a non-empty list *)
Definition max_score (matches : list Match) : Q := py_max (map score matches).

(** The quality gate: no match, or no match that reaches the threshold. *)
Definition low_quality (self : Settings) (matches : list Match) : bool :=
  match matches with
  | [] => true
  | _ => Qlt_bool (max_score matches) (similarity_threshold self)
  end.

(** [top_k] is the integer the signature declares ([top_k: int = 8]).  The
    chat route hands its request field on unvalidated, an explicit null
    included; with [None] the count tests of the optimizer raise
    [TypeError], a case that has no counterpart here. *)
Definition query_documents (self : Settings) (query tenant_id user_id : string)
    (top_k : Z) : M QueryResult :=
  let processed_query := _preprocess_query query in
  let dynamic_top_k := Breadth._get_dynamic_top_k query top_k in
  let cache_key := _generate_semantic_cache_key processed_query tenant_id in
  fun st =>
    match Dict.lookup cache_key (query_cache st) with
    | Some cached_result => (inr cached_result, st)
    | None =>
        (query_embedding <- embed processed_query ;;
         matches <- search query_embedding tenant_id dynamic_top_k ;;
         if low_quality self matches then
           general_response <- _generate_general_knowledge_response query tenant_id user_id ;;
           rc <- call (fun w => let (v, w') := generate_rich_content_for_general_query query w
                                in (inr v, w')) ;;
           ret {| answer := answer general_response;
                  result_sources := result_sources general_response;
                  result_confidence := result_confidence general_response;
                  context_quality := context_quality general_response;
                  response_type := response_type general_response;
                  rich_content := Some (fst rc);
                  processing_metadata := Some (GeneralMetadata (snd rc) true) |}
         else
           optimized_context <- optimize self matches query top_k ;;
           answer <- _generate_enterprise_answer_with_fallback
                       self query optimized_context dynamic_top_k tenant_id ;;
           let sources := _format_enterprise_sources (sources optimized_context) in
           rc <- call (fun w => let (v, w') := generate_rich_content
                                                 answer (chunks optimized_context) query w
                                in (inr v, w')) ;;
           let result :=
             {| answer := answer;
                result_sources := sources;
                result_confidence := confidence optimized_context;
                context_quality := quality_score optimized_context;
                response_type := "document_based";
                rich_content := Some (fst rc);
                processing_metadata :=
                  Some (DocumentMetadata (List.length matches)
                          (List.length (chunks optimized_context))
                          (avg_relevance optimized_context)
                          (document_types optimized_context) (snd rc)) |} in
           _ <- cache_store (cache_max_size self) cache_key result ;;
           ret result) st
    end.

End Orchestrator.

Arguments answer {RichContent} q.
Arguments result_sources {RichContent} q.
Arguments result_confidence {RichContent} q.
Arguments context_quality {RichContent} q.
Arguments response_type {RichContent} q.
Arguments rich_content {RichContent} q.
Arguments processing_metadata {RichContent} q.
Arguments query_cache {W RichContent} s.
Arguments world {W RichContent} s.
Arguments trace {W RichContent} s.
Arguments llm {W RichContent} llm_invoke prompt _.
Arguments embed {W Vec RichContent} embed_text text _.
Arguments search {W Vec RichContent} query_vectors query_vector namespace top_k _.
Arguments optimize {W RichContent} extract_entities self matches query top_k _.
Arguments _generate_general_knowledge_response {W RichContent} llm_invoke
  query tenant_id user_id _.
Arguments _generate_enterprise_answer {W RichContent} llm_invoke query context _.
Arguments _generate_enterprise_answer_with_fallback {W Vec RichContent}
  embed_text query_vectors llm_invoke extract_entities
  self query context current_top_k tenant_id _.
Arguments query_documents {W Vec RichContent}
  embed_text query_vectors llm_invoke extract_entities
  generate_rich_content generate_rich_content_for_general_query
  self query tenant_id user_id top_k _.

(** *** Notions used to state the properties of the orchestrator *)

(** The state after one more call [ev] that left the world as [w]. *)
Definition after {W RichContent : Type} (ev : Event) (w : W)
    (st : State W RichContent) : State W RichContent :=
  {| query_cache := query_cache st; world := w;
     trace := (trace st ++ [ev])%list |}.

(** The cache key of a query of a tenant, as [query_documents] computes it. *)
Definition cache_key_of (query tenant_id : string) : string :=
  _generate_semantic_cache_key (_preprocess_query query) tenant_id.

(** The condition under which the missing-data retry is entered. *)
Definition retry_due (answer query : string) (current_top_k : Z) : bool :=
  has_missing_data answer && Breadth._is_analytical_query query
  && (current_top_k <? 40)%Z.

(** The condition under which the answer of the retry is the one returned. *)
Definition retry_accepted (answer fallback_answer : string) : bool :=
  negb (has_missing_data fallback_answer)
  || (String.length answer <? String.length fallback_answer)%nat.

Definition is_search (ev : Event) : bool :=
  match ev with Searched _ _ => true | _ => false end.

Definition is_generation (ev : Event) : bool :=
  match ev with Generated _ => true | _ => false end.

Definition is_optimization (ev : Event) : bool :=
  match ev with Optimized _ => true | _ => false end.

(** The vector searches, the generations, the optimizations of a trace. *)
Definition searches (evs : list Event) : list Event := filter is_search evs.
Definition generations (evs : list Event) : list Event := filter is_generation evs.
Definition optimizations (evs : list Event) : list Event := filter is_optimization evs.

(** What [_generate_enterprise_answer] sends to the model for a context. *)
Definition generation_prompt (query : string) (context : OptimizedContext) : Prompt :=
  match chunks context with
  | [] => GeneralPrompt (is_visualization_request query) query
  | cs => EnterprisePrompt (system_template_for (document_types context)) query cs
  end.

(** The answer [_generate_enterprise_answer] returns for what the model
    call gave: the stripped content, or the apology of the generator used. *)
Definition generated_answer (context : OptimizedContext) (r : result string) : string :=
  match r with
  | inr content => Str.strip content
  | inl _ =>
      match chunks context with
      | [] => general_apology
      | _ => enterprise_apology
      end
  end.

(** The result [_generate_general_knowledge_response] builds from what the
    model call gave. *)
Definition general_response {RichContent : Type} (r : result string)
    : QueryResult RichContent :=
  match r with
  | inr content =>
      {| answer := Str.strip content; result_sources := [];
         result_confidence := 8 # 10; context_quality := 8 # 10;
         response_type := "general_knowledge";
         rich_content := None; processing_metadata := None |}
  | inl _ =>
      {| answer := general_apology; result_sources := [];
         result_confidence := 0; context_quality := 0;
         response_type := "error";
         rich_content := None; processing_metadata := None |}
  end.

(** The general response once [query_documents] has added the rich content
    and the processing metadata. *)
Definition general_result {RichContent : Type} (r : result string)
    (rc : RichContent * Q) : QueryResult RichContent :=
  let general_response : QueryResult RichContent := general_response r in
  {| answer := answer general_response;
     result_sources := result_sources general_response;
     result_confidence := result_confidence general_response;
     context_quality := context_quality general_response;
     response_type := response_type general_response;
     rich_content := Some (fst rc);
     processing_metadata := Some (GeneralMetadata (snd rc) true) |}.

(** The result [query_documents] builds on the document path. *)
Definition document_result {RichContent : Type} (matches : list Match)
    (optimized_context : OptimizedContext) (answer : string)
    (rc : RichContent * Q) : QueryResult RichContent :=
  {| answer := answer;
     result_sources := _format_enterprise_sources (sources optimized_context);
     result_confidence := confidence optimized_context;
     context_quality := quality_score optimized_context;
     response_type := "document_based";
     rich_content := Some (fst rc);
     processing_metadata :=
       Some (DocumentMetadata (List.length matches)
               (List.length (chunks optimized_context))
               (avg_relevance optimized_context)
               (document_types optimized_context) (snd rc)) |}.

(** Every chunk of the context carries its text. *)
Definition chunks_have_text (context : OptimizedContext) : Prop :=
  forallb carries_text (chunks context) = true.

End Pipeline.

(* ================================================================== *)
(** ** Document deletion *)

Module Deletion.

Import Py.
Import Optimizer.

(** A document record of the metadata store; [_id] is the string form of
    its ObjectId. *)
Record DocumentRecord := {
  _id : string;
  tenant_id : string;
  doc_file_name : string;
  chunk_count : Z }.

(** A vector of the vector store. *)
Record VectorRecord := {
  vector_id : string;
  values : list Q;
  vector_metadata : Metadata }.

(** The two stores: the documents collection ([None] when the database was
    never initialised, so that every access raises) and the vector index,
    one list of vectors per namespace. *)
Record Stores := {
  database : option (list DocumentRecord);
  index : Dict.dict (list VectorRecord) }.

(** [DocumentModel.get_documents_by_tenant] *)
Definition get_documents_by_tenant (tenant : string) (st : Stores)
    : result (list DocumentRecord) :=
  match database st with
  | None => inl (CollaboratorError "database is not initialised")
  | Some documents => inr (filter (fun d => String.eqb (tenant_id d) tenant) documents)
  end.

(** [delete_one]: the first record that matches the filter goes. *)
Fixpoint delete_one (doc_id tenant : string) (documents : list DocumentRecord)
    : bool * list DocumentRecord :=
  match documents with
  | [] => (false, [])
  | d :: rest =>
      if String.eqb (_id d) doc_id && String.eqb (tenant_id d) tenant
      then (true, rest)
      else let (deleted, rest') := delete_one doc_id tenant rest in
           (deleted, d :: rest')
  end.

(** [DocumentModel.delete_document] *)
Definition model_delete_document (doc_id tenant : string) (st : Stores)
    : result bool * Stores :=
  match database st with
  | None => (inl (CollaboratorError "database is not initialised"), st)
  | Some documents =>
      let (deleted, documents') := delete_one doc_id tenant documents in
      (inr deleted, {| database := Some documents'; index := index st |})
  end.

(** [EnterpriseRAGPipeline.delete_document]; every exception gives [False]. *)
Definition delete_document (doc_id tenant : string) (st : Stores) : bool * Stores :=
  match get_documents_by_tenant tenant st with
  | inl _ => (false, st)
  | inr doc =>
      match find (fun d => String.eqb (_id d) doc_id) doc with
      | None => (false, st)
      | Some target_doc =>
          match model_delete_document doc_id tenant st with
          | (inl _, st') => (false, st')
          | (inr deleted, st') =>
              if negb deleted then (false, st')
              else
                (* the vectors are left in the index *)
                (true, st')
          end
      end
  end.

(** The vectors of a namespace. *)
Definition namespace_vectors (namespace : string) (st : Stores) : list VectorRecord :=
  get_default (Dict.lookup namespace (index st)) [].

(** A vector search reads the vectors of the namespace only; how the vector
    store ranks them is left open. *)
Definition query_vectors
    (rank : list Q -> list VectorRecord -> Z -> list Match)
    (query_vector : list Q) (namespace : string) (top_k : Z) (st : Stores)
    : list Match :=
  rank query_vector (namespace_vectors namespace st) top_k.

End Deletion.

(* ================================================================== *)
(** ** Sample data *)

Module Samples.

Import Optimizer.

(** The attributes [__init__] copies from the default configuration. *)
Definition default_settings : Settings :=
  {| similarity_threshold := Config.similarity_threshold (Config.retrieval Config.default_config);
     min_context_relevance := Config.min_context_relevance (Config.retrieval Config.default_config);
     max_context_tokens := Config.max_context_tokens (Config.retrieval Config.default_config);
     cache_max_size := Config.cache_size (Config.cache Config.default_config) |}.

(** An entity extraction that finds nothing. *)
Definition no_entities (text document_type : string) : QueryEntities :=
  {| qe_entities := []; qe_enterprise_entities := [] |}.

Definition sample_match (id file_name text chunk_type document_type : string)
    (score : Q) : Match :=
  {| id := id; score := score;
     metadata :=
       {| file_name := Some file_name; file_path := None; text := Some text;
          chunk_type := Some chunk_type; section_title := None;
          page_number := None; word_count := None; upload_date := None;
          document_type := Some document_type; doc_id := None;
          entities := []; enterprise_entities := [] |} |}.

Definition header_chunk : Match :=
  sample_match "v1" "shipments.csv" "Sheet1 Columns: Carrier, On_Time"
               "structured_header" "logistics" (8 # 10).

Definition record_chunk : Match :=
  sample_match "v2" "shipments.csv" "Record 1 | Carrier=BlueDart | On_Time=Yes"
               "structured_row" "logistics" (6 # 10).

Definition policy_chunk : Match :=
  sample_match "v3" "policy.pdf" "Delivery policy overview"
               "standard" "policy" (7 # 10).

Definition weak_chunk : Match :=
  sample_match "v4" "notes.txt" "Unrelated notes" "standard" "general" (3 # 10).

(** Two matches below the similarity threshold. *)
Definition faint_matches : list Match :=
  [ sample_match "v5" "notes.txt" "Meeting notes" "standard" "general" (2 # 10);
    sample_match "v6" "memo.txt" "Parking memo" "standard" "general" (25 # 100) ].

Definition sample_matches : list Match :=
  [header_chunk; record_chunk; policy_chunk; weak_chunk].

Definition sample_query : string := "compare carrier performance".

(** A query whose breadth, 30, is below the retry threshold. *)
Definition average_query : string := "average delivery time by carrier".

(** **** A scripted outside world

    The world counts the model calls and the vector searches made so far;
    embeddings and rich content carry no information. *)

Import Py.
Import Pipeline.

Record World := {
  llm_calls : nat;
  searches_done : nat }.

Definition sample_embed (text : string) (w : World) : result unit * World :=
  (inr tt, w).

(** The first search returns [first], every later one [later]. *)
Definition sample_search (first later : list Match)
    (query_vector : unit) (namespace : string) (top_k : Z) (w : World)
    : result (list Match) * World :=
  (inr (if (searches_done w =? 0)%nat then first else later),
   {| llm_calls := llm_calls w; searches_done := S (searches_done w) |}).

(** The n-th model call returns the n-th reply; past the script it raises. *)
Definition sample_llm (replies : list string) (prompt : Prompt) (w : World)
    : result string * World :=
  (match nth_error replies (llm_calls w) with
   | Some reply => inr reply
   | None => inl (CollaboratorError "model unavailable")
   end,
   {| llm_calls := S (llm_calls w); searches_done := searches_done w |}).

(** A model that raises on every call. *)
Definition failing_llm (prompt : Prompt) (w : World) : result string * World :=
  (inl (CollaboratorError "model unavailable"),
   {| llm_calls := S (llm_calls w); searches_done := searches_done w |}).

Definition sample_rich_content (answer : string) (chunks : list Enhanced)
    (query : string) (w : World) : (unit * Q) * World :=
  ((tt, 0), w).

Definition sample_rich_content_general (query : string) (w : World)
    : (unit * Q) * World :=
  ((tt, 0), w).

(** A fresh pipeline: empty cache, nothing called yet. *)
Definition fresh : State World unit :=
  {| query_cache := []; world := {| llm_calls := 0; searches_done := 0 |};
     trace := [] |}.

(** [query_documents] of tenant "acme", user "u1", on the scripted world. *)
Definition sample_run (first later : list Match)
    (llm_invoke : Prompt -> World -> result string * World)
    (query : string) (top_k : Z) : M World unit (QueryResult unit) :=
  query_documents sample_embed (sample_search first later) llm_invoke no_entities
    sample_rich_content sample_rich_content_general
    default_settings query "acme" "u1" top_k.

(** **** Two stored documents of tenant "acme" and their vectors *)

Import Deletion.

Definition sample_vector (m : Match) (doc : string) : VectorRecord :=
  {| vector_id := id m; values := [1; 0];
     vector_metadata :=
       {| file_name := file_name (metadata m); file_path := None;
          text := text (metadata m); chunk_type := chunk_type (metadata m);
          section_title := None; page_number := None; word_count := None;
          upload_date := None; document_type := document_type (metadata m);
          doc_id := Some doc; entities := []; enterprise_entities := [] |} |}.

Definition sample_stores : Stores :=
  {| database :=
       Some [ {| _id := "65f0a1b2c3d4e5f6a7b8c9d0"; tenant_id := "acme";
                 doc_file_name := "shipments.csv"; chunk_count := 2 |};
              {| _id := "65f0a1b2c3d4e5f6a7b8c9d1"; tenant_id := "acme";
                 doc_file_name := "policy.pdf"; chunk_count := 1 |} ];
     index :=
       [ ("acme", [ sample_vector header_chunk "65f0a1b2c3d4e5f6a7b8c9d0";
                    sample_vector record_chunk "65f0a1b2c3d4e5f6a7b8c9d0";
                    sample_vector policy_chunk "65f0a1b2c3d4e5f6a7b8c9d1" ]) ] |}.

End Samples.

(* ================================================================== *)
(** ** Document types *)

Module DocumentType.

(** [s.endswith(suffix)] *)
Fixpoint endswith (suffix s : string) : bool :=
  String.eqb suffix s
  || match s with
     | EmptyString => false
     | String _ s' => endswith suffix s'
     end.

Definition logistics_keywords : list string :=
  [ "shipment"; "delivery"; "carrier"; "freight"; "logistics"; "transport";
    "shipping"; "manifest"; "tracking"; "route"; "dispatch"; "warehouse" ].

Definition _detect_document_type (file_name content : string) : string :=
  let file_name_lower := Str.lower file_name in
  let content_lower := Str.lower content in
  if Str.contains_any logistics_keywords file_name_lower then "logistics"
  else if Str.contains_any logistics_keywords content_lower then "logistics"
  else if existsb (fun ext => endswith ext file_name_lower) [".xlsx"; ".xls"; ".csv"]
          && Str.contains_any
               [ "carrier"; "delivery_date"; "shipment_id"; "tracking"; "origin";
                 "destination"; "dispatch" ] content_lower
  then "logistics"
  else if Str.contains_any ["financial"; "budget"; "revenue"; "profit"; "loss"]
                           file_name_lower then "financial"
  else if Str.contains_any
            ["revenue"; "profit"; "loss"; "balance sheet"; "income statement"]
            content_lower then "financial"
  else if Str.contains_any ["contract"; "agreement"; "legal"; "terms"]
                           file_name_lower then "legal"
  else if Str.contains_any
            ["whereas"; "hereby"; "agreement"; "contract"; "terms and conditions"]
            content_lower then "legal"
  else if Str.contains_any ["technical"; "spec"; "api"; "manual"]
                           file_name_lower then "technical"
  else if Str.contains_any
            ["api"; "function"; "method"; "parameter"; "configuration"]
            content_lower then "technical"
  else if Str.contains_any ["policy"; "procedure"; "guideline"]
                           file_name_lower then "policy"
  else if Str.contains_any ["policy"; "procedure"; "must"; "shall"; "required"]
                           content_lower then "policy"
  else "general".

(** The spreadsheet test of the detector, on the file name as given. *)
Definition is_spreadsheet (file_name : string) : bool :=
  existsb (fun ext => endswith ext (Str.lower file_name)) [".xlsx"; ".xls"; ".csv"].

End DocumentType.

(* ================================================================== *)
(** ** Names of sources *)

Module Sources.

Import Optimizer.

(** The file name under which [_format_enterprise_sources] lists a chunk. *)
Definition source_name (c : Enhanced) : string :=
  get_default (file_name (metadata (base c))) "Unknown".

End Sources.

(* ================================================================== *)
(** ** The configuration objects of the process *)

Module ConfigProcess.

Import Config.

(** The configuration objects alive in the process, by address, and the two
    names through which they are reached: the global [enterprise_config] of
    [routes/enterprise.py], and [self.config] of the pipeline object.  At
    start-up both name the one object built by [config/enterprise_config.py]. *)
Record Process := {
  objects : list EnterpriseConfig;
  routes_ref : nat;
  pipeline_ref : nat;
  (** the thresholds [EnterpriseRAGPipeline.__init__] copied into attributes
      of the pipeline object *)
  pipeline_settings : Optimizer.Settings }.

(** The thresholds of the query path, which [EnterpriseRAGPipeline.__init__]
    reads off the configuration once. *)
Definition __init__ (config : EnterpriseConfig) : Optimizer.Settings :=
  {| Optimizer.similarity_threshold := similarity_threshold (retrieval config);
     Optimizer.min_context_relevance := min_context_relevance (retrieval config);
     Optimizer.max_context_tokens := max_context_tokens (retrieval config);
     Optimizer.cache_max_size := cache_size (cache config) |}.

Definition boot (constructed : EnterpriseConfig) : Process :=
  {| objects := [constructed]; routes_ref := 0; pipeline_ref := 0;
     pipeline_settings := __init__ constructed |}.

(** The object at an address. *)
Definition deref (p : Process) (ref : nat) : option EnterpriseConfig :=
  nth_error (objects p) ref.

(** Attribute assignments on the object at an address. *)
Fixpoint mutate (ref : nat) (c : EnterpriseConfig) (objs : list EnterpriseConfig)
    : list EnterpriseConfig :=
  match objs, ref with
  | [], _ => []
  | _ :: rest, O => c :: rest
  | o :: rest, S ref' => o :: mutate ref' c rest
  end.

(** Both names are bound to live objects. *)
Definition well_formed (p : Process) : Prop :=
  (routes_ref p < List.length (objects p))%nat
  /\ (pipeline_ref p < List.length (objects p))%nat.

(** [POST /config/update] on the process: the route works on the object its
    global names (the first case cannot arise in a well-formed process). *)
Definition update_route (config_update : ConfigUpdateRequest) (current_user : User)
    (p : Process) : Response * Process :=
  match deref p (routes_ref p) with
  | None => (HTTPException 500 "Failed to update enterprise configuration", p)
  | Some enterprise_config =>
      let (response, enterprise_config') :=
        update_enterprise_config config_update current_user enterprise_config in
      (response,
       {| objects := mutate (routes_ref p) enterprise_config' (objects p);
          routes_ref := routes_ref p; pipeline_ref := pipeline_ref p;
          pipeline_settings := pipeline_settings p |})
  end.

Inductive ResetResponse :=
| ResetDone (config : EnterpriseConfig) (reset_by : string)
| ResetException (status_code : Z) (detail : string).

(** [POST /config/reset]: [global enterprise_config] followed by
    [enterprise_config = EnterpriseConfig()] binds the global of the routes
    module to a new object; [constructed] is what the constructor builds
    (the defaults overridden by the environment; the constructor is taken to
    return). *)
Definition reset_enterprise_config (constructed : EnterpriseConfig)
    (current_user : User) (p : Process) : ResetResponse * Process :=
  if match role current_user with
     | Some r => String.eqb r "admin"
     | None => false
     end
  then
    let p' := {| objects := (objects p ++ [constructed])%list;
                 routes_ref := List.length (objects p);
                 pipeline_ref := pipeline_ref p;
                 pipeline_settings := pipeline_settings p |} in
    match email current_user with
    | Some e => (ResetDone constructed e, p')
    | None => (ResetException 500 "Failed to reset enterprise configuration", p')
    end
  else
    (ResetException 403 "Admin access required to reset enterprise configuration", p).

Inductive ConfigView :=
| View (config : EnterpriseConfig) (status : string) (validation : bool)
| ViewException (status_code : Z) (detail : string).

(** [GET /config]: the configuration the global of the routes names,
    together with what [validate_config] says of it. *)
Definition get_enterprise_config (current_user : User) (p : Process) : ConfigView :=
  if match role current_user with
     | Some r => String.eqb r "admin"
     | None => false
     end
  then
    match deref p (routes_ref p) with
    | None => ViewException 500 "Failed to retrieve enterprise configuration"
    | Some enterprise_config =>
        View enterprise_config "active" (validate_config enterprise_config)
    end
  else
    ViewException 403 "Admin access required to view enterprise configuration".

(** A request that sets no field. *)
Definition empty_request : ConfigUpdateRequest :=
  {| req_chunk_size := None; req_chunk_overlap := None;
     req_similarity_threshold := None; req_max_context_tokens := None;
     req_temperature := None; req_max_output_tokens := None;
     req_enable_cache := None |}.

End ConfigProcess.

(* ================================================================== *)
(** ** The route that deletes a document *)

Module DeleteRoute.

Import Deletion.

(** The authenticated user, as far as the route reads it; [None] is an
    absent key, whose subscript raises [KeyError]. *)
Record User := {
  user_role : option string;
  user_tenant_id : option string }.

Inductive Response :=
| Deleted (message : string)
| HTTPException (status_code : Z) (detail : string).

(** [DELETE /documents/{doc_id}] of [routes/upload.py].  The body of the
    role test is [pass]. *)
Definition delete_document_route (doc_id : string) (current_user : User)
    (st : Stores) : Response * Stores :=
  match user_role current_user with
  | None => (HTTPException 500 "Failed to delete document", st)
  | Some role =>
      let _ := if negb (Optimizer.mem_string role ["admin"; "super_admin"])
               then tt else tt in
      match user_tenant_id current_user with
      | None => (HTTPException 500 "Failed to delete document", st)
      | Some tenant =>
          let (success, st') := delete_document doc_id tenant st in
          if negb success
          then (HTTPException 404 "Document not found or could not be deleted", st')
          else (Deleted "Document deleted successfully", st')
      end
  end.

End DeleteRoute.

(* ================================================================== *)
(** ** Further sample data *)

Module Scenarios.

Import Py.
Import Optimizer.
Import Pipeline.
Import Samples.

(** A match that reaches every threshold and whose metadata has no text. *)
Definition textless_chunk : Match :=
  {| id := "v9"; score := 9 # 10;
     metadata :=
       {| file_name := Some "scan.pdf"; file_path := None; text := None;
          chunk_type := None; section_title := None; page_number := None;
          word_count := None; upload_date := None; document_type := None;
          doc_id := None; entities := []; enterprise_entities := [] |} |}.

(** A vector store that is down. *)
Definition failing_search (query_vector : unit) (namespace : string) (top_k : Z)
    (w : World) : result (list Match) * World :=
  (inl (CollaboratorError "index unavailable"),
   {| llm_calls := llm_calls w; searches_done := S (searches_done w) |}).

(** A pipeline started with [RAG_SIMILARITY_THRESHOLD=0.3]. *)
Definition lenient_settings : Settings :=
  {| similarity_threshold := 3 # 10;
     min_context_relevance := min_context_relevance default_settings;
     max_context_tokens := max_context_tokens default_settings;
     cache_max_size := cache_max_size default_settings |}.

(** A match between the two thresholds of [lenient_settings]. *)
Definition borderline_matches : list Match :=
  [ sample_match "v10" "notes.txt" "Loose notes on carriers" "standard" "general"
                 (35 # 100) ].

(** [query_documents] of tenant "acme" with the settings given. *)
Definition run_with (self : Settings)
    (query_vectors : unit -> string -> Z -> World -> result (list Match) * World)
    (llm_invoke : Prompt -> World -> result string * World)
    (query : string) (top_k : Z) : M World unit (QueryResult unit) :=
  query_documents sample_embed query_vectors llm_invoke no_entities
    sample_rich_content sample_rich_content_general
    self query "acme" "u1" top_k.

End Scenarios.

(* ================================================================== *)
(** * Properties *)

(* ================================================================== *)
(** ** Breadth selection *)

Module BreadthFacts.

Import Breadth.

(** C9.  The breadth returned for a query is 50 when the query is analytical
    and contains "all", "every", "total" or "complete"; otherwise 40 when it
    is analytical and contains "compare", "versus", "vs" or "between";
    otherwise 30 when it is analytical and contains "average", "mean",
    "performance" or "wise"; otherwise 20 when it is analytical; and
    [base_top_k] unchanged when it is not analytical.  All tests are
    substring tests on the lowered query.  The two queries of the
    specification come out analytical with breadth 30, and not analytical
    with breadth [base_top_k]. *)
Theorem breadth_selection (query : string) (base_top_k : Z) :
  let q := Str.lower query in
  let analytical := _is_analytical_query query in
  let all_tier := Str.contains_any ["all"; "every"; "total"; "complete"] q in
  let comparison_tier := Str.contains_any ["compare"; "versus"; "vs"; "between"] q in
  let average_tier := Str.contains_any ["average"; "mean"; "performance"; "wise"] q in
  (analytical = Str.contains_any analytical_keywords q) /\
  (analytical = true -> all_tier = true ->
   _get_dynamic_top_k query base_top_k = 50%Z) /\
  (analytical = true -> all_tier = false -> comparison_tier = true ->
   _get_dynamic_top_k query base_top_k = 40%Z) /\
  (analytical = true -> all_tier = false -> comparison_tier = false ->
   average_tier = true -> _get_dynamic_top_k query base_top_k = 30%Z) /\
  (analytical = true -> all_tier = false -> comparison_tier = false ->
   average_tier = false -> _get_dynamic_top_k query base_top_k = 20%Z) /\
  (analytical = false -> _get_dynamic_top_k query base_top_k = base_top_k) /\
  (_is_analytical_query "what is the average delivery time by carrier" = true /\
   _get_dynamic_top_k "what is the average delivery time by carrier" base_top_k = 30%Z) /\
  (_is_analytical_query "hello, how are you" = false /\
   _get_dynamic_top_k "hello, how are you" base_top_k = base_top_k /\
   _get_dynamic_top_k "hello, how are you" 8 = 8%Z).
Proof.
  cbv zeta. unfold _get_dynamic_top_k, Str.contains_any.
  split; [reflexivity|].
  repeat apply conj.
  - intros Ha H1. rewrite Ha, H1. reflexivity.
  - intros Ha H1 H2. rewrite Ha, H1, H2. reflexivity.
  - intros Ha H1 H2 H3. rewrite Ha, H1, H2, H3. reflexivity.
  - intros Ha H1 H2 H3. rewrite Ha, H1, H2, H3. reflexivity.
  - intros Ha. rewrite Ha. reflexivity.
  - vm_compute. reflexivity.
  - vm_compute. reflexivity.
  - vm_compute. reflexivity.
  - assert (H : _is_analytical_query "hello, how are you" = false)
      by (vm_compute; reflexivity).
    rewrite H. reflexivity.
  - vm_compute. reflexivity.
Qed.

Lemma breadth_selection_witness :
  _get_dynamic_top_k "compare all carriers" 8 = 50%Z
  /\ _get_dynamic_top_k "compare the two carriers" 8 = 40%Z
  /\ _get_dynamic_top_k "mean transit time" 8 = 30%Z
  /\ _get_dynamic_top_k "best carrier" 8 = 20%Z
  /\ _get_dynamic_top_k "where is the office" 8 = 8%Z.
Proof.
  split; [|split; [|split; [|split]]].
  - apply (proj1 (proj2 (breadth_selection "compare all carriers" 8)));
      vm_compute; reflexivity.
  - apply (proj1 (proj2 (proj2 (breadth_selection "compare the two carriers" 8))));
      vm_compute; reflexivity.
  - apply (proj1 (proj2 (proj2 (proj2 (breadth_selection "mean transit time" 8)))));
      vm_compute; reflexivity.
  - apply (proj1 (proj2 (proj2 (proj2 (proj2 (breadth_selection "best carrier" 8))))));
      vm_compute; reflexivity.
  - apply (proj1 (proj2 (proj2 (proj2 (proj2 (proj2
             (breadth_selection "where is the office" 8)))))));
      vm_compute; reflexivity.
Defined.

End BreadthFacts.

(* ================================================================== *)
(** ** Cache eviction *)

Module CacheFacts.

Import Dict.
Import Cache.

Section Facts.

Context {V : Type}.

Implicit Types (d : dict V) (k : string) (v : V).

Lemma set_fresh k v d :
  ~ In k (keys d) -> set k v d = (d ++ [(k, v)])%list.
Proof.
  induction d as [|[k' v'] d IH]; simpl; intros Hk; [reflexivity|].
  destruct (String.eqb_spec k' k) as [->|Hne].
  - exfalso. apply Hk. now left.
  - rewrite IH; [reflexivity|]. intros Hin. apply Hk. now right.
Qed.

(** Deleting the [n] oldest keys one by one drops the [n] oldest entries. *)
Lemma del_oldest n d :
  fold_left (fun d key => del key d) (firstn n (keys d)) d = skipn n d.
Proof.
  revert d. induction n as [|n IH]; intros [|[k v] d]; simpl; try reflexivity.
  rewrite String.eqb_refl. apply IH.
Qed.

Lemma _cache_result_below (N : Z) k v d :
  (Z.of_nat (List.length d) < N)%Z -> ~ In k (keys d) ->
  _cache_result N k v d = (d ++ [(k, v)])%list.
Proof.
  intros Hlen Hk. unfold _cache_result.
  destruct (Z.leb_spec N (Z.of_nat (List.length d))); [lia|].
  now apply set_fresh.
Qed.

Lemma _cache_result_full (N : Z) k v d :
  (N <= Z.of_nat (List.length d))%Z -> ~ In k (keys d) ->
  _cache_result N k v d = (skipn 50 d ++ [(k, v)])%list.
Proof.
  intros Hlen Hk. unfold _cache_result.
  destruct (Z.leb_spec N (Z.of_nat (List.length d))); [|lia].
  rewrite del_oldest. apply set_fresh.
  intros Hin. apply Hk. unfold keys in *.
  rewrite <- (firstn_skipn 50 d), map_app. apply in_or_app. now right.
Qed.

(** While the cap is not reached, new keys are appended. *)
Lemma cache_all_below (N : Z) (entries : list (string * V)) d :
  (Z.of_nat (List.length d + List.length entries) <= N)%Z ->
  NoDup (keys d ++ map fst entries)%list ->
  cache_all N entries d = (d ++ entries)%list.
Proof.
  revert d. induction entries as [|[k v] es IH]; intros d Hlen Hnd; simpl.
  - now rewrite app_nil_r.
  - unfold cache_all in *. simpl.
    rewrite _cache_result_below.
    + rewrite IH.
      * now rewrite <- app_assoc.
      * rewrite length_app. simpl in *. lia.
      * unfold keys in *. rewrite map_app. simpl. rewrite <- app_assoc. exact Hnd.
    + simpl in Hlen. lia.
    + simpl in Hnd. apply NoDup_remove_2 in Hnd.
      intros Hin. apply Hnd. apply in_or_app. now left.
Qed.

Lemma lookup_not_in k d : ~ In k (keys d) -> lookup k d = None.
Proof.
  induction d as [|[k' v'] d IH]; simpl; intros Hk; [reflexivity|].
  destruct (String.eqb_spec k' k) as [->|Hne].
  - exfalso. apply Hk. now left.
  - apply IH. intros Hin. apply Hk. now right.
Qed.

Lemma lookup_nth d i k v :
  NoDup (keys d) -> nth_error d i = Some (k, v) -> lookup k d = Some v.
Proof.
  revert i. induction d as [|[k' v'] d IH]; intros [|i] Hnd Hi; simpl in *;
    try discriminate.
  - injection Hi as -> ->. now rewrite String.eqb_refl.
  - inversion Hnd as [|? ? Hnotin Hnd']; subst.
    destruct (String.eqb_spec k' k) as [->|Hne].
    + exfalso. apply Hnotin. apply nth_error_In in Hi.
      change k with (fst (k, v)). now apply in_map.
    + eapply IH; eauto.
Qed.

(** What is found among the entries that are left once the [n] oldest went. *)
Lemma lookup_skipn n d i k v :
  NoDup (keys d) -> nth_error d i = Some (k, v) ->
  lookup k (skipn n d) = if (i <? n)%nat then None else Some v.
Proof.
  revert d i. induction n as [|n IH]; intros d i Hnd Hi.
  - simpl. eapply lookup_nth; eauto.
  - destruct d as [|[k' v'] d]; [destruct i; discriminate|].
    inversion Hnd as [|? ? Hnotin Hnd']; subst. simpl skipn.
    destruct i as [|i]; simpl in Hi.
    + injection Hi as -> ->. simpl.
      apply lookup_not_in. intros Hin. apply Hnotin.
      unfold keys in *. rewrite <- (firstn_skipn n d), map_app.
      apply in_or_app. now right.
    + change (S i <? S n)%nat with (i <? n)%nat. now apply IH.
Qed.

Lemma lookup_set_same k v d : lookup k (set k v d) = Some v.
Proof.
  induction d as [|[k' v'] d IH]; simpl.
  - now rewrite String.eqb_refl.
  - destruct (String.eqb_spec k' k) as [->|Hne]; simpl.
    + now rewrite String.eqb_refl.
    + destruct (String.eqb_spec k' k); [contradiction|exact IH].
Qed.

(** A result is found under its key right after it was stored. *)
Lemma lookup_cache_result (N : Z) k v d :
  lookup k (_cache_result N k v d) = Some v.
Proof. unfold _cache_result. apply lookup_set_same. Qed.

(** What the cache holds after [N + 1] distinct keys went into an empty
    cache of maximum size [N]. *)
Lemma cache_all_overflow (N : nat) (entries : list (string * V)) :
  (1 <= N)%nat -> List.length entries = S N -> NoDup (map fst entries) ->
  cache_all (Z.of_nat N) entries [] = skipn (Nat.min 50 N) entries.
Proof.
  intros HN Hlen Hnd.
  destruct (exists_last (l := entries)) as [es [[k v] ->]];
    [intros ->; discriminate|].
  rewrite length_app in Hlen. simpl in Hlen.
  assert (Hes : List.length es = N) by lia.
  unfold cache_all. rewrite fold_left_app. cbn [fold_left fst snd].
  fold (cache_all (Z.of_nat N) es []).
  rewrite map_app in Hnd. cbn [map fst] in Hnd.
  rewrite cache_all_below; cbn [app List.length keys map].
  - rewrite _cache_result_full.
    + destruct (Nat.le_gt_cases 50 N) as [Hge|Hlt].
      * rewrite Nat.min_l by assumption.
        rewrite skipn_app.
        replace (50 - List.length es)%nat with 0%nat by lia. reflexivity.
      * rewrite Nat.min_r by lia.
        rewrite skipn_all2 by lia.
        rewrite skipn_app, skipn_all2 by lia.
        replace (N - List.length es)%nat with 0%nat by lia. reflexivity.
    + lia.
    + apply NoDup_remove_2 in Hnd. now rewrite app_nil_r in Hnd.
  - lia.
  - now apply NoDup_app_remove_r in Hnd.
Qed.

End Facts.

(** C2 (amended).  After [N + 1] results went, under distinct keys, into an
    empty cache of maximum size [N >= 1], the [min 50 N] keys inserted first
    are no longer retrievable, and every key inserted later still returns
    its result: the eviction drops a batch of up to 50 oldest entries, not
    only the oldest one. *)
Theorem batch_eviction {V : Type} (N : nat) (entries : list (string * V)) :
  (1 <= N)%nat -> List.length entries = S N -> NoDup (map fst entries) ->
  forall i k v, nth_error entries i = Some (k, v) ->
    lookup k (cache_all (Z.of_nat N) entries []) =
    if (i <? Nat.min 50 N)%nat then None else Some v.
Proof.
  intros HN Hlen Hnd i k v Hi.
  rewrite cache_all_overflow by assumption.
  now apply lookup_skipn.
Qed.

Lemma batch_eviction_witness :
  lookup "acme:q3" (cache_all 2 [("acme:q1", 1%nat); ("acme:q2", 2%nat); ("acme:q3", 3%nat)] [])
  = Some 3%nat.
Proof.
  apply (batch_eviction 2 [("acme:q1", 1%nat); ("acme:q2", 2%nat); ("acme:q3", 3%nat)]
           ltac:(lia) eq_refl) with (i := 2%nat).
  - repeat constructor; simpl; intuition discriminate.
  - reflexivity.
Defined.

(** C2, as stated, fails: with maximum size 2 and three distinct keys, the
    second key is among the two most recent ones and is gone with the first. *)
Lemma strict_fifo_counterexample :
  let cache := cache_all 2 [("acme:q1", 1%nat); ("acme:q2", 2%nat); ("acme:q3", 3%nat)] [] in
  ~ (lookup "acme:q1" cache = None
     /\ lookup "acme:q2" cache = Some 2%nat
     /\ lookup "acme:q3" cache = Some 3%nat).
Proof.
  cbv zeta. intros (_ & H & _). vm_compute in H. discriminate.
Qed.

End CacheFacts.

(* ================================================================== *)
(** ** Configuration updates *)

Module ConfigFacts.

Import Config.

(** What the route does with a request of an administrator that fails the
    validation: the assignments stay. *)
Lemma rejected_update_stays (u : ConfigUpdateRequest) (user : User) (c : EnterpriseConfig) :
  role user = Some "admin" ->
  validate_config (apply_update u c) = false ->
  update_enterprise_config u user c =
  (HTTPException 400 "Invalid configuration values provided", apply_update u c).
Proof.
  intros Hrole Hbad. unfold update_enterprise_config.
  rewrite Hrole. simpl String.eqb. cbv iota. rewrite Hbad. reflexivity.
Qed.

(** C3 (failing input).  An administrator sends [chunk_size = 50] to the
    default configuration.  The route answers 400, and the configuration
    left behind has chunk size 50: it fails the validation, and it is not
    the prior configuration. *)
Theorem invalid_update_is_applied :
  let request :=
    {| req_chunk_size := Some 50%Z; req_chunk_overlap := None;
       req_similarity_threshold := None; req_max_context_tokens := None;
       req_temperature := None; req_max_output_tokens := None;
       req_enable_cache := None |} in
  let admin := {| role := Some "admin"; email := Some "admin@acme.example" |} in
  let outcome := update_enterprise_config request admin default_config in
  validate_config default_config = true
  /\ fst outcome = HTTPException 400 "Invalid configuration values provided"
  /\ chunk_size (chunking (snd outcome)) = 50%Z
  /\ chunk_size (chunking default_config) = 1200%Z
  /\ validate_config (snd outcome) = false
  /\ snd outcome <> default_config.
Proof.
  cbv zeta. repeat apply conj; try (vm_compute; reflexivity).
  intros H. apply (f_equal (fun c => chunk_size (chunking c))) in H.
  vm_compute in H. discriminate.
Qed.

End ConfigFacts.

(* ================================================================== *)
(** ** Context optimizer *)

Module OptimizerFacts.

Import Py.
Import Optimizer.

Local Open Scope Q_scope.

(** *** Comparisons *)

Lemma Qlt_bool_false a b : Qlt_bool a b = false -> b <= a.
Proof.
  unfold Qlt_bool. intros H. apply negb_false_iff in H. now apply Qle_bool_iff.
Qed.

Lemma Qlt_bool_true a b : Qlt_bool a b = true -> a < b.
Proof.
  unfold Qlt_bool. intros H. apply negb_true_iff in H.
  apply Qnot_le_lt. intros Hle. apply Qle_bool_iff in Hle. congruence.
Qed.

(** *** The maximum of a sequence *)

Lemma fold_Qmax_spec (l : list Q) :
  forall acc,
    acc <= fold_left Qmax l acc
    /\ (forall y, In y l -> y <= fold_left Qmax l acc)
    /\ (fold_left Qmax l acc == acc \/ exists y, In y l /\ fold_left Qmax l acc == y).
Proof.
  induction l as [|z l IH]; intros acc; simpl.
  - split; [apply Qle_refl|]. split; [intros y []|]. left. reflexivity.
  - destruct (IH (Qmax acc z)) as (Hacc & Hall & Hatt).
    split; [|split].
    + eapply Qle_trans; [apply Q.le_max_l|exact Hacc].
    + intros y [<-|Hy].
      * eapply Qle_trans; [apply Q.le_max_r|exact Hacc].
      * now apply Hall.
    + destruct Hatt as [Heq|(y & Hy & Heq)].
      * destruct (Q.max_spec acc z) as [[_ Hm]|[_ Hm]].
        -- right. exists z. split; [now left|]. now rewrite Heq.
        -- left. now rewrite Heq.
      * right. exists y. split; [now right|assumption].
Qed.

Lemma py_max_upper (l : list Q) y : In y l -> y <= py_max l.
Proof.
  destruct l as [|x l]; [intros []|]. simpl.
  destruct (fold_Qmax_spec l x) as (Hacc & Hall & _).
  intros [<-|Hy]; [assumption|now apply Hall].
Qed.

Lemma py_max_attained (l : list Q) :
  l <> [] -> exists y, In y l /\ py_max l == y.
Proof.
  destruct l as [|x l]; [congruence|]. intros _. simpl.
  destruct (fold_Qmax_spec l x) as (_ & _ & [Heq|(y & Hy & Heq)]).
  - exists x. split; [now left|assumption].
  - exists y. split; [now right|assumption].
Qed.

(** Two non-empty sequences that dominate each other have the same maximum. *)
Lemma py_max_unique (l l' : list Q) :
  l <> [] -> l' <> [] ->
  (forall x, In x l -> exists y, In y l' /\ x <= y) ->
  (forall y, In y l' -> exists x, In x l /\ y <= x) ->
  py_max l == py_max l'.
Proof.
  intros Hl Hl' H1 H2.
  destruct (py_max_attained l Hl) as (x & Hx & Ex).
  destruct (py_max_attained l' Hl') as (y & Hy & Ey).
  apply Qle_antisym.
  - rewrite Ex. destruct (H1 x Hx) as (y' & Hy' & Hle).
    eapply Qle_trans; [exact Hle|now apply py_max_upper].
  - rewrite Ey. destruct (H2 y Hy) as (x' & Hx' & Hle).
    eapply Qle_trans; [exact Hle|now apply py_max_upper].
Qed.

(** *** The stable descending sort *)

Section Sorting.

Context {A : Type} (key : A -> Q).

Let desc (a b : A) : Prop := key b <= key a.

Lemma insert_desc_perm x l : Permutation (insert_desc key x l) (x :: l).
Proof.
  induction l as [|y l IH]; simpl; [reflexivity|].
  destruct (Qlt_bool (key x) (key y)); [|reflexivity].
  rewrite IH. apply perm_swap.
Qed.

Lemma sort_desc_perm l : Permutation (sort_desc key l) l.
Proof.
  induction l as [|x l IH]; simpl; [reflexivity|].
  unfold sort_desc in *. simpl. rewrite insert_desc_perm. now constructor.
Qed.

Lemma insert_desc_sorted x l :
  StronglySorted desc l -> StronglySorted desc (insert_desc key x l).
Proof.
  induction l as [|y l IH]; simpl; intros Hs.
  - constructor; constructor.
  - inversion Hs as [|? ? Hs' Hall]; subst.
    destruct (Qlt_bool (key x) (key y)) eqn:E.
    + constructor; [now apply IH|].
      eapply Permutation_Forall; [symmetry; apply insert_desc_perm|].
      constructor; [|assumption].
      unfold desc. apply Qlt_le_weak. now apply Qlt_bool_true.
    + apply Qlt_bool_false in E.
      constructor; [assumption|].
      constructor; [exact E|].
      eapply Forall_impl; [|exact Hall].
      unfold desc. intros z Hz. eapply Qle_trans; eassumption.
Qed.

Lemma sort_desc_sorted l : StronglySorted desc (sort_desc key l).
Proof.
  induction l as [|x l IH]; [constructor|].
  unfold sort_desc in *. simpl. now apply insert_desc_sorted.
Qed.

Lemma sort_desc_In x l : In x (sort_desc key l) <-> In x l.
Proof.
  split; apply Permutation_in; [|symmetry]; apply sort_desc_perm.
Qed.

End Sorting.

(** *** Subsequences and ordered lists *)

Section Subseq.

Context {A : Type}.

Implicit Types (l : list A).

Lemma subseq_nil_l l : subseq [] l.
Proof. induction l; [apply subseq_nil|apply subseq_skip; assumption]. Qed.

Lemma subseq_refl l : subseq l l.
Proof. induction l; [apply subseq_nil|apply subseq_keep; assumption]. Qed.

Lemma subseq_app l1 l2 l3 l4 :
  subseq l1 l2 -> subseq l3 l4 -> subseq (l1 ++ l3)%list (l2 ++ l4)%list.
Proof.
  induction 1; simpl; intros H34; [assumption| |].
  - apply subseq_skip. auto.
  - apply subseq_keep. auto.
Qed.

Lemma subseq_In l1 l2 x : subseq l1 l2 -> In x l1 -> In x l2.
Proof.
  induction 1; simpl; intros Hin; [assumption|right; auto|].
  destruct Hin; [now left|right; auto].
Qed.

Lemma subseq_Forall (P : A -> Prop) l1 l2 :
  subseq l1 l2 -> Forall P l2 -> Forall P l1.
Proof.
  intros Hs Hall. apply Forall_forall. intros x Hx.
  rewrite Forall_forall in Hall. apply Hall. eapply subseq_In; eauto.
Qed.

Lemma subseq_ordered (R : A -> A -> Prop) l1 l2 :
  subseq l1 l2 -> ordered R l2 -> ordered R l1.
Proof.
  unfold ordered. induction 1; intros Hs; [constructor| |].
  - inversion Hs; subst. auto.
  - inversion Hs as [|? ? Hs' Hall]; subst.
    constructor; [auto|]. eapply subseq_Forall; eauto.
Qed.

Lemma ordered_app (R : A -> A -> Prop) l1 l2 :
  ordered R l1 -> ordered R l2 ->
  (forall a b, In a l1 -> In b l2 -> R a b) ->
  ordered R (l1 ++ l2)%list.
Proof.
  unfold ordered. induction 1 as [|a l1 Hs IH Hall]; simpl; intros H2 Hx; [assumption|].
  constructor.
  - apply IH; [assumption|]. intros; apply Hx; [now right|assumption].
  - apply Forall_app. split; [assumption|].
    apply Forall_forall. intros b Hb. apply Hx; [now left|assumption].
Qed.

(** A relation that holds between the members of an ordered list may be
    traded for any relation it implies on those members. *)
Lemma ordered_weaken (R1 R2 : A -> A -> Prop) l :
  ordered R1 l ->
  (forall a b, In a l -> In b l -> R1 a b -> R2 a b) ->
  ordered R2 l.
Proof.
  unfold ordered. induction 1 as [|a l Hs IH Hall]; intros Himp; constructor.
  - apply IH. intros; apply Himp; try (now right); assumption.
  - rewrite Forall_forall in *. intros b Hb.
    apply Himp; [now left|now right|now apply Hall].
Qed.

Lemma NoDup_ordered_neq l : NoDup l -> ordered (fun a b => a <> b) l.
Proof.
  unfold ordered. induction 1 as [|a l Hnotin Hnd IH]; constructor; [assumption|].
  apply Forall_forall. intros b Hb ->. contradiction.
Qed.

End Subseq.

Lemma ordered_flat_map {A B : Type} (Rg : A -> A -> Prop) (R : B -> B -> Prop)
    (f : A -> list B) (l : list A) :
  ordered Rg l ->
  (forall g, In g l -> ordered R (f g)) ->
  (forall g1 g2 a b, In g1 l -> In g2 l -> Rg g1 g2 ->
                     In a (f g1) -> In b (f g2) -> R a b) ->
  ordered R (flat_map f l).
Proof.
  unfold ordered. induction 1 as [|g l Hs IH Hall]; intros Hin Hx; simpl; [constructor|].
  apply ordered_app.
  - apply Hin. now left.
  - apply IH.
    + intros; apply Hin; now right.
    + intros g1 g2 a b H1 H2. apply Hx; now right.
  - intros a b Ha Hb. apply in_flat_map in Hb as (g2 & Hg2 & Hb).
    rewrite Forall_forall in Hall.
    apply (Hx g g2); auto; [now left|now right].
Qed.

(** *** The selection loops *)

Lemma total_estimated_tokens_app (l1 l2 : list Enhanced) :
  total_estimated_tokens (l1 ++ l2)%list
  == total_estimated_tokens l1 + total_estimated_tokens l2.
Proof.
  induction l1 as [|c l1 IH]; cbn [total_estimated_tokens app]; [lra|].
  rewrite IH. lra.
Qed.

Section Selection.

Variables (self : Settings) (top_k : Z).

Local Abbreviation extends := (Optimizer.extends self top_k).

Lemma extends_refl offered acc : extends offered acc acc.
Proof.
  exists []. rewrite app_nil_r. repeat apply conj; auto.
  - apply subseq_nil_l.
  - cbn [total_estimated_tokens]. lra.
  - lia.
Qed.

Lemma select_in_document_extends (prioritized_matches : list Enhanced) :
  forall acc acc',
    select_in_document self top_k prioritized_matches acc = inr acc' ->
    extends prioritized_matches acc acc'.
Proof.
  induction prioritized_matches as [|m rest IH]; intros acc acc' Hsel; simpl in Hsel.
  - injection Hsel as <-. apply extends_refl.
  - destruct (text (metadata (base m))) as [chunk_text|] eqn:Htext; [|discriminate].
    assert (Hcost : estimated_tokens m = chunk_tokens_of chunk_text)
      by (unfold estimated_tokens; now rewrite Htext).
    destruct (Qlt_bool _ _) eqn:Hfit in Hsel.
    { injection Hsel as <-.
      exists []. rewrite app_nil_r. repeat apply conj; auto.
      - apply subseq_nil_l.
      - cbn [total_estimated_tokens]. lra.
      - lia. }
    apply Qlt_bool_false in Hfit.
    cbv zeta in Hsel. cbn [selected_chunks total_tokens] in Hsel.
    destruct (top_k <=? Z.of_nat (List.length (selected_chunks acc ++ [m])%list))%Z
      eqn:Hroom.
    + apply Z.leb_le in Hroom. injection Hsel as <-.
      exists [m]. cbn [selected_chunks total_tokens]. repeat apply conj; auto.
      * apply subseq_keep, subseq_nil_l.
      * cbn [total_estimated_tokens]. rewrite Hcost. lra.
      * rewrite length_app. cbn [List.length]. lia.
    + apply Z.leb_gt in Hroom.
      apply IH in Hsel as (taken & Hsel' & Hsub & Htot & Hbud & Hlen).
      cbn [selected_chunks total_tokens] in *.
      exists (m :: taken). repeat apply conj.
      * rewrite Hsel', <- app_assoc. reflexivity.
      * now apply subseq_keep.
      * cbn [total_estimated_tokens]. rewrite Htot, Hcost. lra.
      * right. destruct Hbud as [->|Hbud]; [|assumption].
        cbn [total_estimated_tokens] in Htot. rewrite Htot. lra.
      * intros _. apply Hlen. exact Hroom.
Qed.

Lemma select_from_documents_extends (query : string)
    (sorted_docs : list (string * list Enhanced)) :
  forall acc acc',
    select_from_documents self query top_k sorted_docs acc = inr acc' ->
    extends (flat_map (fun x => prioritize query (snd x)) sorted_docs) acc acc'.
Proof.
  induction sorted_docs as [|[name doc_matches] rest IH]; intros acc acc' Hsel;
    simpl in Hsel.
  - injection Hsel as <-. apply extends_refl.
  - destruct (select_in_document self top_k (prioritize query doc_matches) acc)
      as [e|acc1] eqn:Hdoc; [discriminate|].
    apply select_in_document_extends in Hdoc
      as (taken1 & Hsel1 & Hsub1 & Htot1 & Hbud1 & Hlen1).
    destruct (Z.leb_spec top_k (Z.of_nat (List.length (selected_chunks acc1))))
      as [Hfull|Hroom].
    + injection Hsel as <-.
      exists taken1. repeat apply conj; auto.
      simpl. rewrite <- (app_nil_r taken1).
      apply subseq_app; [assumption|apply subseq_nil_l].
    + apply IH in Hsel as (taken2 & Hsel2 & Hsub2 & Htot2 & Hbud2 & Hlen2).
      exists (taken1 ++ taken2)%list. repeat apply conj.
      * rewrite Hsel2, Hsel1, <- app_assoc. reflexivity.
      * simpl. now apply subseq_app.
      * rewrite Htot2, Htot1, total_estimated_tokens_app. lra.
      * destruct Hbud2 as [->|Hbud2]; [|now right].
        rewrite app_nil_r. cbn [total_estimated_tokens] in Htot2.
        destruct Hbud1 as [->|Hbud1]; [now left|right].
        rewrite Htot2. lra.
      * intros _. apply Hlen2. exact Hroom.
Qed.

End Selection.

(** The chunks of the returned context are the chunks selected by the
    loops. *)
Lemma context_chunks extract_entities self matches query top_k context :
  _optimize_context_selection extract_entities self matches query top_k = inr context ->
  exists acc,
    select_from_documents self query top_k
      (sorted_documents extract_entities self matches query)
      {| selected_chunks := []; total_tokens := 0 |} = inr acc
    /\ chunks context = selected_chunks acc
    /\ sources context = chunks context.
Proof.
  unfold _optimize_context_selection. intros H.
  destruct (select_from_documents _ _ _ _ _) as [e|acc] eqn:Hsel; [discriminate|].
  exists acc. split; [reflexivity|].
  destruct (selected_chunks acc) as [|c cs] eqn:Hc; injection H as <-; now simpl.
Qed.

(** The chunks of the returned context, in order, are picked from the
    documents in document order, and within each document in the order
    [prioritize] gives. *)
Lemma context_chunks_subseq extract_entities self matches query top_k context :
  _optimize_context_selection extract_entities self matches query top_k = inr context ->
  subseq (chunks context)
    (flat_map (fun x => prioritize query (snd x))
       (sorted_documents extract_entities self matches query)).
Proof.
  intros H. apply context_chunks in H as (acc & Hsel & -> & _).
  apply select_from_documents_extends in Hsel as (taken & Heq & Hsub & _).
  simpl in Heq. now rewrite Heq.
Qed.

(** Both bounds of the selection, for a non-negative token budget: the
    estimated token cost of the returned chunks stays within
    [max_context_tokens], for every [top_k]; and at most [top_k] chunks are
    returned when [top_k] is at least 1. *)
Lemma selection_within_bounds extract_entities self matches query top_k context :
  (0 <= max_context_tokens self)%Z ->
  _optimize_context_selection extract_entities self matches query top_k = inr context ->
  total_estimated_tokens (chunks context) <= inject_Z (max_context_tokens self)
  /\ ((1 <= top_k)%Z -> (Z.of_nat (List.length (chunks context)) <= top_k)%Z).
Proof.
  intros Hmax H. apply context_chunks in H as (acc & Hsel & -> & _).
  apply select_from_documents_extends in Hsel
    as (taken & Heq & _ & Htot & Hbud & Hlen).
  cbn [selected_chunks total_tokens app List.length] in Heq, Htot, Hlen. split.
  - rewrite Heq. destruct Hbud as [->|Hbud].
    + cbn [total_estimated_tokens]. change 0 with (inject_Z 0).
      rewrite <- Zle_Qle. exact Hmax.
    + rewrite Htot in Hbud. lra.
  - intros Hk. apply Hlen. lia.
Qed.

(** *** Grouping by document *)

Section Ordered.

Context {A : Type}.

Lemma ordered_all (R : A -> A -> Prop) (l : list A) :
  (forall a b, In a l -> In b l -> R a b) -> ordered R l.
Proof.
  unfold ordered. induction l as [|a l IH]; intros H; constructor.
  - apply IH. intros; apply H; now right.
  - apply Forall_forall. intros b Hb. apply H; [now left|now right].
Qed.

Lemma NoDup_map_ordered {B : Type} (f : A -> B) (l : list A) :
  NoDup (map f l) -> ordered (fun a b => f a <> f b) l.
Proof.
  unfold ordered. induction l as [|a l IH]; simpl; intros Hnd; constructor.
  - apply IH. now inversion Hnd.
  - inversion Hnd as [|? ? Hnotin _]; subst.
    apply Forall_forall. intros b Hb Heq. apply Hnotin. rewrite Heq. now apply in_map.
Qed.

End Ordered.

Lemma group_append_keys name m groups k :
  In k (Dict.keys (group_append name m groups)) <->
  k = name \/ In k (Dict.keys groups).
Proof.
  induction groups as [|[n ms] rest IH]; simpl.
  - intuition congruence.
  - destruct (String.eqb_spec n name) as [->|Hne]; simpl; [intuition congruence|].
    unfold Dict.keys in IH. rewrite IH. intuition congruence.
Qed.

Lemma group_append_NoDup name m groups :
  NoDup (Dict.keys groups) -> NoDup (Dict.keys (group_append name m groups)).
Proof.
  induction groups as [|[n ms] rest IH]; simpl; intros Hnd.
  - constructor; [intros []|constructor].
  - inversion Hnd as [|? ? Hnotin Hnd']; subst.
    destruct (String.eqb_spec n name) as [->|Hne]; simpl.
    + now constructor.
    + constructor; [|now apply IH].
      intros Hin. apply group_append_keys in Hin as [->|Hin]; contradiction.
Qed.

Lemma group_append_In name m groups n ms :
  NoDup (Dict.keys groups) ->
  In (n, ms) (group_append name m groups) ->
  (n = name /\ ms = [m] /\ ~ In name (Dict.keys groups))
  \/ (n = name /\ exists ms0, In (n, ms0) groups /\ ms = (ms0 ++ [m])%list)
  \/ (n <> name /\ In (n, ms) groups).
Proof.
  induction groups as [|[n0 ms0] rest IH]; simpl; intros Hnd Hin.
  - destruct Hin as [Heq|[]]. injection Heq as <- <-. left. auto.
  - inversion Hnd as [|? ? Hnotin Hnd']; subst.
    destruct (String.eqb_spec n0 name) as [->|Hne]; simpl in Hin.
    + destruct Hin as [Heq|Hin].
      * injection Heq as <- <-. right. left. split; [reflexivity|].
        exists ms0. split; [now left|reflexivity].
      * right. right. split; [|now right].
        intros ->. apply Hnotin. apply (in_map fst) in Hin. exact Hin.
    + destruct Hin as [Heq|Hin].
      * injection Heq as <- <-. right. right. split; [assumption|now left].
      * destruct (IH Hnd' Hin) as [(-> & -> & Hk)|[(-> & ms1 & H1 & ->)|(Hn & H1)]].
        -- left. repeat split. intros [Hk'|Hk']; [congruence|contradiction].
        -- right. left. split; [reflexivity|]. exists ms1. split; [now right|reflexivity].
        -- right. right. split; [assumption|now right].
Qed.

Lemma filter_doc_name_none (E : list Enhanced) (n : string) :
  (forall c, In c E -> doc_name c <> n) ->
  filter (fun c => String.eqb (doc_name c) n) E = [].
Proof.
  induction E as [|c E IH]; intros H; simpl; [reflexivity|].
  destruct (String.eqb_spec (doc_name c) n) as [Heq|Hne].
  - exfalso. apply (H c); [now left|assumption].
  - apply IH. intros; apply H; now right.
Qed.

Lemma group_append_grouped E groups m :
  grouped E groups ->
  grouped (E ++ [m])%list (group_append (doc_name m) m groups).
Proof.
  intros (Hnd & Hcov & Hgrp). repeat apply conj.
  - now apply group_append_NoDup.
  - intros c Hc. apply group_append_keys.
    apply in_app_or in Hc as [Hc|[<-|[]]]; [right; now apply Hcov|now left].
  - intros n ms Hin. rewrite filter_app. cbn [filter].
    apply group_append_In in Hin
      as [(-> & -> & Hk)|[(-> & ms0 & H0 & ->)|(Hn & H0)]]; [| | |assumption].
    + rewrite String.eqb_refl. split; [discriminate|].
      rewrite filter_doc_name_none; [reflexivity|].
      intros c Hc Heq. apply Hk. rewrite <- Heq. now apply Hcov.
    + rewrite String.eqb_refl. destruct (Hgrp _ _ H0) as (_ & <-).
      split; [|reflexivity]. intros Habs. now apply app_eq_nil in Habs as [_ ?].
    + destruct (String.eqb_spec (doc_name m) n) as [Heq|_]; [congruence|].
      rewrite app_nil_r. now apply Hgrp.
Qed.

Lemma group_by_document_grouped (E : list Enhanced) :
  grouped E (group_by_document E).
Proof.
  unfold group_by_document.
  assert (H : forall E2 E1 groups,
             grouped E1 groups ->
             grouped (E1 ++ E2)%list
               (fold_left (fun groups m => group_append (doc_name m) m groups)
                          E2 groups)).
  { induction E2 as [|m E2 IH]; intros E1 groups Hg; simpl.
    - now rewrite app_nil_r.
    - replace (E1 ++ m :: E2)%list with ((E1 ++ [m]) ++ E2)%list
        by (rewrite <- app_assoc; reflexivity).
      apply IH. now apply group_append_grouped. }
  apply (H E [] []). repeat split.
  - constructor.
  - intros c [].
  - destruct H0.
  - destruct H0.
Qed.

(** Being grouped does not depend on the order of the groups. *)
Lemma grouped_perm E groups groups' :
  Permutation groups groups' -> grouped E groups -> grouped E groups'.
Proof.
  intros Hp (Hnd & Hcov & Hgrp). repeat apply conj.
  - eapply Permutation_NoDup; [|exact Hnd]. now apply Permutation_map.
  - intros c Hc. eapply Permutation_in; [|now apply Hcov].
    now apply Permutation_map.
  - intros n ms Hin. apply Hgrp. eapply Permutation_in; [symmetry|]; eassumption.
Qed.

Lemma grouped_member E groups n ms c :
  grouped E groups -> In (n, ms) groups ->
  In c ms <-> In c E /\ doc_name c = n.
Proof.
  intros (_ & _ & Hgrp) Hin. destruct (Hgrp n ms Hin) as (_ & ->).
  rewrite filter_In. split; intros (H1 & H2); (split; [assumption|]).
  - now apply String.eqb_eq.
  - now apply String.eqb_eq.
Qed.

(** *** The order within a document *)

Lemma prioritize_In query doc_matches c :
  In c (prioritize query doc_matches) <-> In c doc_matches.
Proof.
  unfold prioritize. destruct (Breadth._is_analytical_query query).
  - rewrite in_app_iff, !sort_desc_In, !filter_In.
    destruct (is_record_text _); simpl; intuition congruence.
  - apply sort_desc_In.
Qed.

Lemma prioritize_within_document query doc_matches :
  Breadth._is_analytical_query query = true ->
  ordered within_document_order (prioritize query doc_matches).
Proof.
  intros Ha. unfold prioritize. rewrite Ha.
  unfold within_document_order, is_data_chunk.
  apply ordered_app.
  - eapply ordered_weaken; [apply (sort_desc_sorted enhanced_score)|].
    intros a b Hina Hinb Hle _. cbv beta in Hle.
    apply sort_desc_In, filter_In in Hina as (_ & Hda).
    split; [intros _; exact Hda|intros _; exact Hle].
  - eapply ordered_weaken; [apply (sort_desc_sorted enhanced_score)|].
    intros a b Hina Hinb Hle _. cbv beta in Hle.
    apply sort_desc_In, filter_In in Hinb as (_ & Hdb).
    apply negb_true_iff in Hdb.
    split; [intros Habs; congruence|intros _; exact Hle].
  - intros a b Hina Hinb _.
    apply sort_desc_In, filter_In in Hina as (_ & Hda).
    apply sort_desc_In, filter_In in Hinb as (_ & Hdb).
    apply negb_true_iff in Hdb.
    split; intros Habs; congruence.
Qed.

Lemma prioritize_enhanced query doc_matches :
  Breadth._is_analytical_query query = false ->
  ordered enhanced_order (prioritize query doc_matches).
Proof.
  intros Ha. unfold prioritize. rewrite Ha.
  eapply ordered_weaken; [apply (sort_desc_sorted enhanced_score)|].
  intros a b _ _ Hle _. exact Hle.
Qed.

(** *** The matches that reach the grouping *)

Section Enhance.

Variable extract_entities : string -> string -> QueryEntities.
Variables (self : Settings) (matches : list Match) (query : string).

Lemma enhance_matches_In c :
  In c (enhance_matches extract_entities self matches query) ->
  In (base c) matches /\ min_context_relevance self <= score (base c).
Proof.
  unfold enhance_matches. rewrite sort_desc_In, in_map_iff.
  intros (m & <- & Hm). apply filter_In in Hm as (Hin & Hrel).
  split; [exact Hin|]. now apply Qle_bool_iff.
Qed.

Lemma enhance_matches_covers m :
  In m matches -> min_context_relevance self <= score m ->
  exists c, In c (enhance_matches extract_entities self matches query) /\ base c = m.
Proof.
  intros Hin Hrel. unfold enhance_matches.
  eexists. split.
  - apply sort_desc_In, in_map_iff. exists m. split; [reflexivity|].
    apply filter_In. split; [exact Hin|]. now apply Qle_bool_iff.
  - reflexivity.
Qed.

Lemma sorted_documents_grouped :
  grouped (enhance_matches extract_entities self matches query)
          (sorted_documents extract_entities self matches query).
Proof.
  unfold sorted_documents. eapply grouped_perm.
  - symmetry. apply sort_desc_perm.
  - apply group_by_document_grouped.
Qed.

(** The key the documents are sorted by is the best raw score among all the
    matches of the document: a match dropped by the relevance filter scores
    below every match that was kept. *)
Lemma best_score_is_best_raw_score n ms :
  In (n, ms) (sorted_documents extract_entities self matches query) ->
  best_score ms == best_raw_score matches n.
Proof.
  intros Hin.
  pose proof sorted_documents_grouped as Hg.
  pose proof (fun c => grouped_member _ _ n ms c Hg Hin) as Hmem.
  destruct Hg as (_ & _ & Hgrp). destruct (Hgrp n ms Hin) as (Hne & _).
  assert (Hex : exists c0, In c0 ms)
    by (destruct ms as [|c0 ms0]; [congruence|exists c0; now left]).
  destruct Hex as (c0 & Hc0). pose proof Hc0 as Hc0ms.
  apply Hmem in Hc0 as (Hc0E & Hc0n).
  apply enhance_matches_In in Hc0E as (Hc0in & Hc0rel).
  unfold best_score, best_raw_score.
  apply py_max_unique.
  - intros Habs. apply map_eq_nil in Habs. congruence.
  - intros Habs. apply map_eq_nil in Habs.
    assert (Hin0 : In (base c0)
                      (filter (fun m => String.eqb (match_doc_name m) n) matches)).
    { apply filter_In. split; [assumption|]. now apply String.eqb_eq. }
    rewrite Habs in Hin0. destruct Hin0.
  - intros x Hx. apply in_map_iff in Hx as (c & <- & Hc).
    apply Hmem in Hc as (HcE & Hcn).
    apply enhance_matches_In in HcE as (Hcin & _).
    exists (score (base c)). split; [|apply Qle_refl].
    apply in_map, filter_In. split; [assumption|]. now apply String.eqb_eq.
  - intros y Hy. apply in_map_iff in Hy as (m & <- & Hm).
    apply filter_In in Hm as (Hmin & Hmn). apply String.eqb_eq in Hmn.
    destruct (Qlt_le_dec (score m) (min_context_relevance self)) as [Hlow|Hrel].
    + exists (score (base c0)). split.
      * apply in_map_iff. exists c0. split; [reflexivity|assumption].
      * apply Qlt_le_weak. eapply Qlt_le_trans; eassumption.
    + destruct (enhance_matches_covers m Hmin Hrel) as (c & Hc & Hb).
      exists (score (base c)). split; [|rewrite Hb; apply Qle_refl].
      apply in_map_iff. exists c. split; [reflexivity|].
      apply Hmem. split; [assumption|].
      unfold doc_name. rewrite Hb. exact Hmn.
Qed.

(** The chunks as they are offered to the selection, all documents in a
    row, are in document order, and in the order [prioritize] gives within
    each document. *)
Lemma offered_document_order :
  ordered (document_order matches)
    (flat_map (fun x => prioritize query (snd x))
       (sorted_documents extract_entities self matches query)).
Proof.
  pose proof sorted_documents_grouped as Hg.
  eapply ordered_flat_map.
  - unfold sorted_documents. apply (sort_desc_sorted (fun x => best_score (snd x))).
  - intros [n ms] Hin. apply ordered_all. intros a b Ha Hb.
    apply prioritize_In in Ha, Hb. cbn [snd] in Ha, Hb.
    apply (grouped_member _ _ n ms a Hg Hin) in Ha as (_ & Han).
    apply (grouped_member _ _ n ms b Hg Hin) in Hb as (_ & Hbn).
    unfold document_order. rewrite Han, Hbn. apply Qle_refl.
  - intros [n1 ms1] [n2 ms2] a b H1 H2 Hle Ha Hb. cbn [snd] in *.
    apply prioritize_In in Ha, Hb.
    apply (grouped_member _ _ n1 ms1 a Hg H1) in Ha as (_ & Han).
    apply (grouped_member _ _ n2 ms2 b Hg H2) in Hb as (_ & Hbn).
    unfold document_order. rewrite Han, Hbn.
    rewrite <- (best_score_is_best_raw_score n1 ms1 H1).
    rewrite <- (best_score_is_best_raw_score n2 ms2 H2).
    exact Hle.
Qed.

Lemma offered_within_document_order (R : Enhanced -> Enhanced -> Prop) :
  (forall a b, doc_name a <> doc_name b -> R a b) ->
  (forall doc_matches, ordered R (prioritize query doc_matches)) ->
  ordered R
    (flat_map (fun x => prioritize query (snd x))
       (sorted_documents extract_entities self matches query)).
Proof.
  intros Hdiff Hdoc.
  pose proof sorted_documents_grouped as Hg.
  eapply ordered_flat_map.
  - apply (NoDup_map_ordered fst). apply Hg.
  - intros g _. apply Hdoc.
  - intros [n1 ms1] [n2 ms2] a b H1 H2 Hne Ha Hb. cbn [fst snd] in *.
    apply prioritize_In in Ha, Hb.
    apply (grouped_member _ _ n1 ms1 a Hg H1) in Ha as (_ & Han).
    apply (grouped_member _ _ n2 ms2 b Hg H2) in Hb as (_ & Hbn).
    apply Hdiff. congruence.
Qed.

End Enhance.

(** *** The optimizer returns when every match has its text *)

Lemma select_in_document_returns self top_k (prioritized_matches : list Enhanced) :
  forallb carries_text prioritized_matches = true ->
  forall acc, exists acc',
    select_in_document self top_k prioritized_matches acc = inr acc'.
Proof.
  induction prioritized_matches as [|m rest IH]; simpl; intros Htext acc.
  - now exists acc.
  - apply andb_true_iff in Htext as (Hm & Hrest). unfold carries_text in Hm.
    destruct (text (metadata (base m))); [|discriminate].
    destruct (Qlt_bool _ _); [now exists acc|].
    destruct (_ <=? _)%Z; [eexists; reflexivity|]. now apply IH.
Qed.

Lemma select_from_documents_returns self query top_k
    (sorted_docs : list (string * list Enhanced)) :
  (forall n ms c, In (n, ms) sorted_docs -> In c ms -> carries_text c = true) ->
  forall acc, exists acc',
    select_from_documents self query top_k sorted_docs acc = inr acc'.
Proof.
  induction sorted_docs as [|[name doc_matches] rest IH]; simpl; intros Htext acc.
  - now exists acc.
  - destruct (select_in_document_returns self top_k (prioritize query doc_matches))
      with (acc := acc) as (acc1 & ->).
    + apply forallb_forall. intros c Hc. apply prioritize_In in Hc.
      apply (Htext name doc_matches); [now left|assumption].
    + destruct (_ <=? _)%Z; [now exists acc1|].
      apply IH. intros n ms c Hin. apply (Htext n ms c). now right.
Qed.

(** When every match has a ['text'], the optimizer returns a context. *)
Lemma optimize_returns extract_entities self matches query top_k :
  (forall m, In m matches -> text (metadata m) <> None) ->
  exists context,
    _optimize_context_selection extract_entities self matches query top_k = inr context.
Proof.
  intros Htext. unfold _optimize_context_selection.
  destruct (select_from_documents_returns self query top_k
              (sorted_documents extract_entities self matches query))
    with (acc := {| selected_chunks := []; total_tokens := 0 |}) as (acc & ->).
  - intros n ms c Hin Hc.
    apply (grouped_member _ _ n ms c
             (sorted_documents_grouped extract_entities self matches query) Hin)
      in Hc as (Hc & _).
    apply enhance_matches_In in Hc as (Hc & _).
    unfold carries_text. specialize (Htext _ Hc).
    destruct (text (metadata (base c))); [reflexivity|congruence].
  - destruct (selected_chunks acc); eexists; reflexivity.
Qed.

(** *** The returned context *)

(** C8.  In the returned context the chunks come by document, the documents
    in descending order of their single best raw score; and for an
    analytical query, among the chunks of one document no data-record chunk
    comes after a chunk that is none, and each of the two groups is in
    descending order of enhanced score. *)
Theorem context_order extract_entities self matches query top_k context :
  _optimize_context_selection extract_entities self matches query top_k = inr context ->
  ordered (document_order matches) (chunks context)
  /\ (Breadth._is_analytical_query query = true ->
      ordered within_document_order (chunks context)).
Proof.
  intros H. apply context_chunks_subseq in H. split.
  - eapply subseq_ordered; [exact H|]. apply offered_document_order.
  - intros Ha. eapply subseq_ordered; [exact H|].
    apply offered_within_document_order.
    + intros a b Hne Heq. contradiction.
    + intros doc_matches. now apply prioritize_within_document.
Qed.

Lemma context_order_witness :
  exists context,
    _optimize_context_selection Samples.no_entities Samples.default_settings
      Samples.sample_matches Samples.sample_query 8 = inr context
    /\ map (fun c => id (base c)) (chunks context) = ["v2"; "v1"; "v3"]%string
    /\ ordered (document_order Samples.sample_matches) (chunks context)
    /\ ordered within_document_order (chunks context).
Proof.
  destruct (_optimize_context_selection Samples.no_entities Samples.default_settings
              Samples.sample_matches Samples.sample_query 8)
    as [e|context] eqn:H.
  - vm_compute in H. discriminate.
  - exists context. split; [reflexivity|].
    destruct (context_order _ _ _ _ _ _ H) as [H1 H2].
    split; [|split; [exact H1|apply H2; vm_compute; reflexivity]].
    vm_compute in H. injection H as <-. reflexivity.
Defined.

(** For a non-analytical query the chunks of one document come in
    descending order of enhanced score. *)
Lemma context_order_plain extract_entities self matches query top_k context :
  Breadth._is_analytical_query query = false ->
  _optimize_context_selection extract_entities self matches query top_k = inr context ->
  ordered enhanced_order (chunks context).
Proof.
  intros Ha H. apply context_chunks_subseq in H.
  eapply subseq_ordered; [exact H|].
  apply offered_within_document_order.
  - intros a b Hne Heq. contradiction.
  - intros doc_matches. now apply prioritize_enhanced.
Qed.

(** C1 (failing input).  With [top_k = 0] the sample matches yield a context
    of one chunk: the count is compared with [top_k] only after a chunk was
    appended. *)
Theorem top_k_zero_selects_a_chunk :
  exists context,
    _optimize_context_selection Samples.no_entities Samples.default_settings
      Samples.sample_matches Samples.sample_query 0 = inr context
    /\ map (fun c => id (base c)) (chunks context) = ["v2"]%string
    /\ ~ (Z.of_nat (List.length (chunks context)) <= 0)%Z.
Proof.
  destruct (_optimize_context_selection Samples.no_entities Samples.default_settings
              Samples.sample_matches Samples.sample_query 0)
    as [e|context] eqn:H.
  - vm_compute in H. discriminate.
  - exists context. split; [reflexivity|].
    vm_compute in H. injection H as <-. split; [reflexivity|].
    cbn. lia.
Qed.

End OptimizerFacts.

(* ================================================================== *)
(** ** Response orchestrator *)

Module PipelineFacts.

Import Py.
Import Optimizer.
Import Pipeline.

(** *** Selected chunks carry their text *)

Lemma select_in_document_text self top_k (prioritized_matches : list Enhanced) :
  forall acc acc',
    forallb carries_text (selected_chunks acc) = true ->
    select_in_document self top_k prioritized_matches acc = inr acc' ->
    forallb carries_text (selected_chunks acc') = true.
Proof.
  induction prioritized_matches as [|m rest IH]; intros acc acc' Hacc Hsel;
    simpl in Hsel.
  - now injection Hsel as <-.
  - destruct (text (metadata (base m))) as [chunk_text|] eqn:Htext; [|discriminate].
    destruct (Qlt_bool _ _); [now injection Hsel as <-|].
    cbv zeta in Hsel. cbn [selected_chunks total_tokens] in Hsel.
    assert (Hacc' : forallb carries_text (selected_chunks acc ++ [m])%list = true).
    { rewrite forallb_app, Hacc. unfold carries_text at 1. cbn [forallb].
      now rewrite Htext. }
    destruct (_ <=? _)%Z.
    + now injection Hsel as <-.
    + eapply IH; [|exact Hsel]. exact Hacc'.
Qed.

Lemma select_from_documents_text self query top_k
    (sorted_docs : list (string * list Enhanced)) :
  forall acc acc',
    forallb carries_text (selected_chunks acc) = true ->
    select_from_documents self query top_k sorted_docs acc = inr acc' ->
    forallb carries_text (selected_chunks acc') = true.
Proof.
  induction sorted_docs as [|[name doc_matches] rest IH]; intros acc acc' Hacc Hsel;
    simpl in Hsel.
  - now injection Hsel as <-.
  - destruct (select_in_document self top_k (prioritize query doc_matches) acc)
      as [e|acc1] eqn:Hdoc; [discriminate|].
    apply select_in_document_text in Hdoc; [|assumption].
    destruct (_ <=? _)%Z.
    + now injection Hsel as <-.
    + eapply IH; eassumption.
Qed.

(** The context the optimizer returns is one the generator accepts. *)
Lemma optimized_chunks_have_text extract_entities self matches query top_k context :
  _optimize_context_selection extract_entities self matches query top_k = inr context ->
  chunks_have_text context.
Proof.
  intros H. apply OptimizerFacts.context_chunks in H as (acc & Hsel & Hc & _).
  unfold chunks_have_text. rewrite Hc.
  eapply select_from_documents_text; [|exact Hsel]. reflexivity.
Qed.

Section Runs.

Context {W Vec RichContent : Type}.

Variable embed_text : string -> W -> result Vec * W.
Variable query_vectors : Vec -> string -> Z -> W -> result (list Match) * W.
Variable llm_invoke : Prompt -> W -> result string * W.
Variable extract_entities : string -> string -> QueryEntities.
Variable generate_rich_content :
  string -> list Enhanced -> string -> W -> (RichContent * Q) * W.
Variable generate_rich_content_for_general_query :
  string -> W -> (RichContent * Q) * W.

Implicit Types (st : State W RichContent) (query tenant_id user_id : string).

Local Abbreviation general := (_generate_general_knowledge_response llm_invoke).
Local Abbreviation generate := (_generate_enterprise_answer llm_invoke).
Local Abbreviation fallback :=
  (_generate_enterprise_answer_with_fallback
     embed_text query_vectors llm_invoke extract_entities).
Local Abbreviation run_query :=
  (query_documents embed_text query_vectors llm_invoke extract_entities
     generate_rich_content generate_rich_content_for_general_query).

(** *** One call at a time *)

Lemma llm_run prompt st :
  llm llm_invoke prompt st =
  (fst (llm_invoke prompt (world st)),
   after (Generated prompt) (snd (llm_invoke prompt (world st))) st).
Proof.
  unfold llm, bind, record, call, after. cbn [world query_cache trace].
  destruct (llm_invoke prompt (world st)). reflexivity.
Qed.

Lemma embed_run text st :
  embed embed_text text st =
  (fst (embed_text text (world st)),
   after (Embedded text) (snd (embed_text text (world st))) st).
Proof.
  unfold embed, bind, record, call, after. cbn [world query_cache trace].
  destruct (embed_text text (world st)). reflexivity.
Qed.

Lemma search_run v namespace top_k st :
  search query_vectors v namespace top_k st =
  (fst (query_vectors v namespace top_k (world st)),
   after (Searched namespace top_k)
         (snd (query_vectors v namespace top_k (world st))) st).
Proof.
  unfold search, bind, record, call, after. cbn [world query_cache trace].
  destruct (query_vectors v namespace top_k (world st)). reflexivity.
Qed.

Lemma optimize_run self matches query top_k st :
  optimize extract_entities self matches query top_k st =
  (_optimize_context_selection extract_entities self matches query top_k,
   after (Optimized top_k) (world st) st).
Proof.
  unfold optimize, bind, record, after. cbn.
  destruct (_optimize_context_selection _ _ _ _ _); reflexivity.
Qed.

(** *** The two generators *)

(** The general-knowledge generator makes one model call and never raises. *)
Lemma general_run query tenant_id user_id st :
  general query tenant_id user_id st =
  (inr (general_response
          (fst (llm_invoke (GeneralPrompt (is_visualization_request query) query)
                           (world st)))),
   after (Generated (GeneralPrompt (is_visualization_request query) query))
         (snd (llm_invoke (GeneralPrompt (is_visualization_request query) query)
                          (world st))) st).
Proof.
  unfold _generate_general_knowledge_response, bind, attempt, general_response.
  rewrite llm_run. destruct (fst _); reflexivity.
Qed.

(** The answer of the enterprise generator when every chunk of the context
    carries its text: one model call, whose failure becomes the apology. *)
Lemma generate_run query context st :
  chunks_have_text context ->
  generate query context st =
  (inr (generated_answer context
          (fst (llm_invoke (generation_prompt query context) (world st)))),
   after (Generated (generation_prompt query context))
         (snd (llm_invoke (generation_prompt query context) (world st))) st).
Proof.
  unfold chunks_have_text, _generate_enterprise_answer, generation_prompt,
    generated_answer.
  intros Htext. destruct (chunks context) as [|c cs] eqn:Hc.
  - unfold bind. rewrite general_run. unfold ret, general_response.
    destruct (fst _); reflexivity.
  - rewrite Htext. cbn [negb]. unfold bind, attempt. rewrite llm_run.
    destruct (fst _); reflexivity.
Qed.

(** Without the text of some chunk the generator raises before any call. *)
Lemma generate_raises query context st :
  ~ chunks_have_text context ->
  generate query context st = (inl (KeyError "text"), st).
Proof.
  unfold chunks_have_text, _generate_enterprise_answer.
  intros Htext. destruct (chunks context) as [|c cs] eqn:Hc.
  - exfalso. apply Htext. reflexivity.
  - destruct (forallb _ (c :: cs)); [exfalso; now apply Htext|reflexivity].
Qed.

Lemma chunks_have_text_dec context :
  chunks_have_text context \/ ~ chunks_have_text context.
Proof.
  unfold chunks_have_text. destruct (forallb _ _); [now left|right; discriminate].
Qed.

(** What a run of the generator that returned has done. *)
Lemma generate_returned query context st a st' :
  generate query context st = (inr a, st') ->
  a = generated_answer context
        (fst (llm_invoke (generation_prompt query context) (world st)))
  /\ st' = after (Generated (generation_prompt query context))
                 (snd (llm_invoke (generation_prompt query context) (world st))) st.
Proof.
  destruct (chunks_have_text_dec context) as [Ht|Ht].
  - rewrite (generate_run _ _ _ Ht). intros H. injection H as <- <-. auto.
  - rewrite (generate_raises _ _ _ Ht). discriminate.
Qed.

Lemma generate_raised query context st e st' :
  generate query context st = (inl e, st') -> st' = st.
Proof.
  destruct (chunks_have_text_dec context) as [Ht|Ht].
  - rewrite (generate_run _ _ _ Ht). discriminate.
  - rewrite (generate_raises _ _ _ Ht). intros H. now injection H as _ <-.
Qed.

(** *** The fallback, case by case *)

Lemma fallback_cases self query context current_top_k tenant_id st :
  fallback self query context current_top_k tenant_id st =
  match generate query context st with
  | (inl e, st1) => (inl e, st1)
  | (inr answer, st1) =>
      if retry_due answer query current_top_k then
        match embed embed_text query st1 with
        | (inl _, st2) => (inr answer, st2)
        | (inr v, st2) =>
            match search query_vectors v tenant_id 50 st2 with
            | (inl _, st3) => (inr answer, st3)
            | (inr [], st3) => (inr answer, st3)
            | (inr (m :: ms), st3) =>
                match optimize extract_entities self (m :: ms) query 50 st3 with
                | (inl _, st4) => (inr answer, st4)
                | (inr optimized_context, st4) =>
                    match generate query optimized_context st4 with
                    | (inl _, st5) => (inr answer, st5)
                    | (inr fallback_answer, st5) =>
                        (inr (if retry_accepted answer fallback_answer
                              then fallback_answer else answer), st5)
                    end
                end
            end
        end
      else (inr answer, st1)
  end.
Proof.
  unfold _generate_enterprise_answer_with_fallback, retry_due, retry_accepted.
  unfold bind at 1.
  destruct (generate query context st) as [[e|answer] st1]; [reflexivity|].
  destruct (has_missing_data answer && Breadth._is_analytical_query query
            && (current_top_k <? 40)%Z); [|reflexivity].
  unfold bind at 1. unfold attempt. unfold bind at 1.
  destruct (embed embed_text query st1) as [[e|v] st2]; [reflexivity|].
  unfold bind at 1.
  destruct (search query_vectors v tenant_id 50 st2) as [[e|[|m ms]] st3];
    try reflexivity.
  unfold bind at 1.
  destruct (optimize extract_entities self (m :: ms) query 50 st3)
    as [[e|optimized_context] st4]; [reflexivity|].
  unfold bind at 1.
  destruct (generate query optimized_context st4) as [[e|fallback_answer] st5];
    [reflexivity|].
  destruct (negb (has_missing_data fallback_answer)
            || (String.length answer <? String.length fallback_answer)%nat);
    reflexivity.
Qed.

(** The calls of one run of the fallback: at most one vector search, which
    asks for 50 matches, at most one optimization and at most two
    generations. *)
Lemma fallback_calls self query context current_top_k tenant_id st r st' :
  fallback self query context current_top_k tenant_id st = (r, st') ->
  exists evs,
    trace st' = (trace st ++ evs)%list
    /\ (searches evs = [] \/ searches evs = [Searched tenant_id 50])
    /\ (List.length (optimizations evs) <= 1)%nat
    /\ (List.length (generations evs) <= 2)%nat.
Proof.
  rewrite fallback_cases.
  destruct (generate query context st) as [[e|answer] st1] eqn:G1.
  { apply generate_raised in G1 as ->. intros H. injection H as <- <-.
    exists []. rewrite app_nil_r. cbn. repeat split; auto. }
  apply generate_returned in G1 as (_ & ->).
  destruct (retry_due answer query current_top_k).
  2:{ intros H. injection H as <- <-. eexists [_]. cbn. repeat split; auto. }
  rewrite embed_run. destruct (fst (embed_text _ _)) as [e|v].
  { intros H. injection H as <- <-. eexists [_; _]. cbn [trace after].
    rewrite <- !app_assoc. cbn. repeat split; auto. }
  rewrite search_run. destruct (fst (query_vectors _ _ _ _)) as [e|[|m ms]].
  1,2: intros H; injection H as <- <-; eexists [_; _; _]; cbn [trace after];
       rewrite <- !app_assoc; cbn; repeat split; auto.
  rewrite optimize_run.
  destruct (_optimize_context_selection _ _ _ _ _) as [e|optimized_context].
  { intros H. injection H as <- <-. eexists [_; _; _; _]. cbn [trace after].
    rewrite <- !app_assoc. cbn. repeat split; auto. }
  match goal with
  | |- context [generate query optimized_context ?s] =>
      destruct (generate query optimized_context s) as [[e|fallback_answer] st5] eqn:G2
  end.
  - apply generate_raised in G2 as ->.
    intros H. injection H as <- <-. eexists [_; _; _; _]. cbn [trace after].
    rewrite <- !app_assoc. cbn. repeat split; auto.
  - apply generate_returned in G2 as (_ & ->).
    intros H. injection H as <- <-. eexists [_; _; _; _; _]. cbn [trace after].
    rewrite <- !app_assoc. cbn. repeat split; auto.
Qed.

(** C7 (amended).  Let the first generation return [answer].  When [answer]
    holds no missing-data phrase, or the query is not analytical, or the
    breadth used is 40 or more, the answer is returned and nothing else is
    called.  Otherwise the query is embedded again and one vector search
    with breadth 50 is made; when that search returns no match, the original
    answer is returned without re-optimization or regeneration; when it
    returns matches, the context is re-optimized with [top_k = 50] and the
    answer regenerated once, and the regenerated answer replaces the original
    exactly when it holds no missing-data phrase or is strictly longer than
    the original.  When the re-embedding, the retry search or the
    re-optimization raises, the original answer is returned; when the model
    raises during the regeneration, the regenerated answer is the apology of
    the generator, which holds no missing-data phrase and so replaces the
    original.  No run makes more than one retry search, one re-optimization
    and one regeneration. *)
Theorem missing_data_retry self query context current_top_k tenant_id st answer st1 :
  generate query context st = (inr answer, st1) ->
  (retry_due answer query current_top_k = false ->
   fallback self query context current_top_k tenant_id st = (inr answer, st1))
  /\ (retry_due answer query current_top_k = true ->
      forall v st2 matches st3,
        embed embed_text query st1 = (inr v, st2) ->
        search query_vectors v tenant_id 50 st2 = (inr matches, st3) ->
        trace st3 = (trace st1 ++ [Embedded query; Searched tenant_id 50])%list
        /\ (matches = [] ->
            fallback self query context current_top_k tenant_id st = (inr answer, st3))
        /\ (matches <> [] ->
            forall optimized_context st4 fallback_answer st5,
              optimize extract_entities self matches query 50 st3
              = (inr optimized_context, st4) ->
              generate query optimized_context st4 = (inr fallback_answer, st5) ->
              fallback self query context current_top_k tenant_id st
              = (inr (if retry_accepted answer fallback_answer
                      then fallback_answer else answer), st5)
              /\ (retry_accepted answer fallback_answer = true <->
                  has_missing_data fallback_answer = false
                  \/ (String.length answer < String.length fallback_answer)%nat)
              /\ trace st5 =
                 (trace st1 ++ [Embedded query; Searched tenant_id 50; Optimized 50;
                                Generated (generation_prompt query optimized_context)])%list))
  /\ (forall r st',
        fallback self query context current_top_k tenant_id st = (r, st') ->
        exists evs,
          trace st' = (trace st ++ evs)%list
          /\ (searches evs = [] \/ searches evs = [Searched tenant_id 50])
          /\ (List.length (optimizations evs) <= 1)%nat
          /\ (List.length (generations evs) <= 2)%nat)
  /\ (retry_due answer query current_top_k = true ->
      (forall e st2,
         embed embed_text query st1 = (inl e, st2) ->
         fallback self query context current_top_k tenant_id st = (inr answer, st2))
      /\ (forall v st2 e st3,
            embed embed_text query st1 = (inr v, st2) ->
            search query_vectors v tenant_id 50 st2 = (inl e, st3) ->
            fallback self query context current_top_k tenant_id st = (inr answer, st3))
      /\ (forall v st2 matches st3 e st4,
            embed embed_text query st1 = (inr v, st2) ->
            search query_vectors v tenant_id 50 st2 = (inr matches, st3) ->
            matches <> [] ->
            optimize extract_entities self matches query 50 st3 = (inl e, st4) ->
            fallback self query context current_top_k tenant_id st = (inr answer, st4))
      /\ (forall v st2 matches st3 optimized_context st4 e,
            embed embed_text query st1 = (inr v, st2) ->
            search query_vectors v tenant_id 50 st2 = (inr matches, st3) ->
            matches <> [] ->
            optimize extract_entities self matches query 50 st3
            = (inr optimized_context, st4) ->
            fst (llm_invoke (generation_prompt query optimized_context) (world st4))
            = inl e ->
            let apology := generated_answer optimized_context (inl e) in
            (apology = enterprise_apology \/ apology = general_apology)
            /\ has_missing_data apology = false
            /\ exists st5,
                 fallback self query context current_top_k tenant_id st
                 = (inr apology, st5))).
Proof.
  intros G1. split; [|split; [|split]].
  4:{ intros Hdue. repeat apply conj.
      - intros e st2 Hembed. rewrite fallback_cases, G1, Hdue, Hembed. reflexivity.
      - intros v st2 e st3 Hembed Hsearch.
        rewrite fallback_cases, G1, Hdue, Hembed, Hsearch. reflexivity.
      - intros v st2 matches st3 e st4 Hembed Hsearch Hne Hopt.
        destruct matches as [|m ms]; [congruence|].
        rewrite fallback_cases, G1, Hdue, Hembed, Hsearch, Hopt. reflexivity.
      - intros v st2 matches st3 optimized_context st4 e Hembed Hsearch Hne Hopt Hfail.
        destruct matches as [|m ms]; [congruence|]. cbv zeta.
        assert (Hapology : generated_answer optimized_context (inl e) = enterprise_apology
                           \/ generated_answer optimized_context (inl e) = general_apology)
          by (unfold generated_answer; destruct (chunks optimized_context); auto).
        assert (Hclean : has_missing_data (generated_answer optimized_context (inl e))
                         = false)
          by (destruct Hapology as [-> | ->]; vm_compute; reflexivity).
        split; [exact Hapology|]. split; [exact Hclean|].
        rewrite fallback_cases, G1, Hdue, Hembed, Hsearch, Hopt.
        pose proof Hopt as Hopt'. rewrite optimize_run in Hopt'.
        injection Hopt' as Hopt' _. apply optimized_chunks_have_text in Hopt'.
        rewrite (generate_run _ _ _ Hopt'), Hfail.
        unfold retry_accepted. rewrite Hclean. cbn [negb orb].
        eexists. reflexivity. }
  - intros Hno. rewrite fallback_cases, G1, Hno. reflexivity.
  - intros Hdue v st2 matches st3 Hembed Hsearch.
    assert (Htrace3 : trace st3
                      = (trace st1 ++ [Embedded query; Searched tenant_id 50])%list).
    { rewrite embed_run in Hembed. injection Hembed as _ <-.
      rewrite search_run in Hsearch. injection Hsearch as _ <-.
      cbn [trace after]. now rewrite <- app_assoc. }
    split; [exact Htrace3|]. split.
    + intros ->. rewrite fallback_cases, G1, Hdue, Hembed, Hsearch. reflexivity.
    + intros Hne optimized_context st4 fallback_answer st5 Hopt G2.
      destruct matches as [|m ms]; [congruence|].
      split; [|split].
      * rewrite fallback_cases, G1, Hdue, Hembed, Hsearch, Hopt, G2. reflexivity.
      * unfold retry_accepted. rewrite orb_true_iff, negb_true_iff, Nat.ltb_lt.
        reflexivity.
      * rewrite optimize_run in Hopt. injection Hopt as _ <-.
        apply generate_returned in G2 as (_ & ->).
        cbn [trace after]. rewrite Htrace3, <- !app_assoc. reflexivity.
  - intros r st'. apply fallback_calls.
Qed.

(** *** A query, case by case *)

Lemma query_documents_cases self query tenant_id user_id top_k st :
  run_query self query tenant_id user_id top_k st =
  match Dict.lookup (cache_key_of query tenant_id) (query_cache st) with
  | Some cached_result => (inr cached_result, st)
  | None =>
      match embed embed_text (_preprocess_query query) st with
      | (inl e, st1) => (inl e, st1)
      | (inr v, st1) =>
          match search query_vectors v tenant_id
                       (Breadth._get_dynamic_top_k query top_k) st1 with
          | (inl e, st2) => (inl e, st2)
          | (inr matches, st2) =>
              if low_quality self matches then
                let p := GeneralPrompt (is_visualization_request query) query in
                let out := llm_invoke p (world st2) in
                let rc := generate_rich_content_for_general_query query (snd out) in
                (inr (general_result (fst out) (fst rc)),
                 {| query_cache := query_cache st2; world := snd rc;
                    trace := (trace st2 ++ [Generated p])%list |})
              else
                match optimize extract_entities self matches query top_k st2 with
                | (inl e, st3) => (inl e, st3)
                | (inr optimized_context, st3) =>
                    match fallback self query optimized_context
                                   (Breadth._get_dynamic_top_k query top_k)
                                   tenant_id st3 with
                    | (inl e, st4) => (inl e, st4)
                    | (inr answer, st4) =>
                        let rc := generate_rich_content
                                    answer (chunks optimized_context) query (world st4) in
                        let result :=
                          document_result matches optimized_context answer (fst rc) in
                        (inr result,
                         {| query_cache :=
                              Cache._cache_result (cache_max_size self)
                                (cache_key_of query tenant_id) result (query_cache st4);
                            world := snd rc; trace := trace st4 |})
                    end
                end
          end
      end
  end.
Proof.
  unfold query_documents, cache_key_of.
  destruct (Dict.lookup _ (query_cache st)); [reflexivity|].
  unfold bind at 1.
  destruct (embed embed_text (_preprocess_query query) st) as [[e|v] st1];
    [reflexivity|].
  unfold bind at 1.
  destruct (search query_vectors v tenant_id _ st1) as [[e|matches] st2];
    [reflexivity|].
  destruct (low_quality self matches).
  - unfold bind at 1. rewrite general_run.
    unfold bind, call, ret, general_result, after. cbn [world query_cache trace].
    destruct (llm_invoke _ (world st2)) as [r w]. cbn [fst snd].
    destruct (generate_rich_content_for_general_query query w) as [rc w'].
    reflexivity.
  - unfold bind at 1.
    destruct (optimize extract_entities self matches query top_k st2)
      as [[e|optimized_context] st3]; [reflexivity|].
    unfold bind at 1.
    destruct (fallback self query optimized_context _ tenant_id st3)
      as [[e|answer] st4]; [reflexivity|].
    unfold bind, call, ret, cache_store, document_result.
    cbn [world query_cache trace].
    destruct (generate_rich_content answer (chunks optimized_context) query
                (world st4)) as [rc w']. reflexivity.
Qed.

Lemma low_quality_iff self matches :
  low_quality self matches = true <->
  matches = [] \/ (max_score matches < similarity_threshold self)%Q.
Proof.
  unfold low_quality. destruct matches as [|m ms].
  - split; auto.
  - split.
    + intros H. right. now apply OptimizerFacts.Qlt_bool_true.
    + intros [H|H]; [discriminate|].
      unfold Qlt_bool. apply negb_true_iff.
      destruct (Qle_bool _ _) eqn:E; [|reflexivity].
      apply Qle_bool_iff in E. exfalso. eapply Qlt_not_le; eassumption.
Qed.

(** *** The quality gate *)

(** C6 (amended).  When the vector search of a query that missed the cache
    returns no match, or only matches whose best raw score is strictly below
    [similarity_threshold], the general-knowledge path is taken: one model
    call with the general prompt and no context optimization, nothing is
    cached, and the result has no sources.  When the model call returns, the
    result has [response_type = "general_knowledge"] and confidence 0.8; when
    the model call raises, the result has [response_type = "error"],
    confidence 0 and the apology as answer. *)
Theorem quality_gate self query tenant_id user_id top_k st v st1 matches st2 :
  Dict.lookup (cache_key_of query tenant_id) (query_cache st) = None ->
  embed embed_text (_preprocess_query query) st = (inr v, st1) ->
  search query_vectors v tenant_id (Breadth._get_dynamic_top_k query top_k) st1
  = (inr matches, st2) ->
  matches = [] \/ (max_score matches < similarity_threshold self)%Q ->
  let p := GeneralPrompt (is_visualization_request query) query in
  exists r st',
    run_query self query tenant_id user_id top_k st = (inr r, st')
    /\ result_sources r = []
    /\ trace st' = (trace st2 ++ [Generated p])%list
    /\ optimizations (trace st') = optimizations (trace st)
    /\ query_cache st' = query_cache st
    /\ (forall content, fst (llm_invoke p (world st2)) = inr content ->
        response_type r = "general_knowledge"
        /\ result_confidence r = 8 # 10
        /\ answer r = Str.strip content)
    /\ (forall e, fst (llm_invoke p (world st2)) = inl e ->
        response_type r = "error"
        /\ result_confidence r = 0
        /\ answer r = general_apology).
Proof.
  intros Hmiss Hembed Hsearch Hlow p.
  apply low_quality_iff in Hlow.
  rewrite query_documents_cases, Hmiss, Hembed, Hsearch, Hlow.
  cbv zeta. fold p.
  rewrite embed_run in Hembed. injection Hembed as _ <-.
  rewrite search_run in Hsearch. injection Hsearch as _ <-.
  eexists. eexists. split; [reflexivity|].
  cbn [trace query_cache after].
  repeat apply conj.
  - unfold general_result, general_response. cbn.
    destruct (fst (llm_invoke p _)); reflexivity.
  - reflexivity.
  - unfold optimizations. rewrite !filter_app. cbn. now rewrite !app_nil_r.
  - reflexivity.
  - intros content ->. cbn. auto.
  - intros e ->. cbn. auto.
Qed.

(** *** Generation failures *)

Lemma apologies_have_no_missing_data :
  has_missing_data enterprise_apology = false
  /\ has_missing_data general_apology = false.
Proof. split; vm_compute; reflexivity. Qed.

(** C4 (amended).  A model call that raises is not propagated.  The
    general-knowledge generator then returns a result with
    [response_type = "error"], confidence 0, no sources and the apology as
    answer; the enterprise generator returns its apology string.  A query
    that missed the cache and whose embedding and search returned then
    completes: on the general-knowledge path with that error result, on the
    document path (the optimizer having returned a context) with a
    [document_based] result whose answer is an apology string and which is
    stored in the cache.  A failure of the embedding of the query or of the
    first vector search does propagate: the query raises that exception, and
    the cache is left as it was. *)
Theorem generation_failure_is_absorbed self query tenant_id user_id top_k
    st v st1 matches st2 :
  let general_prompt := GeneralPrompt (is_visualization_request query) query in
  (forall st0 e,
      fst (llm_invoke general_prompt (world st0)) = inl e ->
      exists r st',
        general query tenant_id user_id st0 = (inr r, st')
        /\ response_type r = "error" /\ answer r = general_apology
        /\ result_confidence r = 0 /\ result_sources r = [])
  /\ (forall context st0 e,
        chunks_have_text context -> chunks context <> [] ->
        fst (llm_invoke (generation_prompt query context) (world st0)) = inl e ->
        exists st', generate query context st0 = (inr enterprise_apology, st'))
  /\ (Dict.lookup (cache_key_of query tenant_id) (query_cache st) = None ->
      embed embed_text (_preprocess_query query) st = (inr v, st1) ->
      search query_vectors v tenant_id (Breadth._get_dynamic_top_k query top_k) st1
      = (inr matches, st2) ->
      (low_quality self matches = true ->
       forall e,
         fst (llm_invoke general_prompt (world st2)) = inl e ->
         exists r st',
           run_query self query tenant_id user_id top_k st = (inr r, st')
           /\ response_type r = "error" /\ answer r = general_apology
           /\ result_confidence r = 0 /\ result_sources r = [])
      /\ (low_quality self matches = false ->
          forall optimized_context st3 e,
            optimize extract_entities self matches query top_k st2
            = (inr optimized_context, st3) ->
            fst (llm_invoke (generation_prompt query optimized_context) (world st3))
            = inl e ->
            exists r st',
              run_query self query tenant_id user_id top_k st = (inr r, st')
              /\ response_type r = "document_based"
              /\ (answer r = enterprise_apology \/ answer r = general_apology)
              /\ Dict.lookup (cache_key_of query tenant_id) (query_cache st')
                 = Some r))
  /\ (Dict.lookup (cache_key_of query tenant_id) (query_cache st) = None ->
      (forall e,
         fst (embed_text (_preprocess_query query) (world st)) = inl e ->
         exists st',
           run_query self query tenant_id user_id top_k st = (inl e, st')
           /\ query_cache st' = query_cache st)
      /\ (embed embed_text (_preprocess_query query) st = (inr v, st1) ->
          forall e,
            fst (query_vectors v tenant_id (Breadth._get_dynamic_top_k query top_k)
                   (world st1)) = inl e ->
            exists st',
              run_query self query tenant_id user_id top_k st = (inl e, st')
              /\ query_cache st' = query_cache st)).
Proof.
  intros general_prompt. split; [|split; [|split]].
  4:{ intros Hmiss. split.
      - intros e Hfail. rewrite query_documents_cases, Hmiss, embed_run, Hfail.
        eexists. split; reflexivity.
      - intros Hembed e Hfail.
        rewrite query_documents_cases, Hmiss, Hembed, search_run, Hfail.
        rewrite embed_run in Hembed. injection Hembed as _ <-.
        eexists. split; reflexivity. }
  - intros st0 e Hfail. rewrite general_run. fold general_prompt. rewrite Hfail.
    eexists. eexists. split; [reflexivity|]. cbn. auto.
  - intros context st0 e Htext Hne Hfail.
    rewrite (generate_run _ _ _ Htext), Hfail.
    unfold generated_answer. destruct (chunks context); [congruence|].
    eexists. reflexivity.
  - intros Hmiss Hembed Hsearch. split.
    + intros Hlow e Hfail.
      rewrite query_documents_cases, Hmiss, Hembed, Hsearch, Hlow. cbv zeta.
      fold general_prompt. rewrite Hfail.
      eexists. eexists. split; [reflexivity|]. cbn. auto.
    + intros Hlow optimized_context st3 e Hopt Hfail.
      rewrite query_documents_cases, Hmiss, Hembed, Hsearch, Hlow, Hopt.
      rewrite optimize_run in Hopt. injection Hopt as Hopt _.
      apply optimized_chunks_have_text in Hopt.
      rewrite fallback_cases, (generate_run _ _ _ Hopt), Hfail.
      assert (Hno : retry_due (generated_answer optimized_context (inl e)) query
                              (Breadth._get_dynamic_top_k query top_k) = false).
      { unfold retry_due, generated_answer.
        destruct (chunks optimized_context);
          [rewrite (proj2 apologies_have_no_missing_data)
          |rewrite (proj1 apologies_have_no_missing_data)]; reflexivity. }
      rewrite Hno. cbv zeta.
      eexists. eexists. split; [reflexivity|]. cbn [query_cache].
      split; [reflexivity|]. split.
      * unfold document_result, generated_answer. cbn [answer].
        destruct (chunks optimized_context); auto.
      * apply CacheFacts.lookup_cache_result.
Qed.

(** *** Caching *)

(** C5 (amended).  A query that missed the cache and completed on the
    document path has its result stored under the tenant-scoped key, so
    that the same query of the same tenant, issued again while the key is
    still in the cache, returns that very payload without any further call;
    a result of the general-knowledge path is not stored. *)
Theorem document_result_is_cached self query tenant_id user_id top_k st r st' :
  Dict.lookup (cache_key_of query tenant_id) (query_cache st) = None ->
  run_query self query tenant_id user_id top_k st = (inr r, st') ->
  (response_type r = "document_based" ->
   Dict.lookup (cache_key_of query tenant_id) (query_cache st') = Some r
   /\ forall user_id2 top_k2 st2,
        Dict.lookup (cache_key_of query tenant_id) (query_cache st2) = Some r ->
        run_query self query tenant_id user_id2 top_k2 st2 = (inr r, st2))
  /\ (response_type r <> "document_based" -> query_cache st' = query_cache st).
Proof.
  intros Hmiss Hrun. split.
  - intros Hdoc. split.
    + revert Hrun. rewrite query_documents_cases, Hmiss.
      destruct (embed _ _ st) as [[e|v] st1]; [discriminate|].
      destruct (search _ _ _ _ st1) as [[e|matches] st2]; [discriminate|].
      destruct (low_quality self matches).
      * cbv zeta. intros H. injection H as <- _. exfalso. revert Hdoc.
        unfold general_result, general_response. cbn.
        destruct (fst (llm_invoke _ _)); discriminate.
      * destruct (optimize _ _ _ _ _ st2) as [[e|optimized_context] st3];
          [discriminate|].
        destruct (fallback _ _ _ _ _ st3) as [[e|answer] st4]; [discriminate|].
        cbv zeta. intros H. injection H as <- <-. cbn [query_cache].
        apply CacheFacts.lookup_cache_result.
    + intros user_id2 top_k2 st2 Hhit.
      rewrite query_documents_cases, Hhit. reflexivity.
  - intros Hother. revert Hrun. rewrite query_documents_cases, Hmiss.
    rewrite embed_run. destruct (fst (embed_text _ _)) as [e|v]; [discriminate|].
    rewrite search_run.
    destruct (fst (query_vectors _ _ _ _)) as [e|matches]; [discriminate|].
    destruct (low_quality self matches).
    + cbv zeta. intros H. injection H as _ <-. reflexivity.
    + destruct (optimize _ _ _ _ _ _) as [[e|optimized_context] st3];
        [discriminate|].
      destruct (fallback _ _ _ _ _ st3) as [[e|answer] st4]; [discriminate|].
      cbv zeta. intros H. injection H as <- _. exfalso. apply Hother. reflexivity.
Qed.

End Runs.

(** *** The scripted world *)

Import Samples.

Lemma quality_gate_witness :
  exists r st',
    sample_run faint_matches [] (sample_llm ["Hello!"]) "hello, how are you" 8 fresh
    = (inr r, st')
    /\ result_sources r = []
    /\ response_type r = "general_knowledge"
    /\ result_confidence r = 8 # 10
    /\ optimizations (trace st') = [].
Proof.
  edestruct (quality_gate sample_embed (sample_search faint_matches [])
               (sample_llm ["Hello!"]) no_entities
               sample_rich_content sample_rich_content_general
               default_settings "hello, how are you" "acme" "u1" 8 fresh)
    as (r & st' & Hrun & Hsrc & _ & Hopt & _ & Hok & _).
  - reflexivity.
  - reflexivity.
  - reflexivity.
  - right. vm_compute. reflexivity.
  - exists r, st'. destruct (Hok "Hello!" eq_refl) as (Ht & Hc & _).
    repeat split; assumption.
Defined.

(** C6, as stated, fails when the model call raises: the search returns
    two matches below the threshold, the general-knowledge path is taken,
    and the result has [response_type = "error"] and confidence 0. *)
Lemma error_result_on_general_path :
  exists r st',
    sample_run faint_matches [] failing_llm "hello, how are you" 8 fresh = (inr r, st')
    /\ max_score faint_matches < similarity_threshold default_settings
    /\ response_type r = "error"
    /\ result_confidence r = 0
    /\ ~ (response_type r = "general_knowledge" /\ result_confidence r == 8 # 10).
Proof.
  eexists. eexists. split; [vm_compute; reflexivity|].
  split; [vm_compute; reflexivity|].
  split; [reflexivity|]. split; [reflexivity|].
  intros [H _]. discriminate.
Qed.

Lemma generation_failure_is_absorbed_witness :
  (exists r st',
     sample_run sample_matches sample_matches failing_llm sample_query 8 fresh
     = (inr r, st')
     /\ response_type r = "document_based"
     /\ (answer r = enterprise_apology \/ answer r = general_apology))
  /\ (exists st',
        Scenarios.run_with default_settings Scenarios.failing_search failing_llm
          sample_query 8 fresh
        = (inl (Py.CollaboratorError "index unavailable"), st')
        /\ query_cache st' = []).
Proof.
  split.
  - edestruct (generation_failure_is_absorbed sample_embed
                 (sample_search sample_matches sample_matches) failing_llm no_entities
                 sample_rich_content sample_rich_content_general
                 default_settings sample_query "acme" "u1" 8 fresh)
      as (_ & _ & Hquery & _).
    edestruct Hquery as (_ & Hdoc); [reflexivity|reflexivity|reflexivity|].
    edestruct Hdoc as (r & st' & Hrun & Ht & Ha & _);
      [vm_compute; reflexivity|vm_compute; reflexivity|reflexivity|].
    exists r, st'. repeat split; assumption.
  - destruct (generation_failure_is_absorbed sample_embed
                Scenarios.failing_search failing_llm no_entities
                sample_rich_content sample_rich_content_general
                default_settings sample_query "acme" "u1" 8 fresh tt
                (snd (embed sample_embed (_preprocess_query sample_query) fresh))
                [] fresh)
      as (_ & _ & _ & Hraise).
    destruct Hraise as (_ & Hsearch); [reflexivity|].
    destruct (Hsearch eq_refl (Py.CollaboratorError "index unavailable") eq_refl)
      as (st' & Hrun & Hcache).
    exists st'. split; [exact Hrun|exact Hcache].
Defined.

(** C4, as stated, fails: the model raises on the only call, and the
    pipeline returns a completed [document_based] result whose answer is the
    apology string, instead of propagating the failure. *)
Lemma generation_failure_counterexample :
  exists r st',
    sample_run sample_matches sample_matches failing_llm sample_query 8 fresh
    = (inr r, st')
    /\ answer r = enterprise_apology
    /\ response_type r = "document_based"
    /\ llm_calls (world st') = 1%nat.
Proof.
  eexists. eexists. split; [vm_compute; reflexivity|].
  repeat split.
Qed.

Lemma document_result_is_cached_witness :
  exists r st',
    sample_run sample_matches sample_matches (sample_llm ["BlueDart is on time."])
      sample_query 8 fresh = (inr r, st')
    /\ Dict.lookup (cache_key_of sample_query "acme") (query_cache st') = Some r
    /\ sample_run sample_matches sample_matches (sample_llm ["BlueDart is on time."])
         sample_query 8 st' = (inr r, st').
Proof.
  destruct (sample_run sample_matches sample_matches (sample_llm ["BlueDart is on time."])
              sample_query 8 fresh) as [[e|r] st'] eqn:Hrun.
  - vm_compute in Hrun. discriminate.
  - exists r, st'. split; [reflexivity|].
    destruct (document_result_is_cached sample_embed
                (sample_search sample_matches sample_matches)
                (sample_llm ["BlueDart is on time."]) no_entities
                sample_rich_content sample_rich_content_general
                default_settings sample_query "acme" "u1" 8 fresh r st'
                eq_refl Hrun) as (Hdoc & _).
    destruct Hdoc as (Hstored & Hagain).
    + vm_compute in Hrun. injection Hrun as <- _. reflexivity.
    + split; [exact Hstored|]. apply Hagain. exact Hstored.
Defined.

(** C5, as stated, fails on the general-knowledge path: the result is not
    stored, the second identical query calls the model again and returns
    another payload. *)
Lemma general_result_is_not_cached :
  exists r1 st1 r2 st2,
    sample_run [] [] (sample_llm ["Paris."; "Lyon."]) "capital of france" 8 fresh
    = (inr r1, st1)
    /\ query_cache st1 = []
    /\ sample_run [] [] (sample_llm ["Paris."; "Lyon."]) "capital of france" 8 st1
       = (inr r2, st2)
    /\ response_type r1 = "general_knowledge"
    /\ answer r1 = "Paris." /\ answer r2 = "Lyon." /\ r1 <> r2.
Proof.
  eexists. eexists. eexists. eexists.
  split; [vm_compute; reflexivity|].
  split; [reflexivity|].
  split; [vm_compute; reflexivity|].
  repeat split. intros H. discriminate.
Qed.

Lemma missing_data_retry_witness :
  fst (_generate_enterprise_answer_with_fallback sample_embed
         (sample_search sample_matches sample_matches)
         (sample_llm ["No information on carriers."; "BlueDart averages 2.1 days."])
         no_entities default_settings average_query empty_context 30 "acme" fresh)
  = inr "BlueDart averages 2.1 days."
  /\ fst (_generate_enterprise_answer_with_fallback sample_embed
            Scenarios.failing_search (sample_llm ["No information on carriers."])
            no_entities default_settings average_query empty_context 30 "acme" fresh)
     = inr "No information on carriers."
  /\ fst (_generate_enterprise_answer_with_fallback sample_embed
            (sample_search sample_matches sample_matches)
            (sample_llm ["No information on carriers."])
            no_entities default_settings average_query empty_context 30 "acme" fresh)
     = inr enterprise_apology.
Proof.
  split; [|split].
  - edestruct (missing_data_retry sample_embed
                 (sample_search sample_matches sample_matches)
                 (sample_llm ["No information on carriers.";
                              "BlueDart averages 2.1 days."])
                 no_entities default_settings average_query empty_context 30 "acme"
                 fresh)
      as (_ & Hretry & _).
    + reflexivity.
    + edestruct Hretry as (_ & _ & Hmatches);
        [vm_compute; reflexivity|reflexivity|reflexivity|].
      edestruct Hmatches as (Hrun & _);
        [discriminate|vm_compute; reflexivity|vm_compute; reflexivity|].
      rewrite Hrun. vm_compute. reflexivity.
  - edestruct (missing_data_retry sample_embed Scenarios.failing_search
                 (sample_llm ["No information on carriers."])
                 no_entities default_settings average_query empty_context 30 "acme"
                 fresh)
      as (_ & _ & _ & Hfails).
    + reflexivity.
    + edestruct Hfails as (_ & Hsearch & _); [vm_compute; reflexivity|].
      erewrite Hsearch; reflexivity.
  - edestruct (missing_data_retry sample_embed
                 (sample_search sample_matches sample_matches)
                 (sample_llm ["No information on carriers."])
                 no_entities default_settings average_query empty_context 30 "acme"
                 fresh)
      as (_ & _ & _ & Hfails).
    + reflexivity.
    + edestruct Hfails as (_ & _ & _ & Hmodel); [vm_compute; reflexivity|].
      edestruct Hmodel as (_ & _ & st5 & Hrun);
        [reflexivity|reflexivity|discriminate|vm_compute; reflexivity|reflexivity|].
      rewrite Hrun. vm_compute. reflexivity.
Defined.

(** C7, as stated, fails: the first answer holds a missing-data phrase, the
    query is analytical and the breadth used is 30, yet the retry search
    (breadth 50) returns no match, so that nothing is re-optimized or
    regenerated and the original answer is returned. *)
Lemma retry_without_regeneration :
  exists r st',
    sample_run sample_matches [] (sample_llm ["The data is missing for two carriers."])
      average_query 8 fresh = (inr r, st')
    /\ retry_due (answer r) average_query
                 (Breadth._get_dynamic_top_k average_query 8) = true
    /\ answer r = "The data is missing for two carriers."
    /\ searches (trace st') = [Searched "acme" 30; Searched "acme" 50]
    /\ optimizations (trace st') = [Optimized 8]
    /\ List.length (generations (trace st')) = 1%nat.
Proof.
  eexists. eexists. split; [vm_compute; reflexivity|].
  repeat split.
Qed.

End PipelineFacts.

(* ================================================================== *)
(** ** Document deletion *)

Module DeletionFacts.

Import Py.
Import Optimizer.
Import Deletion.

(** [delete_one] takes out one record, the first that has the identifier
    and the tenant asked for, and nothing else. *)
Lemma delete_one_spec doc_id tenant documents :
  match delete_one doc_id tenant documents with
  | (true, documents') =>
      exists before target rest,
        documents = (before ++ target :: rest)%list
        /\ documents' = (before ++ rest)%list
        /\ _id target = doc_id /\ tenant_id target = tenant
  | (false, documents') => documents' = documents
  end.
Proof.
  induction documents as [|d rest IH]; simpl; [reflexivity|].
  destruct (String.eqb_spec (_id d) doc_id) as [Hid|Hid]; simpl.
  - destruct (String.eqb_spec (tenant_id d) tenant) as [Ht|Ht].
    + exists [], d, rest. auto.
    + destruct (delete_one doc_id tenant rest) as [[|] rest'].
      * destruct IH as (before & target & rest0 & -> & -> & H1 & H2).
        exists (d :: before), target, rest0. auto.
      * now rewrite IH.
  - destruct (delete_one doc_id tenant rest) as [[|] rest'].
    + destruct IH as (before & target & rest0 & -> & -> & H1 & H2).
      exists (d :: before), target, rest0. auto.
    + now rewrite IH.
Qed.

(** C10.  Whatever [delete_document] returns, the vector index is left as it
    was: every namespace holds the same vectors, and every vector search
    returns what it returned before.  When it returns [True], exactly one
    record went from the documents collection, the record of that document
    and tenant; the chunk vectors of the document stay in the namespace of
    the tenant. *)
Theorem delete_document_keeps_vectors doc_id tenant st :
  let outcome := delete_document doc_id tenant st in
  index (snd outcome) = index st
  /\ (forall namespace,
        namespace_vectors namespace (snd outcome) = namespace_vectors namespace st)
  /\ (forall rank query_vector namespace top_k,
        query_vectors rank query_vector namespace top_k (snd outcome)
        = query_vectors rank query_vector namespace top_k st)
  /\ (forall v, In v (namespace_vectors tenant st) ->
        Optimizer.doc_id (vector_metadata v) = Some doc_id ->
        In v (namespace_vectors tenant (snd outcome)))
  /\ (fst outcome = true ->
      exists before target rest,
        database st = Some (before ++ target :: rest)%list
        /\ database (snd outcome) = Some (before ++ rest)%list
        /\ _id target = doc_id /\ tenant_id target = tenant).
Proof.
  cbv zeta.
  assert (Hindex : index (snd (delete_document doc_id tenant st)) = index st).
  { unfold delete_document, get_documents_by_tenant, model_delete_document.
    destruct (database st) as [documents|]; [|reflexivity].
    destruct (find _ _); [|reflexivity].
    destruct (delete_one doc_id tenant documents) as [[|] documents'];
      reflexivity. }
  assert (Hns : forall namespace,
             namespace_vectors namespace (snd (delete_document doc_id tenant st))
             = namespace_vectors namespace st).
  { intros namespace. unfold namespace_vectors. now rewrite Hindex. }
  repeat apply conj.
  - exact Hindex.
  - exact Hns.
  - intros rank query_vector namespace top_k. unfold query_vectors. now rewrite Hns.
  - intros v Hin _. now rewrite Hns.
  - unfold delete_document, get_documents_by_tenant, model_delete_document.
    destruct (database st) as [documents|]; [|discriminate].
    destruct (find _ _); [|discriminate].
    pose proof (delete_one_spec doc_id tenant documents) as Hspec.
    destruct (delete_one doc_id tenant documents) as [[|] documents'];
      [|discriminate].
    intros _. destruct Hspec as (before & target & rest & -> & -> & H1 & H2).
    exists before, target, rest. auto.
Qed.

Lemma delete_document_keeps_vectors_witness :
  fst (delete_document "65f0a1b2c3d4e5f6a7b8c9d0" "acme" Samples.sample_stores) = true
  /\ List.length (namespace_vectors "acme"
                    (snd (delete_document "65f0a1b2c3d4e5f6a7b8c9d0" "acme" Samples.sample_stores)))
     = 3%nat
  /\ exists before target rest,
       database Samples.sample_stores = Some (before ++ target :: rest)%list
       /\ database (snd (delete_document "65f0a1b2c3d4e5f6a7b8c9d0" "acme" Samples.sample_stores))
          = Some (before ++ rest)%list
       /\ _id target = "65f0a1b2c3d4e5f6a7b8c9d0" /\ tenant_id target = "acme".
Proof.
  destruct (delete_document_keeps_vectors "65f0a1b2c3d4e5f6a7b8c9d0" "acme" Samples.sample_stores)
    as (_ & Hns & _ & _ & Hdel).
  split; [reflexivity|]. split.
  - rewrite Hns. reflexivity.
  - apply Hdel. reflexivity.
Defined.

End DeletionFacts.

(* ================================================================== *)
(** ** Strings *)

Module StrFacts.

Lemma lower_ascii_idempotent (c : ascii) :
  Str.lower_ascii (Str.lower_ascii c) = Str.lower_ascii c.
Proof.
  destruct c as [[|] [|] [|] [|] [|] [|] [|] [|]]; vm_compute; reflexivity.
Qed.

Lemma lower_idempotent (s : string) : Str.lower (Str.lower s) = Str.lower s.
Proof.
  induction s as [|c s IH]; simpl; [reflexivity|].
  now rewrite lower_ascii_idempotent, IH.
Qed.

Lemma contains_any_In (words : list string) (s w : string) :
  In w words -> Str.contains w s = true -> Str.contains_any words s = true.
Proof.
  intros Hin Hc. unfold Str.contains_any. apply existsb_exists. eauto.
Qed.

End StrFacts.

(* ================================================================== *)
(** ** Breadth selection, further properties *)

Module BreadthExtras.

Import Breadth.

Lemma incl_check (words l : list string) :
  forallb (fun w => Optimizer.mem_string w l) words = true -> incl words l.
Proof.
  intros H w Hw. rewrite forallb_forall in H. specialize (H w Hw).
  unfold Optimizer.mem_string in H. apply existsb_exists in H as (x & Hx & Heq).
  apply String.eqb_eq in Heq. now subst.
Qed.

Lemma analytical_of_keywords (words : list string) (query : string) :
  incl words analytical_keywords ->
  Str.contains_any words (Str.lower query) = true ->
  _is_analytical_query query = true.
Proof.
  intros Hincl H. unfold Str.contains_any in H.
  apply existsb_exists in H as (w & Hw & Hc).
  unfold _is_analytical_query. apply existsb_exists. exists w. auto.
Qed.

(** The breadth of an analytical query is one of the four tiers. *)
Lemma analytical_breadth_tiers (query : string) (base_top_k : Z) :
  _is_analytical_query query = true ->
  In (_get_dynamic_top_k query base_top_k) [50; 40; 30; 20]%Z.
Proof.
  intros Ha. unfold _get_dynamic_top_k. rewrite Ha.
  repeat match goal with
         | |- context [if ?b then _ else _] => destruct b
         end; simpl; auto.
Qed.

(** X1.  The words of the tiers decide the breadth by themselves, whatever
    [base_top_k]: a query that contains "total" gets 50; a query that
    contains a comparison word ("compare", "versus", "vs", "between") gets 40
    or 50; a query that contains "average", "mean", "performance" or "wise"
    gets at least 30; every analytical query gets between 20 and 50, the
    same whatever [base_top_k] is.  Each of these words is an analytical
    keyword as well, so that no further test of the query is needed. *)
Theorem tier_words_decide_breadth (query : string) (base_top_k : Z) :
  let q := Str.lower query in
  let breadth := _get_dynamic_top_k query base_top_k in
  (Str.contains "total" q = true -> breadth = 50%Z)
  /\ (Str.contains_any ["compare"; "versus"; "vs"; "between"] q = true ->
      breadth = 40%Z \/ breadth = 50%Z)
  /\ (Str.contains_any ["average"; "mean"; "performance"; "wise"] q = true ->
      (30 <= breadth <= 50)%Z)
  /\ (_is_analytical_query query = true ->
      (20 <= breadth <= 50)%Z
      /\ forall other_top_k, _get_dynamic_top_k query other_top_k = breadth).
Proof.
  cbv zeta. repeat apply conj.
  - intros Ht.
    assert (Ha : _is_analytical_query query = true).
    { apply (analytical_of_keywords ["total"]).
      - apply incl_check. vm_compute. reflexivity.
      - unfold Str.contains_any. simpl. now rewrite Ht. }
    unfold _get_dynamic_top_k. rewrite Ha.
    replace (existsb _ ["all"; "every"; "total"; "complete"]) with true;
      [reflexivity|].
    symmetry. apply existsb_exists. exists "total". split; [simpl; auto|exact Ht].
  - intros Hc.
    assert (Ha : _is_analytical_query query = true).
    { eapply analytical_of_keywords; [|exact Hc].
      apply incl_check. vm_compute. reflexivity. }
    unfold _get_dynamic_top_k. rewrite Ha.
    unfold Str.contains_any in Hc. rewrite Hc.
    match goal with
    | |- context [if ?b then 50%Z else _] => destruct b
    end; auto.
  - intros Hc.
    assert (Ha : _is_analytical_query query = true).
    { eapply analytical_of_keywords; [|exact Hc].
      apply incl_check. vm_compute. reflexivity. }
    unfold _get_dynamic_top_k. rewrite Ha.
    unfold Str.contains_any in Hc. rewrite Hc.
    repeat match goal with
           | |- context [if ?b then _ else _] => destruct b
           end; lia.
  - intros Ha. split.
    + pose proof (analytical_breadth_tiers query base_top_k Ha) as Hin.
      simpl in Hin. lia.
    + intros other_top_k. unfold _get_dynamic_top_k. now rewrite Ha.
Qed.

Lemma tier_words_decide_breadth_witness :
  _get_dynamic_top_k "Total cost of the fleet" 3 = 50%Z
  /\ (_get_dynamic_top_k "BlueDart VS Delhivery" 3 = 40%Z
      \/ _get_dynamic_top_k "BlueDart VS Delhivery" 3 = 50%Z)
  /\ (30 <= _get_dynamic_top_k "clockwise routes" 3 <= 50)%Z
  /\ (20 <= _get_dynamic_top_k "best carrier" 3 <= 50)%Z.
Proof.
  split; [|split; [|split]].
  - apply (proj1 (tier_words_decide_breadth "Total cost of the fleet" 3)).
    vm_compute. reflexivity.
  - apply (proj1 (proj2 (tier_words_decide_breadth "BlueDart VS Delhivery" 3))).
    vm_compute. reflexivity.
  - apply (proj1 (proj2 (proj2 (tier_words_decide_breadth "clockwise routes" 3)))).
    vm_compute. reflexivity.
  - destruct (proj2 (proj2 (proj2 (tier_words_decide_breadth "best carrier" 3))))
      as (Hrange & _); [vm_compute; reflexivity|exact Hrange].
Defined.

End BreadthExtras.

(* ================================================================== *)
(** ** The query cache, further properties *)

Module CacheExtras.

Import Dict.
Import Cache.

Section Facts.

Context {V : Type}.

Implicit Types (d : dict V) (k : string) (v : V).

Lemma lookup_set_other k k' v d :
  k' <> k -> lookup k' (set k v d) = lookup k' d.
Proof.
  intros Hne. induction d as [|[k0 v0] d IH]; simpl.
  - destruct (String.eqb_spec k k'); [congruence|reflexivity].
  - destruct (String.eqb_spec k0 k) as [->|Hk0]; simpl.
    + destruct (String.eqb_spec k k'); [congruence|reflexivity].
    + destruct (String.eqb_spec k0 k'); [reflexivity|exact IH].
Qed.

Lemma length_set k v d :
  (List.length (set k v d) <= S (List.length d))%nat.
Proof.
  induction d as [|[k0 v0] d IH]; simpl; [lia|].
  destruct (String.eqb k0 k); simpl; lia.
Qed.

Lemma lookup_cache_result_other (N : Z) k v d k' :
  k' <> k ->
  lookup k' (_cache_result N k v d)
  = lookup k' (if (N <=? Z.of_nat (List.length d))%Z then skipn 50 d else d).
Proof.
  intros Hne. unfold _cache_result. rewrite lookup_set_other by assumption.
  destruct (N <=? Z.of_nat (List.length d))%Z; [|reflexivity].
  now rewrite CacheFacts.del_oldest.
Qed.

(** X2.  What a lookup finds right after [_cache_result]: under the key
    just stored the value just stored; under any other key what the cache
    held before, the 50 oldest entries left aside when the cache was full. *)
Theorem lookup_after_cache_result (N : Z) k v d k' :
  lookup k' (_cache_result N k v d) =
  if String.eqb k' k then Some v
  else lookup k' (if (N <=? Z.of_nat (List.length d))%Z then skipn 50 d else d).
Proof.
  destruct (String.eqb_spec k' k) as [->|Hne].
  - apply CacheFacts.lookup_cache_result.
  - now apply lookup_cache_result_other.
Qed.

Lemma _cache_result_length (N : Z) k v d :
  (1 <= N)%Z ->
  (Z.of_nat (List.length d) <= N)%Z ->
  (Z.of_nat (List.length (_cache_result N k v d)) <= N)%Z.
Proof.
  intros HN Hlen. unfold _cache_result.
  destruct (Z.leb_spec N (Z.of_nat (List.length d))) as [Hfull|Hroom].
  - rewrite CacheFacts.del_oldest.
    pose proof (length_set k v (skipn 50 d)) as Hs.
    rewrite length_skipn in Hs. lia.
  - pose proof (length_set k v d). lia.
Qed.

Lemma lookup_In k d v : lookup k d = Some v -> In k (keys d).
Proof.
  induction d as [|[k0 v0] d IH]; simpl; [discriminate|].
  destruct (String.eqb_spec k0 k); [now left|right; auto].
Qed.

Lemma keys_set_In k v d x :
  In x (keys (set k v d)) <-> x = k \/ In x (keys d).
Proof.
  induction d as [|[k0 v0] d IH]; simpl.
  - split; [intros [<-|[]]; now left|intros [->|[]]; now left].
  - destruct (String.eqb_spec k0 k) as [->|Hne]; simpl.
    + split; [intros [<-|H]; auto|intros [->|[<-|H]]; auto].
    + rewrite IH. split; [intros [<-|[->|H]]; auto|intros [->|[<-|H]]; auto].
Qed.

Lemma set_NoDup k v d : NoDup (keys d) -> NoDup (keys (set k v d)).
Proof.
  induction d as [|[k0 v0] d IH]; simpl; intros Hd.
  - repeat constructor. intros [].
  - inversion Hd as [|? ? Hnotin Hd']; subst.
    destruct (String.eqb_spec k0 k) as [->|Hne]; simpl; [exact Hd|].
    constructor; [|now apply IH].
    rewrite keys_set_In. intros [E|H]; [congruence|contradiction].
Qed.

Lemma skipn_NoDup {A} n (l : list A) : NoDup l -> NoDup (skipn n l).
Proof.
  intros H. rewrite <- (firstn_skipn n l) in H. now apply NoDup_app_remove_l in H.
Qed.

Lemma _cache_result_NoDup (N : Z) k v d :
  NoDup (keys d) -> NoDup (keys (_cache_result N k v d)).
Proof.
  intros Hd. unfold _cache_result. apply set_NoDup.
  destruct (N <=? Z.of_nat (List.length d))%Z; [|exact Hd].
  rewrite CacheFacts.del_oldest. unfold keys. rewrite <- skipn_map.
  now apply skipn_NoDup.
Qed.

Lemma lookup_skipn_NoDup n d k v :
  NoDup (keys d) -> lookup k (skipn n d) = Some v -> lookup k d = Some v.
Proof.
  revert d. induction n as [|n IH]; intros d Hd; [now rewrite skipn_O|].
  destruct d as [|[k0 v0] d]; [auto|]. cbn [skipn]. intros H.
  inversion Hd as [|? ? Hnotin Hd']; subst. cbn [lookup].
  destruct (String.eqb_spec k0 k) as [->|Hne]; [|now apply IH].
  exfalso. apply Hnotin. apply lookup_In in H.
  unfold keys in *. rewrite <- skipn_map in H.
  rewrite <- (firstn_skipn n (map fst d)). apply in_or_app. now right.
Qed.

End Facts.

End CacheExtras.

(* ================================================================== *)
(** ** The cache key *)

Module KeyFacts.

Import Pipeline.

Local Abbreviation chars := list_ascii_of_string.

Lemma chars_app (a b : string) : chars (a ++ b) = (chars a ++ chars b)%list.
Proof. induction a as [|c a IH]; simpl; [reflexivity|]. now rewrite IH. Qed.

Lemma lstrip_chars c s : In c (chars (Str.lstrip s)) -> In c (chars s).
Proof.
  induction s as [|x s IH]; simpl; [auto|].
  destruct (Str.is_space x); simpl; auto.
Qed.

Lemma rstrip_chars c s : In c (chars (Str.rstrip s)) -> In c (chars s).
Proof.
  induction s as [|x s IH]; simpl; [auto|].
  destruct (Str.rstrip s) as [|y r] eqn:E.
  - destruct (Str.is_space x); simpl; [intros []|]. intros [<-|[]]. now left.
  - simpl. intros [<-|H]; [now left|right]. apply IH. exact H.
Qed.

Lemma strip_chars c s : In c (chars (Str.strip s)) -> In c (chars s).
Proof. unfold Str.strip. intros H. now apply lstrip_chars, rstrip_chars. Qed.

Lemma sub_nonword_chars c s inrun :
  In c (chars (Str.sub_nonword_from inrun s)) ->
  Str.is_word_char c = true \/ c = " "%char.
Proof.
  revert inrun. induction s as [|x s IH]; intros inrun; simpl; [intros []|].
  destruct (Str.is_word_char x) eqn:Hx.
  - simpl. intros [<-|H]; [now left|eauto].
  - destruct inrun; simpl; [eauto|].
    intros [<-|H]; [now right|eauto].
Qed.

(** The normalized query of a key holds word characters and blanks only. *)
Lemma normalized_chars c query :
  In c (chars (Str.strip (Str.sub_nonword (Str.lower query)))) ->
  Str.is_word_char c = true \/ c = " "%char.
Proof.
  intros H. apply strip_chars in H. unfold Str.sub_nonword in H.
  eapply sub_nonword_chars. exact H.
Qed.

Lemma colon_split (t1 t2 n1 n2 : string) :
  ~ In ":"%char (chars n1) -> ~ In ":"%char (chars n2) ->
  t1 ++ ":" ++ n1 = t2 ++ ":" ++ n2 -> t1 = t2 /\ n1 = n2.
Proof.
  intros H1 H2. revert t2.
  induction t1 as [|c t1 IH]; intros [|c' t2]; simpl; intros Heq.
  - injection Heq as ->. auto.
  - injection Heq as <- ->. exfalso. apply H1.
    rewrite chars_app. apply in_or_app. right. simpl. now left.
  - injection Heq as -> <-. exfalso. apply H2.
    rewrite chars_app. apply in_or_app. right. simpl. now left.
  - injection Heq as -> Heq. destruct (IH _ Heq) as [-> ->]. auto.
Qed.

Lemma key_tenant (query1 tenant1 query2 tenant2 : string) :
  _generate_semantic_cache_key query1 tenant1
  = _generate_semantic_cache_key query2 tenant2 -> tenant1 = tenant2.
Proof.
  intros Heq. unfold _generate_semantic_cache_key in Heq.
  apply colon_split in Heq as [Ht _]; [exact Ht| |];
    intros Hin; apply normalized_chars in Hin as [Hw|Hc];
    (vm_compute in Hw; discriminate) || discriminate.
Qed.

(** X3.  The cache keys of two tenants differ, whatever the queries and
    whatever the tenant identifiers, a colon in an identifier included. *)
Theorem cache_keys_are_tenant_scoped (query1 tenant1 query2 tenant2 : string) :
  tenant1 <> tenant2 ->
  cache_key_of query1 tenant1 <> cache_key_of query2 tenant2
  /\ _generate_semantic_cache_key query1 tenant1
     <> _generate_semantic_cache_key query2 tenant2.
Proof.
  intros Hne. split; intros Heq; apply Hne; eapply key_tenant; exact Heq.
Qed.

Lemma cache_keys_are_tenant_scoped_witness :
  cache_key_of "total: spend" "acme" <> cache_key_of "spend" "acme:total".
Proof.
  apply (cache_keys_are_tenant_scoped "total: spend" "acme" "spend" "acme:total").
  discriminate.
Defined.

End KeyFacts.

(* ================================================================== *)
(** ** Configuration updates, further properties *)

Module ConfigExtras.

Import Config.

(** X4.  The update route answers 403 exactly to the users who are not
    administrators, and for them it assigns no field: the configuration is
    what it was. *)
Theorem update_requires_admin (u : ConfigUpdateRequest) (user : User)
    (c : EnterpriseConfig) :
  let outcome := update_enterprise_config u user c in
  (fst outcome
   = HTTPException 403 "Admin access required to update enterprise configuration"
   <-> role user <> Some "admin")
  /\ (role user <> Some "admin" -> snd outcome = c).
Proof.
  cbv zeta. unfold update_enterprise_config.
  destruct (role user) as [r|]; [|split; [split; [discriminate|reflexivity]|reflexivity]].
  destruct (String.eqb_spec r "admin") as [->|Hne].
  - split; [|congruence]. split; [|congruence].
    destruct (negb _); [discriminate|]. destruct (email user); discriminate.
  - split; [|reflexivity]. split; [congruence|reflexivity].
Qed.

Lemma update_requires_admin_witness :
  update_enterprise_config
    {| req_chunk_size := Some 50%Z; req_chunk_overlap := None;
       req_similarity_threshold := None; req_max_context_tokens := None;
       req_temperature := None; req_max_output_tokens := None;
       req_enable_cache := None |}
    {| role := Some "user"; email := Some "ann@acme.example" |} default_config
  = (HTTPException 403 "Admin access required to update enterprise configuration",
     default_config).
Proof.
  destruct (update_requires_admin
              {| req_chunk_size := Some 50%Z; req_chunk_overlap := None;
                 req_similarity_threshold := None; req_max_context_tokens := None;
                 req_temperature := None; req_max_output_tokens := None;
                 req_enable_cache := None |}
              {| role := Some "user"; email := Some "ann@acme.example" |}
              default_config) as (Hstatus & Hsame).
  apply injective_projections; [apply Hstatus|apply Hsame]; discriminate.
Defined.

(** The fields of the configuration after the assignments of a request:
    a field of the request that is given is the value in effect, a field
    that is not given keeps its value, and no other field changes. *)
Lemma apply_update_fields (u : ConfigUpdateRequest) (c : EnterpriseConfig) :
  let c' := apply_update u c in
  let given {A} (v : option A) (old : A) := match v with Some x => x | None => old end in
  chunk_size (chunking c') = given (req_chunk_size u) (chunk_size (chunking c))
  /\ chunk_overlap (chunking c') = given (req_chunk_overlap u) (chunk_overlap (chunking c))
  /\ similarity_threshold (retrieval c')
     = given (req_similarity_threshold u) (similarity_threshold (retrieval c))
  /\ max_context_tokens (retrieval c')
     = given (req_max_context_tokens u) (max_context_tokens (retrieval c))
  /\ temperature (response c') = given (req_temperature u) (temperature (response c))
  /\ max_output_tokens (response c')
     = given (req_max_output_tokens u) (max_output_tokens (response c))
  /\ enable_cache (cache c') = given (req_enable_cache u) (enable_cache (cache c))
  /\ max_chunks_per_document (chunking c') = max_chunks_per_document (chunking c)
  /\ min_chunk_words (chunking c') = min_chunk_words (chunking c)
  /\ min_context_relevance (retrieval c') = min_context_relevance (retrieval c)
  /\ top_k_retrieval (retrieval c') = top_k_retrieval (retrieval c)
  /\ top_k_final (retrieval c') = top_k_final (retrieval c)
  /\ cache_size (cache c') = cache_size (cache c)
  /\ quality c' = quality c.
Proof.
  destruct u as [[?|] [?|] [?|] [?|] [?|] [?|] [?|]]; cbn; repeat split.
Qed.

(** X5.  When the route answers success, the configuration in effect passes
    the validation and carries the values of the request: each given field
    has the requested value, every other field is as before. *)
Theorem successful_update_is_valid (u : ConfigUpdateRequest) (user : User)
    (c c' : EnterpriseConfig) (updated_by : string) :
  fst (update_enterprise_config u user c) = Updated c' updated_by ->
  snd (update_enterprise_config u user c) = c'
  /\ c' = apply_update u c
  /\ validate_config c' = true
  /\ role user = Some "admin" /\ email user = Some updated_by
  /\ (forall v, req_chunk_size u = Some v -> chunk_size (chunking c') = v)
  /\ (forall v, req_chunk_overlap u = Some v -> chunk_overlap (chunking c') = v)
  /\ (forall v, req_similarity_threshold u = Some v ->
                similarity_threshold (retrieval c') = v)
  /\ (forall v, req_max_context_tokens u = Some v ->
                max_context_tokens (retrieval c') = v)
  /\ (forall v, req_temperature u = Some v -> temperature (response c') = v)
  /\ (forall v, req_max_output_tokens u = Some v ->
                max_output_tokens (response c') = v)
  /\ (forall v, req_enable_cache u = Some v -> enable_cache (cache c') = v).
Proof.
  unfold update_enterprise_config.
  destruct (role user) as [r|]; [|discriminate].
  destruct (String.eqb_spec r "admin") as [->|Hne]; [|discriminate].
  destruct (validate_config (apply_update u c)) eqn:Hv; [|discriminate].
  cbn [negb]. destruct (email user) as [e|]; [|discriminate].
  cbn [fst snd]. intros H. injection H as <- <-.
  destruct (apply_update_fields u c) as (H1 & H2 & H3 & H4 & H5 & H6 & H7 & _).
  cbv zeta in *.
  repeat apply conj; auto; intros v Hreq.
  - now rewrite H1, Hreq.
  - now rewrite H2, Hreq.
  - now rewrite H3, Hreq.
  - now rewrite H4, Hreq.
  - now rewrite H5, Hreq.
  - now rewrite H6, Hreq.
  - now rewrite H7, Hreq.
Qed.

Lemma successful_update_is_valid_witness :
  validate_config
    (snd (update_enterprise_config
            {| req_chunk_size := Some 800%Z; req_chunk_overlap := Some 100%Z;
               req_similarity_threshold := None; req_max_context_tokens := None;
               req_temperature := None; req_max_output_tokens := None;
               req_enable_cache := None |}
            {| role := Some "admin"; email := Some "root@acme.example" |}
            default_config)) = true.
Proof.
  edestruct (successful_update_is_valid
               {| req_chunk_size := Some 800%Z; req_chunk_overlap := Some 100%Z;
                  req_similarity_threshold := None; req_max_context_tokens := None;
                  req_temperature := None; req_max_output_tokens := None;
                  req_enable_cache := None |}
               {| role := Some "admin"; email := Some "root@acme.example" |}
               default_config) as (Hs & _ & Hv & _).
  - reflexivity.
  - rewrite Hs. exact Hv.
Defined.

Import ConfigProcess.

Lemma nth_error_mutate_same ref c objs :
  (ref < List.length objs)%nat -> nth_error (mutate ref c objs) ref = Some c.
Proof.
  revert ref. induction objs as [|o objs IH]; intros [|ref] H; simpl in *; try lia.
  - reflexivity.
  - apply IH. lia.
Qed.

Lemma nth_error_mutate_other ref ref' c objs :
  ref' <> ref -> nth_error (mutate ref c objs) ref' = nth_error objs ref'.
Proof.
  revert ref ref'. induction objs as [|o objs IH]; intros [|ref] [|ref'] H;
    simpl; try reflexivity; try congruence.
  apply IH. congruence.
Qed.

Lemma length_mutate ref c objs : List.length (mutate ref c objs) = List.length objs.
Proof.
  revert ref. induction objs as [|o objs IH]; intros [|ref]; simpl; auto.
Qed.

(** X6.  What the admin routes change and what the pipeline sees.  While
    the routes and the pipeline name the same configuration object, every
    assignment of an update shows in the configuration of the pipeline;
    after a reset the routes name a new object, the object of the pipeline
    is what it was, and no later update reaches it.  The thresholds the
    pipeline copied when it was built are not touched by either route. *)
Theorem reset_detaches_the_pipeline (constructed : EnterpriseConfig)
    (u : ConfigUpdateRequest) (admin user : User) (p : Process) :
  well_formed p ->
  role admin = Some "admin" ->
  let after_reset := snd (reset_enterprise_config constructed admin p) in
  (routes_ref p = pipeline_ref p ->
   forall c, deref p (routes_ref p) = Some c ->
     deref (snd (update_route u admin p)) (pipeline_ref p) = Some (apply_update u c))
  /\ well_formed after_reset
  /\ deref after_reset (routes_ref after_reset) = Some constructed
  /\ deref after_reset (pipeline_ref after_reset) = deref p (pipeline_ref p)
  /\ deref (snd (update_route u user after_reset)) (pipeline_ref after_reset)
     = deref p (pipeline_ref p)
  /\ pipeline_settings (snd (update_route u user p)) = pipeline_settings p
  /\ pipeline_settings (snd (update_route u user after_reset)) = pipeline_settings p.
Proof.
  intros (Hr & Hp) Hadmin. cbv zeta.
  assert (Hreset : snd (reset_enterprise_config constructed admin p)
                   = {| objects := (objects p ++ [constructed])%list;
                        routes_ref := List.length (objects p);
                        pipeline_ref := pipeline_ref p;
                        pipeline_settings := pipeline_settings p |}).
  { unfold reset_enterprise_config. rewrite Hadmin. simpl String.eqb. cbv iota.
    destruct (email admin); reflexivity. }
  assert (Hset : forall q, pipeline_settings (snd (update_route u user q))
                           = pipeline_settings q).
  { intros q. unfold update_route. destruct (deref q (routes_ref q)); [|reflexivity].
    destruct (update_enterprise_config u user e). reflexivity. }
  rewrite Hreset. unfold deref, well_formed.
  cbn [objects routes_ref pipeline_ref].
  repeat apply conj.
  - intros Halias c Hc. unfold update_route, deref. rewrite Hc.
    assert (Hup : update_enterprise_config u admin c
                  = (fst (update_enterprise_config u admin c), apply_update u c)).
    { unfold update_enterprise_config. rewrite Hadmin. simpl String.eqb. cbv iota.
      destruct (negb _); [reflexivity|]. destruct (email admin); reflexivity. }
    rewrite Hup. cbn [objects snd]. rewrite <- Halias.
    now apply nth_error_mutate_same.
  - rewrite length_app. simpl. lia.
  - rewrite length_app. simpl. lia.
  - rewrite nth_error_app2 by lia. now rewrite Nat.sub_diag.
  - now rewrite nth_error_app1 by lia.
  - unfold update_route, deref. cbn [objects routes_ref pipeline_ref].
    rewrite nth_error_app2 by lia. rewrite Nat.sub_diag. cbn [nth_error].
    destruct (update_enterprise_config u user constructed) as [resp c'].
    cbn [snd objects pipeline_ref].
    rewrite nth_error_mutate_other by lia.
    now rewrite nth_error_app1 by lia.
  - apply Hset.
  - now rewrite Hset.
Qed.

Lemma reset_detaches_the_pipeline_witness :
  let admin := {| role := Some "admin"; email := Some "root@acme.example" |} in
  let u := {| req_chunk_size := None; req_chunk_overlap := None;
              req_similarity_threshold := Some (8 # 10);
              req_max_context_tokens := None;
              req_temperature := None; req_max_output_tokens := None;
              req_enable_cache := None |} in
  let p1 := snd (update_route u admin (boot default_config)) in
  let p2 := snd (reset_enterprise_config default_config admin p1) in
  deref p2 (routes_ref p2) = Some default_config
  /\ deref p2 (pipeline_ref p2) = Some (apply_update u default_config)
  /\ pipeline_settings p1 = __init__ default_config.
Proof.
  cbv zeta.
  edestruct (reset_detaches_the_pipeline default_config
               {| req_chunk_size := None; req_chunk_overlap := None;
                  req_similarity_threshold := Some (8 # 10);
                  req_max_context_tokens := None;
                  req_temperature := None; req_max_output_tokens := None;
                  req_enable_cache := None |}
               {| role := Some "admin"; email := Some "root@acme.example" |}
               {| role := Some "admin"; email := Some "root@acme.example" |}
               (snd (update_route
                       {| req_chunk_size := None; req_chunk_overlap := None;
                          req_similarity_threshold := Some (8 # 10);
                          req_max_context_tokens := None;
                          req_temperature := None; req_max_output_tokens := None;
                          req_enable_cache := None |}
                       {| role := Some "admin"; email := Some "root@acme.example" |}
                       (boot default_config))))
    as (_ & _ & Hroutes & Hpipeline & _).
  - split; simpl; lia.
  - reflexivity.
  - split; [exact Hroutes|]. split; [|reflexivity]. rewrite Hpipeline. reflexivity.
Defined.

(** X7.  An update that fails the validation is answered 400 and stays
    in effect: [GET /config] then shows the rejected values with
    [validation] false, and every later update that leaves the
    configuration invalid, the update that sets nothing included, is
    answered 400 as well. *)
Theorem rejected_update_is_visible (u later : ConfigUpdateRequest) (admin : User)
    (p : Process) (c : EnterpriseConfig) :
  well_formed p ->
  role admin = Some "admin" ->
  deref p (routes_ref p) = Some c ->
  validate_config (apply_update u c) = false ->
  let p' := snd (update_route u admin p) in
  fst (update_route u admin p)
  = HTTPException 400 "Invalid configuration values provided"
  /\ get_enterprise_config admin p' = View (apply_update u c) "active" false
  /\ fst (update_route empty_request admin p')
     = HTTPException 400 "Invalid configuration values provided"
  /\ (validate_config (apply_update later (apply_update u c)) = false ->
      fst (update_route later admin p')
      = HTTPException 400 "Invalid configuration values provided").
Proof.
  intros (Hr & _) Hadmin Hc Hbad. cbv zeta.
  assert (Hup : update_route u admin p
                = (HTTPException 400 "Invalid configuration values provided",
                   {| objects := mutate (routes_ref p) (apply_update u c) (objects p);
                      routes_ref := routes_ref p; pipeline_ref := pipeline_ref p;
                      pipeline_settings := pipeline_settings p |})).
  { unfold update_route. rewrite Hc.
    now rewrite (ConfigFacts.rejected_update_stays u admin c Hadmin Hbad). }
  rewrite Hup. cbn [fst snd].
  assert (Hd : deref {| objects := mutate (routes_ref p) (apply_update u c) (objects p);
                        routes_ref := routes_ref p; pipeline_ref := pipeline_ref p;
                        pipeline_settings := pipeline_settings p |} (routes_ref p)
               = Some (apply_update u c)).
  { unfold deref. cbn [objects]. now apply nth_error_mutate_same. }
  assert (Hlater : forall later0,
             validate_config (apply_update later0 (apply_update u c)) = false ->
             fst (update_route later0 admin
                    {| objects := mutate (routes_ref p) (apply_update u c) (objects p);
                       routes_ref := routes_ref p; pipeline_ref := pipeline_ref p;
                       pipeline_settings := pipeline_settings p |})
             = HTTPException 400 "Invalid configuration values provided").
  { intros later0 Hbad0. unfold update_route. cbn [routes_ref]. rewrite Hd.
    now rewrite (ConfigFacts.rejected_update_stays later0 admin _ Hadmin Hbad0). }
  repeat apply conj.
  - reflexivity.
  - unfold get_enterprise_config. rewrite Hadmin. simpl String.eqb. cbv iota.
    cbn [routes_ref]. rewrite Hd. now rewrite Hbad.
  - apply Hlater. exact Hbad.
  - apply Hlater.
Qed.

Lemma rejected_update_is_visible_witness :
  let admin := {| role := Some "admin"; email := Some "root@acme.example" |} in
  let u := {| req_chunk_size := Some 50%Z; req_chunk_overlap := None;
              req_similarity_threshold := None; req_max_context_tokens := None;
              req_temperature := None; req_max_output_tokens := None;
              req_enable_cache := None |} in
  let p' := snd (update_route u admin (boot default_config)) in
  get_enterprise_config admin p' = View (apply_update u default_config) "active" false
  /\ fst (update_route empty_request admin p')
     = HTTPException 400 "Invalid configuration values provided".
Proof.
  cbv zeta.
  edestruct (rejected_update_is_visible
               {| req_chunk_size := Some 50%Z; req_chunk_overlap := None;
                  req_similarity_threshold := None; req_max_context_tokens := None;
                  req_temperature := None; req_max_output_tokens := None;
                  req_enable_cache := None |}
               empty_request
               {| role := Some "admin"; email := Some "root@acme.example" |}
               (boot default_config) default_config)
    as (_ & Hview & Hempty & _).
  - split; simpl; lia.
  - reflexivity.
  - reflexivity.
  - vm_compute. reflexivity.
  - split; [exact Hview|exact Hempty].
Defined.

End ConfigExtras.

(* ================================================================== *)
(** ** Context optimizer, further properties *)

Module OptimizerExtras.

Import Py.
Import Optimizer.
Import OptimizerFacts.

Local Open Scope Q_scope.

Lemma Qnat_nonneg n : 0 <= Qnat n.
Proof. unfold Qnat. change 0 with (inject_Z 0). rewrite <- Zle_Qle. lia. Qed.

Lemma Qnat_S n : Qnat (S n) == Qnat n + 1.
Proof.
  unfold Qnat. rewrite Nat2Z.inj_succ. unfold Z.succ. now rewrite inject_Z_plus.
Qed.

Lemma Qnat_pos n : (0 < n)%nat -> 0 < Qnat n.
Proof. unfold Qnat. change 0 with (inject_Z 0). rewrite <- Zlt_Qlt. lia. Qed.

(** *** The two boosts *)

Lemma entity_boost_bounds (m : Match) (names terms : list string) :
  0 <= _calculate_entity_relevance_boost m names terms <= 3 # 10.
Proof.
  unfold _calculate_entity_relevance_boost. cbv zeta.
  set (a := Qnat (common_count names _)).
  set (b := Qnat (common_count terms _)).
  assert (Ha : 0 <= a * (1 # 10))
    by (apply Qmult_le_0_compat; [apply Qnat_nonneg|discriminate]).
  assert (Hb : 0 <= b * (5 # 100))
    by (apply Qmult_le_0_compat; [apply Qnat_nonneg|discriminate]).
  split; [|apply Q.le_min_r].
  apply Q.min_glb; [|discriminate].
  destruct (existsb _ _); lra.
Qed.

Lemma data_chunk_boost_bounds (m : Match) (query : string) :
  - (2 # 10) <= _calculate_data_chunk_boost m query <= 5 # 10.
Proof.
  unfold _calculate_data_chunk_boost. cbv zeta.
  destruct (negb _); [split; discriminate|].
  split; [|apply Q.le_min_r].
  apply Q.min_glb; [|discriminate].
  repeat match goal with
         | |- context [if ?b then _ else _] => destruct b
         end; apply Qle_bool_iff; vm_compute; reflexivity.
Qed.

Lemma data_chunk_boost_plain (m : Match) (query : string) :
  Breadth._is_analytical_query query = false ->
  _calculate_data_chunk_boost m query = 0.
Proof. unfold _calculate_data_chunk_boost. now intros ->. Qed.

(** X8.  For an analytical query, a chunk that holds a data record and is
    typed as a structured row gets the full data boost, 0.5, whatever the
    query asks about, while a header chunk, which lists the columns and
    holds no record, gets 0.2 at most. *)
Theorem record_rows_get_the_full_boost (m : Match) (query : string) :
  Breadth._is_analytical_query query = true ->
  let chunk_text := get_default (text (metadata m)) "" in
  let chunk_type := get_default (chunk_type (metadata m)) "unknown" in
  (is_record_text chunk_text = true ->
   In chunk_type ["structured_row"; "structured_data"] ->
   _calculate_data_chunk_boost m query = 5 # 10)
  /\ (chunk_type = "structured_header" ->
      Str.contains "Columns:" chunk_text = true ->
      Str.contains "Record" chunk_text = false ->
      _calculate_data_chunk_boost m query <= 2 # 10).
Proof.
  intros Hq. cbv zeta. unfold _calculate_data_chunk_boost. rewrite Hq.
  cbn [negb]. cbv zeta.
  set (c1 := Str.contains "carrier" (Str.lower query) && Str.contains "Carrier=" _).
  set (c2 := existsb _ _ && Str.contains "On_Time=" _).
  split.
  - intros Hrec Htype. rewrite Hrec.
    destruct Htype as [<-|[<-|[]]]; destruct c1, c2; vm_compute; reflexivity.
  - intros -> Hcols Hnone. unfold is_record_text. rewrite Hcols, Hnone.
    destruct c1, c2; apply Qle_bool_iff; vm_compute; reflexivity.
Qed.

Lemma record_rows_get_the_full_boost_witness :
  _calculate_data_chunk_boost Samples.record_chunk Samples.sample_query = 5 # 10
  /\ _calculate_data_chunk_boost Samples.header_chunk Samples.sample_query <= 2 # 10.
Proof.
  destruct (record_rows_get_the_full_boost Samples.record_chunk Samples.sample_query)
    as (Hrow & _); [reflexivity|].
  destruct (record_rows_get_the_full_boost Samples.header_chunk Samples.sample_query)
    as (_ & Hheader); [reflexivity|].
  split.
  - apply Hrow; [reflexivity|]. left. reflexivity.
  - apply Hheader; reflexivity.
Defined.

Section Provenance.

Variable extract_entities : string -> string -> QueryEntities.
Variables (self : Settings) (matches : list Match) (query : string).

Lemma enhance_matches_score c :
  In c (enhance_matches extract_entities self matches query) ->
  exists names terms,
    enhanced_score c
    = score (base c) + _calculate_entity_relevance_boost (base c) names terms
      + _calculate_data_chunk_boost (base c) query.
Proof.
  unfold enhance_matches. cbv zeta. rewrite sort_desc_In, in_map_iff.
  intros (m & <- & _). cbn [base enhanced_score]. eauto.
Qed.

Lemma offered_In c :
  In c (flat_map (fun x => prioritize query (snd x))
          (sorted_documents extract_entities self matches query)) ->
  In c (enhance_matches extract_entities self matches query).
Proof.
  rewrite in_flat_map. intros ([n ms] & Hg & Hc). cbn [snd] in Hc.
  apply prioritize_In in Hc.
  eapply (grouped_member _ _ n ms c
            (sorted_documents_grouped extract_entities self matches query) Hg).
  exact Hc.
Qed.

Lemma context_chunk_In top_k context c :
  _optimize_context_selection extract_entities self matches query top_k = inr context ->
  In c (chunks context) ->
  In c (enhance_matches extract_entities self matches query).
Proof.
  intros H Hc. apply offered_In.
  eapply subseq_In; [|exact Hc]. eapply context_chunks_subseq. exact H.
Qed.

End Provenance.

(** X9.  Every chunk of the context is one of the matches handed in, with
    a raw score of at least [min_context_relevance]; the score it was ranked
    by lies between the raw score less 0.2 and the raw score plus 0.8, and
    for a query that is not analytical between the raw score and the raw
    score plus 0.3. *)
Theorem context_chunk_scores extract_entities self matches query top_k context c :
  _optimize_context_selection extract_entities self matches query top_k = inr context ->
  In c (chunks context) ->
  In (base c) matches
  /\ min_context_relevance self <= score (base c)
  /\ score (base c) - (2 # 10) <= enhanced_score c <= score (base c) + (8 # 10)
  /\ (Breadth._is_analytical_query query = false ->
      score (base c) <= enhanced_score c <= score (base c) + (3 # 10)).
Proof.
  intros H Hc. pose proof (context_chunk_In _ _ _ _ _ _ _ H Hc) as HE.
  destruct (enhance_matches_In _ _ _ _ _ HE) as (Hin & Hrel).
  destruct (enhance_matches_score _ _ _ _ _ HE) as (names & terms & ->).
  pose proof (entity_boost_bounds (base c) names terms) as (He1 & He2).
  pose proof (data_chunk_boost_bounds (base c) query) as (Hd1 & Hd2).
  repeat apply conj; auto; try lra;
    intros Hq; rewrite (data_chunk_boost_plain _ _ Hq); lra.
Qed.

Lemma context_chunk_scores_witness :
  exists context,
    _optimize_context_selection Samples.no_entities Samples.default_settings
      Samples.sample_matches Samples.sample_query 8 = inr context
    /\ forall c, In c (chunks context) ->
         In (base c) Samples.sample_matches
         /\ score (base c) - (2 # 10) <= enhanced_score c <= score (base c) + (8 # 10).
Proof.
  destruct (_optimize_context_selection Samples.no_entities Samples.default_settings
              Samples.sample_matches Samples.sample_query 8) as [e|context] eqn:H.
  - vm_compute in H. discriminate.
  - exists context. split; [reflexivity|]. intros c Hc.
    destruct (context_chunk_scores _ _ _ _ _ _ c H Hc) as (Hin & _ & Hb & _).
    split; assumption.
Defined.

(** *** Each match is used at most once *)

Lemma subseq_rest {A} (l1 l2 : list A) :
  subseq l1 l2 -> exists rest, Permutation (l1 ++ rest) l2.
Proof.
  induction 1 as [|x l1 l2 _ (rest & IH)|x l1 l2 _ (rest & IH)].
  - exists []. constructor.
  - exists (x :: rest). rewrite <- IH. symmetry. apply Permutation_middle.
  - exists rest. cbn. now constructor.
Qed.

Lemma group_append_flat name m groups :
  Permutation (flat_map snd (group_append name m groups))
              (flat_map snd groups ++ [m]).
Proof.
  induction groups as [|[n ms] rest IH]; cbn; [reflexivity|].
  destruct (String.eqb n name); cbn.
  - rewrite <- !app_assoc. apply Permutation_app_head. apply Permutation_app_comm.
  - rewrite IH. now rewrite app_assoc.
Qed.

Lemma group_by_document_flat (E : list Enhanced) :
  Permutation (flat_map snd (group_by_document E)) E.
Proof.
  unfold group_by_document.
  enough (forall groups,
             Permutation
               (flat_map snd
                  (fold_left (fun groups m => group_append (doc_name m) m groups) E groups))
               (flat_map snd groups ++ E)) as H by apply (H []).
  induction E as [|m E IH]; intros groups; cbn [fold_left].
  - now rewrite app_nil_r.
  - rewrite IH, group_append_flat, <- app_assoc. reflexivity.
Qed.

Lemma filter_partition {A} (f : A -> bool) (l : list A) :
  Permutation (filter f l ++ filter (fun x => negb (f x)) l) l.
Proof.
  induction l as [|x l IH]; cbn; [reflexivity|].
  destruct (f x); cbn.
  - now constructor.
  - rewrite <- Permutation_middle. now constructor.
Qed.

Lemma prioritize_perm query doc_matches :
  Permutation (prioritize query doc_matches) doc_matches.
Proof.
  unfold prioritize. destruct (Breadth._is_analytical_query query).
  - cbv zeta. rewrite !sort_desc_perm. apply filter_partition.
  - apply sort_desc_perm.
Qed.

Lemma offered_perm extract_entities self matches query :
  Permutation
    (map base (flat_map (fun x => prioritize query (snd x))
                 (sorted_documents extract_entities self matches query)))
    (filter (fun m => Qle_bool (min_context_relevance self) (score m)) matches).
Proof.
  assert (H1 : forall groups : Dict.dict (list Enhanced),
             Permutation (flat_map (fun x => prioritize query (snd x)) groups)
                         (flat_map snd groups)).
  { induction groups as [|[n ms] rest IH]; cbn; [reflexivity|].
    apply Permutation_app; [apply prioritize_perm|exact IH]. }
  rewrite H1. unfold sorted_documents. cbv zeta.
  rewrite (Permutation_flat_map snd (sort_desc_perm _ _)).
  rewrite group_by_document_flat.
  unfold enhance_matches. cbv zeta. rewrite sort_desc_perm.
  rewrite map_map. cbn [base]. now rewrite map_id.
Qed.

(** X10.  The context uses each match at most once: its chunks, together
    with some matches left out, are a rearrangement of the matches whose raw
    score reaches [min_context_relevance]. *)
Theorem context_uses_each_match_once extract_entities self matches query top_k context :
  _optimize_context_selection extract_entities self matches query top_k = inr context ->
  exists left_out,
    Permutation (map base (chunks context) ++ left_out)
      (filter (fun m => Qle_bool (min_context_relevance self) (score m)) matches)
    /\ (List.length (chunks context) <= List.length matches)%nat.
Proof.
  intros H. apply context_chunks_subseq in H.
  apply subseq_rest in H as (rest & Hrest).
  exists (map base rest).
  assert (Hp : Permutation (map base (chunks context) ++ map base rest)
                 (filter (fun m => Qle_bool (min_context_relevance self) (score m))
                         matches)).
  { rewrite <- map_app, Hrest. apply offered_perm. }
  split; [exact Hp|].
  apply Permutation_length in Hp. rewrite length_app, length_map in Hp.
  pose proof (filter_length_le
                (fun m => Qle_bool (min_context_relevance self) (score m)) matches).
  lia.
Qed.

Lemma context_uses_each_match_once_witness :
  exists context left_out,
    _optimize_context_selection Samples.no_entities Samples.default_settings
      Samples.sample_matches Samples.sample_query 2 = inr context
    /\ Permutation (map base (chunks context) ++ left_out)
         [Samples.header_chunk; Samples.record_chunk; Samples.policy_chunk].
Proof.
  destruct (_optimize_context_selection Samples.no_entities Samples.default_settings
              Samples.sample_matches Samples.sample_query 2) as [e|context] eqn:H.
  - vm_compute in H. discriminate.
  - destruct (context_uses_each_match_once _ _ _ _ _ _ H) as (left_out & Hp & _).
    exists context, left_out. split; [reflexivity|]. exact Hp.
Defined.

(** *** Nothing relevant *)

(** X11.  When no match reaches [min_context_relevance], and so when there
    is no match at all, the optimizer returns the empty context: no chunk,
    no source, confidence 0 and quality 0. *)
Theorem nothing_relevant_gives_empty_context extract_entities self matches query top_k :
  (forall m, In m matches -> score m < min_context_relevance self) ->
  _optimize_context_selection extract_entities self matches query top_k
  = inr empty_context.
Proof.
  intros Hlow.
  assert (Hf : filter (fun m => Qle_bool (min_context_relevance self) (score m)) matches
               = []).
  { induction matches as [|m ms IH]; [reflexivity|]. cbn.
    destruct (Qle_bool _ _) eqn:E.
    - apply Qle_bool_iff in E. exfalso.
      eapply Qlt_not_le; [apply (Hlow m); now left|exact E].
    - apply IH. intros m' Hm'. apply Hlow. now right. }
  unfold _optimize_context_selection, sorted_documents, enhance_matches.
  cbv zeta. rewrite Hf. reflexivity.
Qed.

Lemma nothing_relevant_gives_empty_context_witness :
  _optimize_context_selection Samples.no_entities Samples.default_settings
    Samples.faint_matches "hello, how are you" 8 = inr empty_context.
Proof.
  apply nothing_relevant_gives_empty_context.
  intros m [<-|[<-|[]]]; vm_compute; reflexivity.
Defined.

(** *** Budget and breadth *)

Lemma select_in_document_breadth self top_k (prioritized_matches : list Enhanced) :
  forall acc acc',
    select_in_document self top_k prioritized_matches acc = inr acc' ->
    (Z.of_nat (List.length (selected_chunks acc)) < Z.max top_k 1)%Z ->
    (Z.of_nat (List.length (selected_chunks acc')) <= Z.max top_k 1)%Z.
Proof.
  induction prioritized_matches as [|m rest IH]; intros acc acc' Hsel Hlen;
    cbn [select_in_document] in Hsel.
  - injection Hsel as <-. lia.
  - destruct (text (metadata (base m))); [|discriminate].
    destruct (Qlt_bool _ _); [injection Hsel as <-; lia|].
    cbv zeta in Hsel. cbn [selected_chunks total_tokens] in Hsel.
    destruct (_ <=? _)%Z eqn:Hfull.
    + injection Hsel as <-. cbn [selected_chunks].
      rewrite length_app. cbn [List.length]. lia.
    + apply Z.leb_gt in Hfull. eapply IH; [exact Hsel|].
      cbn [selected_chunks]. lia.
Qed.

Lemma select_from_documents_breadth self query top_k
    (sorted_docs : list (string * list Enhanced)) :
  forall acc acc',
    select_from_documents self query top_k sorted_docs acc = inr acc' ->
    (Z.of_nat (List.length (selected_chunks acc)) < Z.max top_k 1)%Z ->
    (Z.of_nat (List.length (selected_chunks acc')) <= Z.max top_k 1)%Z.
Proof.
  induction sorted_docs as [|[n ms] rest IH]; intros acc acc' Hsel Hlen;
    cbn [select_from_documents] in Hsel.
  - injection Hsel as <-. lia.
  - destruct (select_in_document self top_k (prioritize query ms) acc)
      as [e|acc1] eqn:Hdoc; [discriminate|].
    pose proof (select_in_document_breadth _ _ _ _ _ Hdoc Hlen) as H1.
    destruct (_ <=? _)%Z eqn:Hfull.
    + now injection Hsel as <-.
    + apply Z.leb_gt in Hfull. eapply IH; [exact Hsel|]. lia.
Qed.

(** X12.  With a token budget that is not negative, the estimated tokens
    of the chunks of the context (1.3 per word) stay within
    [max_context_tokens], and the context has at most [top_k] chunks, or at
    most one when [top_k] is below one. *)
Theorem context_within_budget_and_breadth
    extract_entities self matches query top_k context :
  (0 <= max_context_tokens self)%Z ->
  _optimize_context_selection extract_entities self matches query top_k = inr context ->
  total_estimated_tokens (chunks context) <= inject_Z (max_context_tokens self)
  /\ (Z.of_nat (List.length (chunks context)) <= Z.max top_k 1)%Z.
Proof.
  intros Hbudget H. split.
  - eapply selection_within_bounds; eassumption.
  - apply context_chunks in H as (acc & Hsel & -> & _).
    eapply select_from_documents_breadth; [exact Hsel|]. cbn. lia.
Qed.

Lemma context_within_budget_and_breadth_witness :
  exists context,
    _optimize_context_selection Samples.no_entities Samples.default_settings
      Samples.sample_matches Samples.sample_query 2 = inr context
    /\ total_estimated_tokens (chunks context) <= 6000
    /\ (List.length (chunks context) <= 2)%nat.
Proof.
  destruct (_optimize_context_selection Samples.no_entities Samples.default_settings
              Samples.sample_matches Samples.sample_query 2) as [e|context] eqn:H.
  - vm_compute in H. discriminate.
  - assert (Hbudget : (0 <= max_context_tokens Samples.default_settings)%Z)
      by (cbn; lia).
    destruct (context_within_budget_and_breadth _ _ _ _ _ _ Hbudget H) as (Ht & Hk).
    exists context. split; [reflexivity|]. split; [exact Ht|].
    change (Z.max 2 1) with 2%Z in Hk. lia.
Defined.

(** *** Confidence and quality *)

Lemma fold_Qplus_lower (r : Q) (l : list Q) :
  forall a, (forall x, In x l -> r <= x) ->
            a + Qnat (List.length l) * r <= fold_left Qplus l a.
Proof.
  induction l as [|x l IH]; intros a Hall; cbn [fold_left List.length].
  - change (Qnat 0) with 0. lra.
  - eapply Qle_trans; [|apply IH; intros y Hy; apply Hall; now right].
    rewrite Qnat_S. assert (r <= x) by (apply Hall; now left). lra.
Qed.

Lemma average_lower (r : Q) (l : list Q) :
  l <> [] -> (forall x, In x l -> r <= x) ->
  r <= Qsum l / Qnat (List.length l).
Proof.
  intros Hne Hall. apply Qle_shift_div_l.
  - apply Qnat_pos. destruct l; [congruence|cbn; lia].
  - pose proof (fold_Qplus_lower r l 0 Hall) as H. unfold Qsum. lra.
Qed.

Lemma Qdiv_nonneg (a b : Q) : 0 <= a -> 0 <= b -> 0 <= a / b.
Proof.
  intros Ha Hb. unfold Qdiv. apply Qmult_le_0_compat; [exact Ha|].
  now apply Qinv_le_0_compat.
Qed.

Lemma context_quality_bounds (chunks : list Enhanced) (query : string) (r : Q) :
  _calculate_context_quality chunks query <= 1
  /\ (0 <= r -> (forall c, In c chunks -> r <= score (base c)) ->
      0 <= _calculate_context_quality chunks query).
Proof.
  unfold _calculate_context_quality. destruct chunks as [|c0 cs].
  - split; [discriminate|]. intros _ _. apply Qle_refl.
  - cbv zeta. split; [apply Q.le_min_r|].
    intros Hr Hall. apply Q.min_glb; [|discriminate].
    set (l := c0 :: cs) in *.
    assert (H1 : 0 <= Qsum (map (fun c => score (base c)) l) / Qnat (List.length l)).
    { eapply Qle_trans; [exact Hr|].
      rewrite <- (length_map (fun c => score (base c)) l).
      apply average_lower; [discriminate|].
      intros x Hx. apply in_map_iff in Hx as (c & <- & Hc). now apply Hall. }
    match goal with
    | |- 0 <= _ * _ + ?d / ?n * _ + Qmin ?c 1 * _ + ?t / ?m * _ =>
        assert (H2 : 0 <= d / n) by (apply Qdiv_nonneg; apply Qnat_nonneg);
        assert (H3 : 0 <= Qmin c 1)
          by (apply Q.min_glb;
              [apply Qdiv_nonneg; [apply Qnat_nonneg|discriminate]|discriminate]);
        assert (H4 : 0 <= t / m) by (apply Qdiv_nonneg; apply Qnat_nonneg)
    end.
    lra.
Qed.

Lemma context_without_chunks extract_entities self matches query top_k context :
  _optimize_context_selection extract_entities self matches query top_k = inr context ->
  chunks context = [] -> context = empty_context.
Proof.
  unfold _optimize_context_selection. cbv zeta.
  destruct (select_from_documents _ _ _ _ _) as [e|acc]; [discriminate|].
  destruct (selected_chunks acc) as [|c0 cs]; intros H; injection H as <-;
    [reflexivity|discriminate].
Qed.

(** X13.  The confidence of a context lies between 0 and 1 and its quality
    is at most 1; with a relevance floor that is not negative, neither the
    quality nor the average relevance is negative; a context without chunks
    is the empty context. *)
Theorem context_confidence_bounds extract_entities self matches query top_k context :
  _optimize_context_selection extract_entities self matches query top_k = inr context ->
  0 <= confidence context <= 1
  /\ quality_score context <= 1
  /\ (0 <= min_context_relevance self ->
      0 <= quality_score context /\ 0 <= avg_relevance context)
  /\ (chunks context = [] -> context = empty_context).
Proof.
  intros H.
  assert (Hall : forall c, In c (chunks context) ->
                           min_context_relevance self <= score (base c)).
  { intros c Hc. eapply enhance_matches_In. eapply context_chunk_In; eassumption. }
  revert H Hall. unfold _optimize_context_selection. cbv zeta.
  destruct (select_from_documents _ _ _ _ _) as [e|acc]; [discriminate|].
  destruct (selected_chunks acc) as [|c0 cs].
  - intros H _. injection H as <-. cbn.
    repeat apply conj; try discriminate; try reflexivity.
    intros _. split; discriminate.
  - set (l := c0 :: cs). intros H Hall. injection H as <-.
    cbn [confidence quality_score avg_relevance chunks] in *.
    assert (Havg : min_context_relevance self
                   <= Qsum (map (fun c => score (base c)) l) / Qnat (List.length l)).
    { rewrite <- (length_map (fun c => score (base c)) l).
      apply average_lower; [discriminate|].
      intros x Hx. apply in_map_iff in Hx as (c & <- & Hc). now apply Hall. }
    repeat apply conj.
    + apply Q.min_glb; [apply Q.le_max_r|discriminate].
    + apply Q.le_min_r.
    + apply (context_quality_bounds l query 0).
    + intros Hr. split.
      * now apply (context_quality_bounds l query (min_context_relevance self)).
      * eapply Qle_trans; eassumption.
    + discriminate.
Qed.

Lemma context_confidence_bounds_witness :
  exists context,
    _optimize_context_selection Samples.no_entities Samples.default_settings
      Samples.sample_matches Samples.sample_query 8 = inr context
    /\ 0 <= confidence context <= 1
    /\ 0 <= quality_score context <= 1
    /\ 0 <= avg_relevance context.
Proof.
  destruct (_optimize_context_selection Samples.no_entities Samples.default_settings
              Samples.sample_matches Samples.sample_query 8) as [e|context] eqn:H.
  - vm_compute in H. discriminate.
  - destruct (context_confidence_bounds _ _ _ _ _ _ H)
      as (Hc & Hq1 & Hfloor & _).
    destruct Hfloor as (Hq0 & Havg); [apply Qle_bool_iff; vm_compute; reflexivity|].
    exists context. split; [reflexivity|].
    split; [exact Hc|]. split; [split; assumption|exact Havg].
Defined.

(** *** A relevant match that fits is selected *)

Lemma select_in_document_grows self top_k (prioritized_matches : list Enhanced) :
  forall acc acc',
    select_in_document self top_k prioritized_matches acc = inr acc' ->
    selected_chunks acc <> [] -> selected_chunks acc' <> [].
Proof.
  intros acc acc' H Hne. apply select_in_document_extends in H as (taken & -> & _).
  intros E. apply app_eq_nil in E as (E & _). contradiction.
Qed.

Lemma select_from_documents_grows self query top_k
    (sorted_docs : list (string * list Enhanced)) :
  forall acc acc',
    select_from_documents self query top_k sorted_docs acc = inr acc' ->
    selected_chunks acc <> [] -> selected_chunks acc' <> [].
Proof.
  intros acc acc' H Hne. apply select_from_documents_extends in H as (taken & -> & _).
  intros E. apply app_eq_nil in E as (E & _). contradiction.
Qed.

(** When some match reaches [min_context_relevance] and every match
    carries a text that fits the token budget on its own, the optimizer
    returns a context with at least one chunk. *)
Lemma relevant_match_is_selected extract_entities self matches query top_k :
  (exists m, In m matches /\ min_context_relevance self <= score m) ->
  (forall m, In m matches ->
     exists t, text (metadata m) = Some t
               /\ chunk_tokens_of t <= inject_Z (max_context_tokens self)) ->
  exists context,
    _optimize_context_selection extract_entities self matches query top_k = inr context
    /\ chunks context <> [].
Proof.
  intros (m0 & Hm0 & Hrel) Hfit.
  destruct (optimize_returns extract_entities self matches query top_k)
    as (context & Hopt).
  { intros m Hm. destruct (Hfit m Hm) as (t & -> & _). discriminate. }
  exists context. split; [exact Hopt|].
  destruct (context_chunks _ _ _ _ _ _ Hopt) as (acc & Hsel & -> & _).
  pose proof (sorted_documents_grouped extract_entities self matches query) as Hg.
  destruct (enhance_matches_covers extract_entities self matches query m0 Hm0 Hrel)
    as (c0 & Hc0 & _).
  destruct (sorted_documents extract_entities self matches query)
    as [|[n ms] rest] eqn:Hdocs.
  { destruct Hg as (_ & Hkeys & _). destruct (Hkeys c0 Hc0). }
  assert (Hms : ms <> [] /\ forall c, In c ms ->
                  In c (enhance_matches extract_entities self matches query)).
  { split.
    - destruct Hg as (_ & _ & Hgroups). apply (Hgroups n ms). now left.
    - intros c Hc. eapply (grouped_member _ _ n ms c Hg); [now left|exact Hc]. }
  destruct Hms as (Hne & Hsub).
  cbn [select_from_documents] in Hsel.
  destruct (select_in_document self top_k (prioritize query ms)
              {| selected_chunks := []; total_tokens := 0 |}) as [e|acc1] eqn:Hdoc;
    [discriminate|].
  assert (Hacc1 : selected_chunks acc1 <> []).
  { pose proof (prioritize_perm query ms) as Hperm.
    destruct (prioritize query ms) as [|c1 r] eqn:Hp.
    { apply Permutation_nil in Hperm. congruence. }
    assert (Hc1 : In c1 ms).
    { apply (prioritize_In query ms c1). rewrite Hp. now left. }
    apply Hsub in Hc1. apply enhance_matches_In in Hc1 as (Hc1 & _).
    destruct (Hfit _ Hc1) as (t & Ht & Htok).
    cbn [select_in_document] in Hdoc. rewrite Ht in Hdoc.
    cbv zeta in Hdoc. cbn [selected_chunks total_tokens] in Hdoc.
    assert (Hroom : Qlt_bool (inject_Z (max_context_tokens self))
                      (0 + chunk_tokens_of t) = false).
    { unfold Qlt_bool. apply negb_false_iff. apply Qle_bool_iff. lra. }
    rewrite Hroom in Hdoc.
    destruct (_ <=? _)%Z.
    - injection Hdoc as <-. discriminate.
    - eapply select_in_document_grows; [exact Hdoc|]. discriminate. }
  destruct (_ <=? _)%Z.
  - now injection Hsel as <-.
  - eapply select_from_documents_grows; eassumption.
Qed.

End OptimizerExtras.

(* ================================================================== *)
(** ** Document types, further properties *)

Module DocumentTypeFacts.

Import Optimizer.
Import Pipeline.
Import DocumentType.

Lemma prefix_app (p q s : string) : prefix (p ++ q) s = true -> prefix p s = true.
Proof.
  revert s. induction p as [|a p IH]; intros s; [now destruct s|].
  destruct s as [|b s]; cbn; [discriminate|].
  destruct (ascii_dec a b); [apply IH|discriminate].
Qed.

Lemma contains_app (p q s : string) :
  Str.contains (p ++ q) s = true -> Str.contains p s = true.
Proof.
  induction s as [|b s IH]; cbn [Str.contains].
  - apply prefix_app.
  - rewrite !orb_true_iff. intros [H|H]; [left; now apply (prefix_app p q)|right; auto].
Qed.

(** X14.  A document is classified as logistics exactly when a logistics
    keyword occurs in its file name or in its content, whatever the letter
    case, or when it is a spreadsheet whose content mentions an origin or a
    destination; the other five patterns of the spreadsheet test never
    decide, each holding a keyword already looked for. *)
Theorem logistics_detection (file_name content : string) :
  _detect_document_type file_name content = "logistics" <->
  Str.contains_any logistics_keywords (Str.lower file_name) = true
  \/ Str.contains_any logistics_keywords (Str.lower content) = true
  \/ (is_spreadsheet file_name = true
      /\ Str.contains_any ["origin"; "destination"] (Str.lower content) = true).
Proof.
  unfold _detect_document_type, is_spreadsheet. cbv zeta.
  set (f := Str.lower file_name). set (c := Str.lower content).
  destruct (Str.contains_any logistics_keywords f) eqn:Hf; [split; auto|].
  destruct (Str.contains_any logistics_keywords c) eqn:Hc; [split; auto|].
  assert (Hdead : forall w, In w logistics_keywords -> Str.contains w c = false).
  { intros w Hw. destruct (Str.contains w c) eqn:E; [|reflexivity].
    rewrite <- Hc. symmetry. unfold Str.contains_any. apply existsb_exists. eauto. }
  assert (Hpat : Str.contains_any
                   [ "carrier"; "delivery_date"; "shipment_id"; "tracking"; "origin";
                     "destination"; "dispatch" ] c
                 = Str.contains_any ["origin"; "destination"] c).
  { unfold Str.contains_any. cbn [existsb].
    rewrite (Hdead "carrier"), (Hdead "tracking"), (Hdead "dispatch")
      by (cbn; tauto).
    assert (H1 : Str.contains "delivery_date" c = false).
    { destruct (Str.contains "delivery_date" c) eqn:E; [|reflexivity].
      apply (contains_app "delivery" "_date") in E.
      rewrite Hdead in E by (cbn; tauto). discriminate. }
    assert (H2 : Str.contains "shipment_id" c = false).
    { destruct (Str.contains "shipment_id" c) eqn:E; [|reflexivity].
      apply (contains_app "shipment" "_id") in E.
      rewrite Hdead in E by (cbn; tauto). discriminate. }
    rewrite H1, H2. cbn [orb]. reflexivity. }
  rewrite Hpat.
  destruct (existsb _ _ && Str.contains_any ["origin"; "destination"] c) eqn:Hs.
  - split; [|reflexivity]. intros _. right. right. now apply andb_true_iff.
  - split.
    + repeat match goal with
             | |- context [if ?b then _ else _] => destruct b
             end; discriminate.
    + intros [H|[H|H]]; try discriminate.
      apply andb_true_iff in H. congruence.
Qed.

(** X15.  The detector answers one of six types and does not look at the
    letter case of the file name or of the content; every type but
    [general] selects a system prompt of its own. *)
Theorem detected_type_is_known (file_name content : string) :
  let t := _detect_document_type file_name content in
  In t ["logistics"; "financial"; "legal"; "technical"; "policy"; "general"]
  /\ _detect_document_type (Str.lower file_name) (Str.lower content) = t
  /\ In (t, system_template_for [t])
        [ ("logistics", "logistics_analyst"); ("financial", "financial_analyst");
          ("legal", "legal_expert"); ("technical", "technical_expert");
          ("policy", "policy_expert"); ("general", "general_expert") ].
Proof.
  cbv zeta. split; [|split].
  - unfold _detect_document_type. cbv zeta.
    repeat match goal with
           | |- context [if ?b then _ else _] => destruct b
           end; cbn; tauto.
  - unfold _detect_document_type. cbv zeta.
    now rewrite !StrFacts.lower_idempotent.
  - unfold _detect_document_type. cbv zeta.
    repeat match goal with
           | |- context [if ?b then _ else _] => destruct b
           end; cbn; tauto.
Qed.

(** X16.  The boost for a query in the field of the document is never given
    to a chunk of a logistics, financial, policy or general document: the
    table of the entity extraction has no entry for these types, so that
    the entity boost of such a chunk is what the shared entities and terms
    give, capped at 0.3, whatever terms the query holds. *)
Theorem alignment_boost_needs_legal_or_technical (m : Match)
    (names terms : list string) :
  In (get_default (document_type (metadata m)) "general")
     ["logistics"; "financial"; "policy"; "general"] ->
  _calculate_entity_relevance_boost m names terms
  = Qmin (0 + Qnat (common_count names (map Str.lower (entities (metadata m))))
              * (1 # 10)
          + Qnat (common_count terms
                    (flat_map (fun kv => map Str.lower (snd kv))
                              (enterprise_entities (metadata m)))) * (5 # 100))
         (3 # 10).
Proof.
  intros Ht. unfold _calculate_entity_relevance_boost. cbv zeta.
  assert (Hnone : Dict.lookup
                    (get_default (document_type (metadata m)) "general" ++ "_terms")
                    enterprise_patterns = None).
  { cbn in Ht. destruct Ht as [<-|[<-|[<-|[<-|[]]]]]; reflexivity. }
  rewrite Hnone. reflexivity.
Qed.

(** A financial chunk and a query that names a customer and a budget: the
    query term is one the extraction finds ("customer" is a business term),
    and the boost is 0. *)
Lemma alignment_boost_needs_legal_or_technical_witness :
  _calculate_entity_relevance_boost
    (Samples.sample_match "v7" "ledger.pdf" "Revenue by quarter" "standard"
                          "financial" (6 # 10))
    [] ["customer"]
  = Qmin (0 + Qnat 0 * (1 # 10) + Qnat 0 * (5 # 100)) (3 # 10).
Proof.
  apply (alignment_boost_needs_legal_or_technical
           (Samples.sample_match "v7" "ledger.pdf" "Revenue by quarter"
                                 "standard" "financial" (6 # 10))
           [] ["customer"]).
  cbn. tauto.
Defined.

End DocumentTypeFacts.

(* ================================================================== *)
(** ** Sources of a result *)

Module SourcesFacts.

Import Optimizer.
Import OptimizerFacts.
Import Pipeline.
Import Sources.

Lemma mem_string_In x l : mem_string x l = true <-> In x l.
Proof.
  unfold mem_string. rewrite existsb_exists. split.
  - intros (y & Hy & E). apply String.eqb_eq in E. now subst.
  - intros H. exists x. split; [exact H|apply String.eqb_refl].
Qed.

Lemma format_unseen_first (sources : list Enhanced) :
  forall seen s,
    In s (format_unseen sources seen) ->
    ~ In (src_file_name s) seen
    /\ exists before c after,
         sources = (before ++ c :: after)%list
         /\ s = format_source c
         /\ forall c', In c' before -> source_name c' <> src_file_name s.
Proof.
  induction sources as [|c rest IH]; intros seen s Hs; cbn [format_unseen] in Hs;
    [contradiction|].
  cbv zeta in Hs. fold (source_name c) in Hs.
  destruct (mem_string (source_name c) seen) eqn:Hseen.
  - destruct (IH _ _ Hs) as (Hn & before & c1 & after & -> & -> & Hfirst).
    split; [exact Hn|].
    exists (c :: before), c1, after. repeat apply conj; auto.
    intros c' [<-|Hc']; [|now apply Hfirst].
    intros E. apply Hn. rewrite <- E. now apply mem_string_In.
  - destruct Hs as [<-|Hs].
    + split.
      * cbn [format_source src_file_name]. fold (source_name c).
        intros Hin. apply mem_string_In in Hin. congruence.
      * exists [], c, rest. repeat apply conj; auto; intros c' [].
    + destruct (IH _ _ Hs) as (Hn & before & c1 & after & -> & -> & Hfirst).
      split; [intros Hin; apply Hn; now right|].
      exists (c :: before), c1, after. repeat apply conj; auto.
      intros c' [<-|Hc']; [|now apply Hfirst].
      intros E. apply Hn. left. exact E.
Qed.

Lemma format_unseen_NoDup (sources : list Enhanced) :
  forall seen, NoDup (map src_file_name (format_unseen sources seen)).
Proof.
  induction sources as [|c rest IH]; intros seen; cbn [format_unseen];
    [constructor|].
  cbv zeta. fold (source_name c).
  destruct (mem_string (source_name c) seen); [apply IH|].
  cbn [map]. constructor; [|apply IH].
  intros Hin. apply in_map_iff in Hin as (s & E & Hs).
  apply format_unseen_first in Hs as (Hn & _). apply Hn. left.
  rewrite E. reflexivity.
Qed.

Lemma format_unseen_covers (sources : list Enhanced) :
  forall seen c,
    In c sources ->
    In (source_name c) seen
    \/ In (source_name c) (map src_file_name (format_unseen sources seen)).
Proof.
  induction sources as [|c0 rest IH]; intros seen c Hc; [contradiction|].
  cbn [format_unseen]. cbv zeta. fold (source_name c0).
  destruct (mem_string (source_name c0) seen) eqn:Hseen.
  - destruct Hc as [<-|Hc]; [left; now apply mem_string_In|now apply IH].
  - cbn [map]. destruct Hc as [<-|Hc]; [right; now left|].
    destruct (IH (source_name c0 :: seen) c Hc) as [[E|H]|H]; auto.
    + right. left. cbn [format_source src_file_name]. exact E.
    + right. now right.
Qed.

Lemma format_unseen_length (sources : list Enhanced) :
  forall seen, (List.length (format_unseen sources seen) <= List.length sources)%nat.
Proof.
  induction sources as [|c rest IH]; intros seen; cbn [format_unseen List.length];
    [lia|].
  cbv zeta. destruct (mem_string _ seen); cbn [List.length].
  - specialize (IH seen). lia.
  - specialize (IH (get_default (file_name (metadata (base c))) "Unknown" :: seen)).
    lia.
Qed.

Lemma sources_nonempty (sources : list Enhanced) :
  sources <> [] -> _format_enterprise_sources sources <> [].
Proof.
  destruct sources as [|c rest]; [congruence|]. intros _ E.
  apply (f_equal (@List.length Source)) in E.
  unfold _format_enterprise_sources in E.
  rewrite (Permutation_length (sort_desc_perm src_relevance_score _)) in E.
  cbn in E. discriminate.
Qed.

(** X17.  The sources of a result name every file of the chunks once: the
    file names are pairwise distinct, every chunk has its file among them,
    each source is the formatted first chunk of its file, and the sources
    come by raw relevance score, largest first. *)
Theorem sources_list_each_file_once (sources : list Enhanced) :
  let listed := _format_enterprise_sources sources in
  NoDup (map src_file_name listed)
  /\ ordered (fun a b => src_relevance_score b <= src_relevance_score a)%Q listed
  /\ (forall c, In c sources -> In (source_name c) (map src_file_name listed))
  /\ (forall s, In s listed ->
        exists before c after,
          sources = (before ++ c :: after)%list
          /\ s = format_source c
          /\ forall c', In c' before -> source_name c' <> src_file_name s)
  /\ (List.length listed <= List.length sources)%nat.
Proof.
  cbv zeta. unfold _format_enterprise_sources.
  pose proof (sort_desc_perm src_relevance_score (format_unseen sources [])) as Hp.
  repeat apply conj.
  - eapply Permutation_NoDup; [apply Permutation_map; symmetry; exact Hp|].
    apply format_unseen_NoDup.
  - apply sort_desc_sorted.
  - intros c Hc. destruct (format_unseen_covers sources [] c Hc) as [[]|H].
    eapply Permutation_in; [apply Permutation_map; symmetry; exact Hp|exact H].
  - intros s Hs. apply sort_desc_In in Hs.
    now apply format_unseen_first in Hs as (_ & H).
  - rewrite (Permutation_length Hp). apply format_unseen_length.
Qed.

End SourcesFacts.

(* ================================================================== *)
(** ** Response orchestrator, further properties *)

Module PipelineExtras.

Import Py.
Import Optimizer.
Import Pipeline.
Import PipelineFacts.

Lemma select_in_document_error self top_k (prioritized_matches : list Enhanced) :
  forall acc e,
    select_in_document self top_k prioritized_matches acc = inl e ->
    e = KeyError "text".
Proof.
  induction prioritized_matches as [|m rest IH]; intros acc e H;
    cbn [select_in_document] in H; [discriminate|].
  destruct (text (metadata (base m))); [|now injection H as <-].
  destruct (Qlt_bool _ _); [discriminate|].
  cbv zeta in H. destruct (_ <=? _)%Z; [discriminate|]. eapply IH. exact H.
Qed.

Lemma select_from_documents_error self query top_k
    (sorted_docs : list (string * list Enhanced)) :
  forall acc e,
    select_from_documents self query top_k sorted_docs acc = inl e ->
    e = KeyError "text".
Proof.
  induction sorted_docs as [|[n ms] rest IH]; intros acc e H;
    cbn [select_from_documents] in H; [discriminate|].
  destruct (select_in_document self top_k (prioritize query ms) acc)
    as [e1|acc1] eqn:Hdoc.
  - injection H as <-. eapply select_in_document_error. exact Hdoc.
  - destruct (_ <=? _)%Z; [discriminate|]. eapply IH. exact H.
Qed.

(** The optimizer reads the matches through the relevance filter only. *)
Lemma optimize_relevant extract_entities self matches query top_k :
  _optimize_context_selection extract_entities self matches query top_k
  = _optimize_context_selection extract_entities self
      (filter (fun m => Qle_bool (min_context_relevance self) (score m)) matches)
      query top_k.
Proof.
  assert (Hidem : forall (f : Match -> bool) l, filter f (filter f l) = filter f l).
  { intros f l. induction l as [|x l IH]; cbn; [reflexivity|].
    destruct (f x) eqn:E; cbn; [rewrite E; now f_equal|exact IH]. }
  unfold _optimize_context_selection, sorted_documents, enhance_matches. cbv zeta.
  now rewrite Hidem.
Qed.

Lemma optimize_error_text extract_entities self matches query top_k e :
  _optimize_context_selection extract_entities self matches query top_k = inl e ->
  e = KeyError "text" /\ exists m, In m matches /\ text (metadata m) = None.
Proof.
  intros H. split.
  - generalize H. unfold _optimize_context_selection. cbv zeta.
    destruct (select_from_documents _ _ _ _ _) as [e1|acc] eqn:Hsel.
    + intros H0. injection H0 as <-. eapply select_from_documents_error. exact Hsel.
    + destruct (selected_chunks acc); discriminate.
  - destruct (forallb (fun m => match text (metadata m) with
                                | Some _ => true | None => false end) matches) eqn:E.
    + exfalso.
      destruct (OptimizerFacts.optimize_returns extract_entities self matches query top_k)
        as (context & Hc); [|congruence].
      intros m Hm. rewrite forallb_forall in E. specialize (E m Hm).
      destruct (text (metadata m)); [discriminate|discriminate].
    + assert (Hex : existsb (fun m => negb match text (metadata m) with
                                           | Some _ => true | None => false end)
                            matches = true).
      { clear H. induction matches as [|m ms IH]; [discriminate|]. cbn in *.
        destruct (text (metadata m)); cbn in *; auto. }
      apply existsb_exists in Hex as (m & Hm & Hn). exists m. split; [exact Hm|].
      destruct (text (metadata m)); [discriminate|reflexivity].
Qed.

(** The optimizer raises for one reason only: a match that reaches
    [min_context_relevance] and has no text. *)
Lemma optimize_error extract_entities self matches query top_k e :
  _optimize_context_selection extract_entities self matches query top_k = inl e ->
  e = KeyError "text"
  /\ exists m, In m matches
               /\ (min_context_relevance self <= score m)%Q
               /\ text (metadata m) = None.
Proof.
  rewrite optimize_relevant. intros H.
  apply optimize_error_text in H as (He & m & Hm & Hnone).
  split; [exact He|]. apply filter_In in Hm as (Hm & Hrel).
  exists m. repeat split; [exact Hm|now apply Qle_bool_iff|exact Hnone].
Qed.

Section Queries.

Context {W Vec RichContent : Type}.

Variable embed_text : string -> W -> result Vec * W.
Variable query_vectors : Vec -> string -> Z -> W -> result (list Match) * W.
Variable llm_invoke : Prompt -> W -> result string * W.
Variable extract_entities : string -> string -> QueryEntities.
Variable generate_rich_content :
  string -> list Enhanced -> string -> W -> (RichContent * Q) * W.
Variable generate_rich_content_for_general_query :
  string -> W -> (RichContent * Q) * W.

Implicit Types (st : State W RichContent) (query tenant_id user_id : string).

Local Abbreviation generate := (_generate_enterprise_answer llm_invoke).
Local Abbreviation fallback :=
  (_generate_enterprise_answer_with_fallback
     embed_text query_vectors llm_invoke extract_entities).
Local Abbreviation run_query :=
  (query_documents embed_text query_vectors llm_invoke extract_entities
     generate_rich_content generate_rich_content_for_general_query).

(** *** What a run of the fallback leaves behind *)

(** The fallback does not touch the cache; when the chunks of the context
    carry their text it returns an answer, after a first generation with
    the prompt of the context. *)
Lemma fallback_effects self query context current_top_k tenant_id st r st' :
  fallback self query context current_top_k tenant_id st = (r, st') ->
  query_cache st' = query_cache st
  /\ (chunks_have_text context ->
      (exists answer, r = inr answer)
      /\ exists evs,
           trace st' = (trace st ++ Generated (generation_prompt query context) :: evs)%list).
Proof.
  rewrite fallback_cases.
  destruct (chunks_have_text_dec context) as [Ht|Ht].
  2:{ rewrite (generate_raises _ _ _ _ Ht). intros H. injection H as <- <-.
      split; [reflexivity|]. intros Ht'. contradiction. }
  rewrite (generate_run _ _ _ _ Ht).
  set (answer := generated_answer context _).
  destruct (retry_due answer query current_top_k).
  2:{ intros H. injection H as <- <-. split; [reflexivity|]. intros _.
      split; [eauto|]. exists []. reflexivity. }
  rewrite embed_run. destruct (fst (embed_text _ _)) as [e|v].
  { intros H. injection H as <- <-. split; [reflexivity|]. intros _.
    split; [eauto|]. eexists [_]. cbn [trace after]. now rewrite <- !app_assoc. }
  rewrite search_run. destruct (fst (query_vectors _ _ _ _)) as [e|[|m ms]].
  1,2: intros H; injection H as <- <-; (split; [reflexivity|]); intros _;
       (split; [eauto|]); eexists [_; _]; cbn [trace after];
       now rewrite <- !app_assoc.
  rewrite optimize_run.
  destruct (_optimize_context_selection _ _ _ _ _) as [e|optimized_context].
  { intros H. injection H as <- <-. split; [reflexivity|]. intros _.
    split; [eauto|]. eexists [_; _; _]. cbn [trace after].
    now rewrite <- !app_assoc. }
  match goal with
  | |- context [generate query optimized_context ?s] =>
      destruct (generate query optimized_context s) as [[e|fallback_answer] st5] eqn:G2
  end.
  - apply generate_raised in G2 as ->.
    intros H. injection H as <- <-. split; [reflexivity|]. intros _.
    split; [eauto|]. eexists [_; _; _]. cbn [trace after].
    now rewrite <- !app_assoc.
  - apply generate_returned in G2 as (_ & ->).
    intros H. injection H as <- <-. split; [reflexivity|]. intros _.
    split; [eauto|]. eexists [_; _; _; _]. cbn [trace after].
    now rewrite <- !app_assoc.
Qed.

(** The cache after a query: as before, or with the result of the query
    stored by [_cache_result] under the key of the query. *)
Lemma query_cache_step self query tenant_id user_id top_k st :
  let st' := snd (run_query self query tenant_id user_id top_k st) in
  query_cache st' = query_cache st
  \/ exists r,
       fst (run_query self query tenant_id user_id top_k st) = inr r
       /\ query_cache st'
          = Cache._cache_result (cache_max_size self) (cache_key_of query tenant_id) r
              (query_cache st).
Proof.
  cbv zeta. rewrite query_documents_cases.
  destruct (Dict.lookup _ _); [now left|].
  rewrite embed_run. destruct (fst (embed_text _ _)) as [e|v]; [now left|].
  rewrite search_run. destruct (fst (query_vectors _ _ _ _)) as [e|matches];
    [now left|].
  destruct (low_quality self matches); [now left|].
  rewrite optimize_run.
  destruct (_optimize_context_selection _ _ _ _ _) as [e|optimized_context];
    [now left|].
  match goal with
  | |- context [fallback self query optimized_context ?k tenant_id ?s] =>
      destruct (fallback self query optimized_context k tenant_id s)
        as [[e|answer] st4] eqn:F
  end; apply fallback_effects in F as (Hc & _); cbn [query_cache after] in Hc.
  - left. exact Hc.
  - right. cbv zeta. cbn [fst snd query_cache]. rewrite Hc. eauto.
Qed.

(** *** Failures *)

(** X18.  Called with an integer [top_k], as its signature declares, a
    query fails in three cases only, and each time with the cache as it was
    and without any call of the model: the embedding of the query raised,
    the first vector search raised, or the matches passed the quality gate
    and one of them reaches [min_context_relevance] and has no text, on
    which the optimizer raised [KeyError].  Failures of the model and
    everything that goes wrong inside the retry are absorbed.  (A null
    [top_k], which the chat route lets through, is not covered.) *)
Theorem query_failures self query tenant_id user_id top_k st e st' :
  run_query self query tenant_id user_id top_k st = (inl e, st') ->
  Dict.lookup (cache_key_of query tenant_id) (query_cache st) = None
  /\ query_cache st' = query_cache st
  /\ generations (trace st') = generations (trace st)
  /\ (fst (embed_text (_preprocess_query query) (world st)) = inl e
      \/ (exists v st1,
            embed embed_text (_preprocess_query query) st = (inr v, st1)
            /\ fst (query_vectors v tenant_id (Breadth._get_dynamic_top_k query top_k)
                      (world st1)) = inl e)
      \/ (exists v st1 matches st2,
            embed embed_text (_preprocess_query query) st = (inr v, st1)
            /\ search query_vectors v tenant_id
                 (Breadth._get_dynamic_top_k query top_k) st1 = (inr matches, st2)
            /\ low_quality self matches = false
            /\ _optimize_context_selection extract_entities self matches query top_k
               = inl e
            /\ e = KeyError "text"
            /\ exists m, In m matches
                         /\ (min_context_relevance self <= score m)%Q
                         /\ text (metadata m) = None)).
Proof.
  rewrite query_documents_cases.
  destruct (Dict.lookup _ _); [discriminate|]. intros Hrun0.
  split; [reflexivity|]. revert Hrun0.
  destruct (embed embed_text (_preprocess_query query) st) as [[e1|v] st1] eqn:Hembed.
  { rewrite embed_run in Hembed. injection Hembed as He <-.
    intros Hrun. injection Hrun as <- <-. cbn [query_cache trace after].
    repeat apply conj; auto.
    unfold generations. rewrite filter_app. cbn. now rewrite app_nil_r. }
  destruct (search query_vectors v tenant_id _ st1) as [[e1|matches] st2] eqn:Hsearch.
  { pose proof Hembed as Hembed'.
    rewrite embed_run in Hembed'. injection Hembed' as _ Hst1.
    rewrite search_run in Hsearch. injection Hsearch as He <-.
    intros Hrun. injection Hrun as <- <-. subst st1. cbn [query_cache trace after].
    repeat apply conj; auto.
    - unfold generations. rewrite !filter_app. cbn. now rewrite !app_nil_r.
    - right. left. eexists. eexists.
      split; [first [reflexivity|exact Hembed]|]. exact He. }
  destruct (low_quality self matches) eqn:Hlow; [discriminate|].
  rewrite optimize_run.
  destruct (_optimize_context_selection _ _ _ _ _) as [e1|optimized_context] eqn:Hopt.
  { pose proof Hembed as Hembed'. pose proof Hsearch as Hsearch'.
    rewrite embed_run in Hembed'. injection Hembed' as _ Hst1.
    rewrite search_run in Hsearch'. injection Hsearch' as _ Hst2.
    intros Hrun. injection Hrun as <- <-. subst st2 st1. cbn [query_cache trace after].
    pose proof (optimize_error _ _ _ _ _ _ Hopt) as (He & Hm).
    repeat apply conj; auto.
    - unfold generations. rewrite !filter_app. cbn. now rewrite !app_nil_r.
    - right. right. exists v. eexists. exists matches. eexists.
      split; [first [reflexivity|exact Hembed]|].
      split; [first [reflexivity|exact Hsearch]|].
      split; [first [reflexivity|exact Hlow]|].
      split; [first [reflexivity|exact Hopt]|]. split; [exact He|exact Hm]. }
  match goal with
  | |- context [fallback self query optimized_context ?k tenant_id ?s] =>
      destruct (fallback self query optimized_context k tenant_id s)
        as [[e1|answer] st4] eqn:F
  end; [|discriminate].
  exfalso. apply fallback_effects in F as (_ & F).
  destruct F as ((answer & Ha) & _); [|discriminate].
  eapply optimized_chunks_have_text. exact Hopt.
Qed.

(** *** Calls *)

(** X19.  The calls of one query.  A query makes at most two vector
    searches, every one in the namespace of the tenant of the query: the
    first with the dynamic breadth, the second, that of the retry, with
    breadth 50; it optimizes a context at most twice and calls the model at
    most twice.  A query answered from the cache makes no call. *)
Theorem query_calls self query tenant_id user_id top_k st :
  let st' := snd (run_query self query tenant_id user_id top_k st) in
  let first := Searched tenant_id (Breadth._get_dynamic_top_k query top_k) in
  exists evs,
    trace st' = (trace st ++ evs)%list
    /\ (searches evs = [] \/ searches evs = [first]
        \/ searches evs = [first; Searched tenant_id 50])
    /\ (List.length (optimizations evs) <= 2)%nat
    /\ (List.length (generations evs) <= 2)%nat
    /\ (Dict.lookup (cache_key_of query tenant_id) (query_cache st) <> None ->
        evs = []).
Proof.
  cbv zeta. rewrite query_documents_cases.
  destruct (Dict.lookup _ _).
  { exists []. cbn. rewrite app_nil_r. repeat apply conj; auto. }
  rewrite embed_run. destruct (fst (embed_text _ _)) as [e|v].
  { eexists [_]. cbn. repeat apply conj; auto. congruence. }
  rewrite search_run. destruct (fst (query_vectors _ _ _ _)) as [e|matches].
  { eexists [_; _]. cbn [snd trace after]. rewrite <- !app_assoc. cbn.
    repeat apply conj; auto. congruence. }
  destruct (low_quality self matches).
  { cbv zeta. eexists [_; _; _]. cbn [snd trace after]. rewrite <- !app_assoc. cbn.
    repeat apply conj; auto. congruence. }
  rewrite optimize_run.
  destruct (_optimize_context_selection _ _ _ _ _) as [e|optimized_context].
  { eexists [_; _; _]. cbn [snd trace after]. rewrite <- !app_assoc. cbn.
    repeat apply conj; auto. congruence. }
  match goal with
  | |- context [fallback self query optimized_context ?k tenant_id ?s] =>
      destruct (fallback self query optimized_context k tenant_id s)
        as [r st4] eqn:F
  end.
  apply fallback_calls in F as (evs & Htr & Hs & Ho & Hg).
  cbn [trace after] in Htr. rewrite <- !app_assoc in Htr. cbn [app] in Htr.
  exists (Embedded (_preprocess_query query)
          :: Searched tenant_id (Breadth._get_dynamic_top_k query top_k)
          :: Optimized top_k :: evs).
  destruct r as [e|answer]; cbv zeta; cbn [snd trace]; rewrite Htr;
    (repeat apply conj;
     [ reflexivity
     | cbn; fold (searches evs); destruct Hs as [->| ->]; auto
     | cbn; fold (optimizations evs); lia
     | cbn; fold (generations evs); lia
     | congruence ]).
Qed.

(** X20.  A query that is not analytical, or whose dynamic breadth is 40
    or more, is answered in one pass: at most one vector search, one
    optimization and one call of the model, whatever the model answers. *)
Theorem single_pass_queries self query tenant_id user_id top_k st :
  Breadth._is_analytical_query query = false
  \/ (40 <= Breadth._get_dynamic_top_k query top_k)%Z ->
  let st' := snd (run_query self query tenant_id user_id top_k st) in
  exists evs,
    trace st' = (trace st ++ evs)%list
    /\ (List.length (searches evs) <= 1)%nat
    /\ (List.length (optimizations evs) <= 1)%nat
    /\ (List.length (generations evs) <= 1)%nat.
Proof.
  intros Hq. cbv zeta.
  assert (Hno : forall answer,
             retry_due answer query (Breadth._get_dynamic_top_k query top_k) = false).
  { intros answer. unfold retry_due. destruct Hq as [->|Hq].
    - now rewrite andb_false_r.
    - apply Z.ltb_ge in Hq. rewrite Hq. now rewrite andb_false_r. }
  rewrite query_documents_cases.
  destruct (Dict.lookup _ _).
  { exists []. cbn. rewrite app_nil_r. repeat apply conj; auto. }
  rewrite embed_run. destruct (fst (embed_text _ _)) as [e|v].
  { eexists [_]. cbn. repeat apply conj; auto. }
  rewrite search_run. destruct (fst (query_vectors _ _ _ _)) as [e|matches].
  { eexists [_; _]. cbn [snd trace after]. rewrite <- !app_assoc. cbn.
    repeat apply conj; auto. }
  destruct (low_quality self matches).
  { cbv zeta. eexists [_; _; _]. cbn [snd trace after]. rewrite <- !app_assoc. cbn.
    repeat apply conj; auto. }
  rewrite optimize_run.
  destruct (_optimize_context_selection _ _ _ _ _) as [e|optimized_context].
  { eexists [_; _; _]. cbn [snd trace after]. rewrite <- !app_assoc. cbn.
    repeat apply conj; auto. }
  rewrite fallback_cases.
  match goal with
  | |- context [generate query optimized_context ?s] =>
      destruct (generate query optimized_context s) as [[e|answer] st4] eqn:G
  end.
  - apply generate_raised in G as ->.
    eexists [_; _; _]. cbn [snd trace after]. rewrite <- !app_assoc. cbn.
    repeat apply conj; auto.
  - apply generate_returned in G as (_ & ->). rewrite Hno. cbv zeta.
    eexists [_; _; _; _]. cbn [snd trace after]. rewrite <- !app_assoc. cbn.
    repeat apply conj; auto.
Qed.

(** *** A context without chunks on the document path *)

(** X21.  When the matches pass the quality gate and the optimizer still
    selects no chunk, the model is asked with the general-knowledge prompt,
    yet the result is labelled [document_based], with no source, confidence
    0 and quality 0, and it is stored in the cache like any document
    result. *)
Theorem ungrounded_document_result self query tenant_id user_id top_k
    st v st1 matches st2 context :
  Dict.lookup (cache_key_of query tenant_id) (query_cache st) = None ->
  embed embed_text (_preprocess_query query) st = (inr v, st1) ->
  search query_vectors v tenant_id (Breadth._get_dynamic_top_k query top_k) st1
  = (inr matches, st2) ->
  low_quality self matches = false ->
  _optimize_context_selection extract_entities self matches query top_k = inr context ->
  chunks context = [] ->
  exists r st' evs,
    run_query self query tenant_id user_id top_k st = (inr r, st')
    /\ response_type r = "document_based"
    /\ result_sources r = []
    /\ result_confidence r = 0
    /\ context_quality r = 0
    /\ trace st' = (trace st2 ++ Optimized top_k
                      :: Generated (GeneralPrompt (is_visualization_request query) query)
                      :: evs)%list
    /\ Dict.lookup (cache_key_of query tenant_id) (query_cache st') = Some r.
Proof.
  intros Hmiss Hembed Hsearch Hlow Hopt Hempty.
  pose proof (OptimizerExtras.context_without_chunks _ _ _ _ _ _ Hopt Hempty) as ->.
  rewrite query_documents_cases, Hmiss, Hembed, Hsearch, Hlow, optimize_run, Hopt.
  match goal with
  | |- context [fallback self query empty_context ?k tenant_id ?s] =>
      destruct (fallback self query empty_context k tenant_id s)
        as [r st4] eqn:F
  end.
  apply fallback_effects in F as (_ & F).
  destruct F as ((answer & ->) & evs & Htr); [reflexivity|].
  cbv zeta. eexists. eexists. exists evs. split; [reflexivity|].
  cbn [response_type result_sources result_confidence context_quality
       document_result query_cache trace].
  repeat apply conj; try reflexivity.
  - rewrite Htr. cbn [trace after generation_prompt chunks empty_context].
    now rewrite <- app_assoc.
  - apply CacheFacts.lookup_cache_result.
Qed.

(** *** A context with chunks on the document path *)

Lemma gate_passed self matches :
  low_quality self matches = false ->
  exists m, In m matches /\ (similarity_threshold self <= score m)%Q.
Proof.
  unfold low_quality, max_score. destruct matches as [|m0 ms]; [discriminate|].
  intros H. apply OptimizerFacts.Qlt_bool_false in H.
  destruct (OptimizerFacts.py_max_attained (map score (m0 :: ms))) as (y & Hy & Hmax);
    [discriminate|].
  apply in_map_iff in Hy as (m & <- & Hm). exists m. split; [exact Hm|].
  now rewrite <- Hmax.
Qed.

(** X22.  When the matches pass the quality gate, the relevance floor is
    not above the similarity threshold, and every match carries a text that
    fits the token budget on its own, the query completes with a
    [document_based] result that has sources: the optimizer selects at
    least one chunk, the first call of the model is made with the
    enterprise prompt over the selected chunks, and the sources and the
    confidence of the result are those of this first context, whether the
    answer comes from the first generation or from the retry. *)
Theorem grounded_document_result self query tenant_id user_id top_k
    st v st1 matches st2 :
  Dict.lookup (cache_key_of query tenant_id) (query_cache st) = None ->
  embed embed_text (_preprocess_query query) st = (inr v, st1) ->
  search query_vectors v tenant_id (Breadth._get_dynamic_top_k query top_k) st1
  = (inr matches, st2) ->
  low_quality self matches = false ->
  (min_context_relevance self <= similarity_threshold self)%Q ->
  (forall m, In m matches ->
     exists t, text (metadata m) = Some t
               /\ (chunk_tokens_of t <= inject_Z (max_context_tokens self))%Q) ->
  exists context answer rc st' evs,
    _optimize_context_selection extract_entities self matches query top_k = inr context
    /\ chunks context <> []
    /\ run_query self query tenant_id user_id top_k st
       = (inr (document_result matches context answer rc), st')
    /\ result_sources (document_result matches context answer rc) <> []
    /\ trace st'
       = (trace st2 ++ Optimized top_k
            :: Generated (EnterprisePrompt (system_template_for (document_types context))
                            query (chunks context))
            :: evs)%list.
Proof.
  intros Hmiss Hembed Hsearch Hlow Hfloor Hfit.
  destruct (gate_passed self matches Hlow) as (m & Hm & Hscore).
  destruct (OptimizerExtras.relevant_match_is_selected
              extract_entities self matches query top_k) as (context & Hopt & Hne).
  { exists m. split; [exact Hm|]. eapply Qle_trans; eassumption. }
  { exact Hfit. }
  rewrite query_documents_cases, Hmiss, Hembed, Hsearch, Hlow, optimize_run, Hopt.
  match goal with
  | |- context [fallback self query context ?k tenant_id ?s] =>
      destruct (fallback self query context k tenant_id s) as [r st4] eqn:F
  end.
  apply fallback_effects in F as (_ & F).
  destruct F as ((answer & ->) & evs & Htr);
    [eapply optimized_chunks_have_text; exact Hopt|].
  cbv zeta. exists context, answer. eexists. eexists. exists evs.
  split; [reflexivity|]. split; [exact Hne|]. split; [reflexivity|]. split.
  - cbn [result_sources document_result].
    apply SourcesFacts.sources_nonempty.
    destruct (OptimizerFacts.context_chunks _ _ _ _ _ _ Hopt) as (_ & _ & _ & ->).
    exact Hne.
  - cbn [trace]. rewrite Htr. cbn [trace after]. rewrite <- app_assoc.
    unfold generation_prompt. destruct (chunks context); [congruence|reflexivity].
Qed.

(** *** The cache across queries *)

(** X23.  A query keeps the cache well formed: its keys stay pairwise
    distinct, and with a maximum size of at least one it never holds more
    than [cache_max_size] entries. *)
Theorem query_keeps_cache_invariant self query tenant_id user_id top_k st :
  NoDup (Dict.keys (query_cache st)) ->
  (1 <= cache_max_size self)%Z ->
  (Z.of_nat (List.length (query_cache st)) <= cache_max_size self)%Z ->
  let st' := snd (run_query self query tenant_id user_id top_k st) in
  NoDup (Dict.keys (query_cache st'))
  /\ (Z.of_nat (List.length (query_cache st')) <= cache_max_size self)%Z.
Proof.
  intros Hd HN Hlen. cbv zeta.
  destruct (query_cache_step self query tenant_id user_id top_k st)
    as [Hc|(r & _ & Hc)]; rewrite Hc.
  - auto.
  - split; [now apply CacheExtras._cache_result_NoDup
           |now apply CacheExtras._cache_result_length].
Qed.

(** X24.  The cache does not leak across tenants: whatever a query of one
    tenant finds in the cache after a query of another tenant was already
    there before it. *)
Theorem cache_is_tenant_isolated self query tenant_id user_id top_k st
    other_query other_tenant r :
  NoDup (Dict.keys (query_cache st)) ->
  tenant_id <> other_tenant ->
  let st' := snd (run_query self query tenant_id user_id top_k st) in
  Dict.lookup (cache_key_of other_query other_tenant) (query_cache st') = Some r ->
  Dict.lookup (cache_key_of other_query other_tenant) (query_cache st) = Some r.
Proof.
  intros Hd Hne. cbv zeta.
  destruct (query_cache_step self query tenant_id user_id top_k st)
    as [Hc|(r0 & _ & Hc)]; rewrite Hc; [auto|].
  rewrite CacheExtras.lookup_cache_result_other.
  - destruct (_ <=? _)%Z; [|auto]. now apply CacheExtras.lookup_skipn_NoDup.
  - intros E. apply Hne. symmetry. eapply KeyFacts.key_tenant. exact E.
Qed.

(** X25.  Letter case does not tell queries apart: two queries that differ
    in letter case only have the same cache key and the same dynamic
    breadth, so that the result cached for the one is what the other
    gets. *)
Theorem letter_case_is_ignored self query1 query2 tenant_id :
  Str.lower query1 = Str.lower query2 ->
  cache_key_of query1 tenant_id = cache_key_of query2 tenant_id
  /\ (forall base_top_k,
        Breadth._get_dynamic_top_k query1 base_top_k
        = Breadth._get_dynamic_top_k query2 base_top_k)
  /\ (forall st r user_id top_k,
        Dict.lookup (cache_key_of query1 tenant_id) (query_cache st) = Some r ->
        run_query self query2 tenant_id user_id top_k st = (inr r, st)).
Proof.
  intros Hl.
  assert (Hk : cache_key_of query1 tenant_id = cache_key_of query2 tenant_id).
  { unfold cache_key_of, _preprocess_query. now rewrite Hl. }
  repeat apply conj.
  - exact Hk.
  - intros base_top_k. unfold Breadth._get_dynamic_top_k, Breadth._is_analytical_query.
    now rewrite Hl.
  - intros st r user_id top_k Hhit. rewrite query_documents_cases, <- Hk, Hhit.
    reflexivity.
Qed.

End Queries.

End PipelineExtras.

(** *** The scripted world, again *)

Module PipelineScenarios.

Import Py.
Import Optimizer.
Import Pipeline.
Import PipelineExtras.
Import Samples.
Import Scenarios.

Lemma query_failures_witness :
  exists st',
    run_with default_settings (sample_search [textless_chunk] []) (sample_llm [])
      sample_query 8 fresh = (inl (KeyError "text"), st')
    /\ query_cache st' = []
    /\ generations (trace st') = [].
Proof.
  destruct (run_with default_settings (sample_search [textless_chunk] []) (sample_llm [])
              sample_query 8 fresh) as [[e|r] st'] eqn:Hrun.
  - destruct (query_failures _ _ _ _ _ _ _ _ _ _ _ _ _ _ Hrun)
      as (_ & Hcache & Hgen & _).
    vm_compute in Hrun. injection Hrun as <- _.
    exists st'. repeat apply conj; [reflexivity|exact Hcache|exact Hgen].
  - vm_compute in Hrun. discriminate.
Defined.

Lemma single_pass_queries_witness :
  exists evs,
    trace (snd (run_with default_settings (sample_search sample_matches sample_matches)
                  (sample_llm ["No information on carriers."]) sample_query 8 fresh))
    = evs
    /\ (List.length (searches evs) <= 1)%nat
    /\ (List.length (generations evs) <= 1)%nat.
Proof.
  destruct (single_pass_queries sample_embed (sample_search sample_matches sample_matches)
              (sample_llm ["No information on carriers."]) no_entities
              sample_rich_content sample_rich_content_general
              default_settings sample_query "acme" "u1" 8 fresh)
    as (evs & Htr & Hs & _ & Hg).
  - right. apply Z.leb_le. vm_compute. reflexivity.
  - exists evs. repeat apply conj; [exact Htr|exact Hs|exact Hg].
Defined.

Lemma ungrounded_document_result_witness :
  exists r st',
    run_with lenient_settings (sample_search borderline_matches [])
      (sample_llm ["Carriers move goods."]) "what do carriers do" 8 fresh = (inr r, st')
    /\ response_type r = "document_based"
    /\ result_sources r = []
    /\ result_confidence r = 0
    /\ generations (trace st')
       = [Generated (GeneralPrompt false "what do carriers do")].
Proof.
  edestruct (ungrounded_document_result sample_embed
               (sample_search borderline_matches [])
               (sample_llm ["Carriers move goods."]) no_entities
               sample_rich_content sample_rich_content_general
               lenient_settings "what do carriers do" "acme" "u1" 8 fresh)
    as (r & st' & evs & Hrun & Ht & Hs & Hc & _).
  - reflexivity.
  - reflexivity.
  - reflexivity.
  - vm_compute. reflexivity.
  - vm_compute. reflexivity.
  - reflexivity.
  - exists r, st'. repeat apply conj; try assumption.
    vm_compute in Hrun. injection Hrun as _ <-. reflexivity.
Defined.

Lemma grounded_document_result_witness :
  exists r st',
    run_with default_settings (sample_search sample_matches sample_matches)
      (sample_llm ["BlueDart is on time."]) sample_query 8 fresh = (inr r, st')
    /\ result_sources r <> []
    /\ response_type r = "document_based".
Proof.
  edestruct (grounded_document_result sample_embed
               (sample_search sample_matches sample_matches)
               (sample_llm ["BlueDart is on time."]) no_entities
               sample_rich_content sample_rich_content_general
               default_settings sample_query "acme" "u1" 8 fresh)
    as (context & answer & rc & st' & evs & _ & _ & Hrun & Hsrc & _).
  - reflexivity.
  - reflexivity.
  - reflexivity.
  - vm_compute. reflexivity.
  - apply Qle_bool_iff. vm_compute. reflexivity.
  - intros m [<-|[<-|[<-|[<-|[]]]]]; eexists; (split; [reflexivity|]);
      apply Qle_bool_iff; vm_compute; reflexivity.
  - eexists. eexists. split; [exact Hrun|]. split; [exact Hsrc|reflexivity].
Defined.

Lemma query_keeps_cache_invariant_witness :
  let st' := snd (run_with default_settings (sample_search sample_matches sample_matches)
                    (sample_llm ["BlueDart is on time."]) sample_query 8 fresh) in
  NoDup (Dict.keys (query_cache st'))
  /\ (Z.of_nat (List.length (query_cache st')) <= 500)%Z.
Proof.
  apply (query_keeps_cache_invariant sample_embed
           (sample_search sample_matches sample_matches)
           (sample_llm ["BlueDart is on time."]) no_entities
           sample_rich_content sample_rich_content_general
           default_settings sample_query "acme" "u1" 8 fresh).
  - constructor.
  - cbn. lia.
  - cbn. lia.
Defined.

Lemma cache_is_tenant_isolated_witness :
  Dict.lookup (cache_key_of sample_query "globex")
    (query_cache
       (snd (run_with default_settings (sample_search sample_matches sample_matches)
               (sample_llm ["BlueDart is on time."]) sample_query 8 fresh)))
  = None.
Proof.
  destruct (Dict.lookup _ _) as [r|] eqn:E; [|reflexivity].
  apply (cache_is_tenant_isolated sample_embed
           (sample_search sample_matches sample_matches)
           (sample_llm ["BlueDart is on time."]) no_entities
           sample_rich_content sample_rich_content_general
           default_settings sample_query "acme" "u1" 8 fresh
           sample_query "globex" r) in E.
  - discriminate E.
  - constructor.
  - discriminate.
Defined.

Lemma letter_case_is_ignored_witness :
  cache_key_of "Compare CARRIER Performance" "acme" = cache_key_of sample_query "acme"
  /\ Breadth._get_dynamic_top_k "Compare CARRIER Performance" 8 = 40%Z.
Proof.
  destruct (letter_case_is_ignored sample_embed
              (sample_search sample_matches sample_matches)
              (sample_llm []) no_entities
              sample_rich_content sample_rich_content_general
              default_settings "Compare CARRIER Performance" sample_query "acme")
    as (Hk & Hb & _).
  - reflexivity.
  - split; [exact Hk|]. rewrite Hb. reflexivity.
Defined.

End PipelineScenarios.

(* ================================================================== *)
(** ** Document deletion, further properties *)

Module DeletionExtras.

Import Py.
Import Optimizer.
Import Deletion.
Import DeletionFacts.
Import DeleteRoute.

Lemma delete_one_true doc_id tenant documents :
  fst (delete_one doc_id tenant documents) = true <->
  exists d, In d documents /\ _id d = doc_id /\ tenant_id d = tenant.
Proof.
  induction documents as [|d rest IH]; cbn [delete_one].
  - split; [discriminate|intros (d & [] & _)].
  - destruct (String.eqb_spec (_id d) doc_id) as [Hid|Hid];
      destruct (String.eqb_spec (tenant_id d) tenant) as [Ht|Ht]; cbn [andb].
    + split; [intros _; exists d; cbn; auto|reflexivity].
    + destruct (delete_one doc_id tenant rest) as [deleted rest'].
      cbn [fst] in *. rewrite IH. split.
      * intros (d' & Hin & H1 & H2). exists d'. cbn. auto.
      * intros (d' & [<-|Hin] & H1 & H2); [congruence|eauto].
    + destruct (delete_one doc_id tenant rest) as [deleted rest'].
      cbn [fst] in *. rewrite IH. split.
      * intros (d' & Hin & H1 & H2). exists d'. cbn. auto.
      * intros (d' & [<-|Hin] & H1 & H2); [congruence|eauto].
    + destruct (delete_one doc_id tenant rest) as [deleted rest'].
      cbn [fst] in *. rewrite IH. split.
      * intros (d' & Hin & H1 & H2). exists d'. cbn. auto.
      * intros (d' & [<-|Hin] & H1 & H2); [congruence|eauto].
Qed.

Lemma find_in_tenant doc_id tenant documents :
  find (fun d => String.eqb (_id d) doc_id)
       (filter (fun d => String.eqb (tenant_id d) tenant) documents) <> None <->
  exists d, In d documents /\ _id d = doc_id /\ tenant_id d = tenant.
Proof.
  split.
  - destruct (find _ _) as [d|] eqn:E; [intros _|congruence].
    apply find_some in E as (Hin & Hid). apply filter_In in Hin as (Hin & Ht).
    exists d. repeat split; [exact Hin|now apply String.eqb_eq..].
  - intros (d & Hin & Hid & Ht) E.
    eapply find_none in E; [|apply filter_In; split; [exact Hin|]].
    + rewrite Hid, String.eqb_refl in E. discriminate.
    + rewrite Ht. apply String.eqb_refl.
Qed.

Lemma delete_document_database doc_id tenant st :
  database (snd (delete_document doc_id tenant st))
  = match database st with
    | None => None
    | Some documents =>
        if fst (delete_document doc_id tenant st)
        then Some (snd (delete_one doc_id tenant documents))
        else Some documents
    end
  /\ (forall documents, database st = Some documents ->
        fst (delete_document doc_id tenant st) = fst (delete_one doc_id tenant documents)).
Proof.
  unfold delete_document, get_documents_by_tenant, model_delete_document.
  destruct (database st) as [documents|] eqn:Hdb;
    [|split; [cbn [snd]; exact Hdb|discriminate]].
  pose proof (find_in_tenant doc_id tenant documents) as Hfind.
  pose proof (delete_one_true doc_id tenant documents) as Htrue.
  pose proof (delete_one_spec doc_id tenant documents) as Hspec.
  destruct (find _ _) as [target|].
  - destruct (delete_one doc_id tenant documents) as [[|] documents'] eqn:Hdel;
      cbn [fst snd negb database] in *.
    + split; [reflexivity|]. intros ? H. injection H as <-. now rewrite Hdel.
    + subst documents'. split; [reflexivity|]. intros ? H. injection H as <-.
      now rewrite Hdel.
  - cbn [fst snd]. split; [exact Hdb|].
    intros ? H. injection H as <-.
    destruct (fst (delete_one doc_id tenant documents)) eqn:E; [|reflexivity].
    exfalso. exact (proj2 Hfind (proj1 Htrue eq_refl) eq_refl).
Qed.

(** X26.  Deletion stays within the tenant.  [delete_document] returns
    [True] exactly when the collection holds a record with that identifier
    and that tenant; the documents of every other tenant are listed as
    before, and when it returns [False] the collection is as it was. *)
Theorem delete_document_is_tenant_scoped doc_id tenant st :
  let outcome := delete_document doc_id tenant st in
  (forall documents, database st = Some documents ->
     (fst outcome = true <->
      exists d, In d documents /\ _id d = doc_id /\ tenant_id d = tenant))
  /\ (database st = None -> fst outcome = false)
  /\ (fst outcome = false -> database (snd outcome) = database st)
  /\ (forall other, other <> tenant ->
        get_documents_by_tenant other (snd outcome) = get_documents_by_tenant other st).
Proof.
  cbv zeta. destruct (delete_document_database doc_id tenant st) as (Hdb & Hfst).
  repeat apply conj.
  - intros documents Hst. rewrite (Hfst _ Hst). apply delete_one_true.
  - intros Hnone. unfold delete_document, get_documents_by_tenant. now rewrite Hnone.
  - intros Hfalse. rewrite Hdb, Hfalse. now destruct (database st).
  - intros other Hother. unfold get_documents_by_tenant. rewrite Hdb.
    destruct (database st) as [documents|] eqn:Hst; [|reflexivity].
    specialize (Hfst documents eq_refl). rewrite Hfst.
    pose proof (delete_one_spec doc_id tenant documents) as Hspec.
    destruct (delete_one doc_id tenant documents) as [deleted documents'].
    cbn [fst snd]. destruct deleted; [|reflexivity].
    destruct Hspec as (before & target & rest & -> & -> & _ & Ht).
    rewrite !filter_app. cbn [filter].
    destruct (String.eqb_spec (tenant_id target) other); [congruence|reflexivity].
Qed.

(** X27.  The route that deletes a document does not look at the role: any
    user deletes any document of the tenant of the user.  The answer is the
    success message exactly when [delete_document] returned [True], and 404
    otherwise; the stores are left as [delete_document] leaves them. *)
Theorem delete_route_ignores_the_role doc_id role tenant st :
  let user := {| user_role := Some role; user_tenant_id := Some tenant |} in
  let outcome := delete_document doc_id tenant st in
  delete_document_route doc_id user st
  = (if fst outcome
     then Deleted "Document deleted successfully"
     else HTTPException 404 "Document not found or could not be deleted",
     snd outcome)
  /\ (forall documents, database st = Some documents ->
        (fst (delete_document_route doc_id user st)
         = Deleted "Document deleted successfully" <->
         exists d, In d documents /\ _id d = doc_id /\ tenant_id d = tenant)).
Proof.
  cbv zeta.
  assert (Hroute : delete_document_route doc_id
                     {| user_role := Some role; user_tenant_id := Some tenant |} st
                   = (if fst (delete_document doc_id tenant st)
                      then Deleted "Document deleted successfully"
                      else HTTPException 404 "Document not found or could not be deleted",
                      snd (delete_document doc_id tenant st))).
  { unfold delete_document_route. cbn [user_role user_tenant_id]. cbv zeta.
    destruct (delete_document doc_id tenant st) as [[|] st']; reflexivity. }
  split; [exact Hroute|].
  intros documents Hst. rewrite Hroute. cbn [fst].
  destruct (delete_document_database doc_id tenant st) as (_ & Hfst).
  rewrite <- delete_one_true, <- (Hfst _ Hst).
  destruct (fst (delete_document doc_id tenant st)); split; congruence.
Qed.

End DeletionExtras.
